(** * FinGenius: a shallow embedding of the request handlers and analytics

    The development follows [src/app.py] and [src/models.py]:

    - amounts are Python floats, i.e. IEEE-754 binary64 numbers; they are
      embedded as Rocq's primitive floats, whose operations are the
      hardware ones (round to nearest, ties to even);
    - the five record tables plus the user table are lists of rows in
      insertion order; a query [filter_by(...).all()] is a [filter],
      [.first()] its head;
    - a Python [dict] is an insertion-ordered association list;
    - a request carries its decoded form or JSON fields; where a handler
      converts a field with [float] or [strptime], the field records whether
      the conversion yields a value or raises;
    - every handler is a function from the state (database + session) to
      a response and a new state; an uncaught exception is the response
      [ServerError], with the uncommitted work rolled back;
    - the database is the default one, SQLite
      ([sqlite:///finance_app.db]), which keeps no NaN: a NaN is bound as
      NULL, so a [nullable=False] column refuses it when the session is
      flushed and a nullable column reads back [None]. *)

From Stdlib Require Import ZArith List String Ascii Bool Lia Floats.
Import ListNotations.
Open Scope string_scope.
Open Scope list_scope.
Open Scope Z_scope.
Set Warnings "-inexact-float,-register-all".

(* ================================================================= *)
(** ** Python values *)

(** [dict]: keys are strings; assignment to an existing key keeps its
    position, a fresh key goes to the end. *)
Definition dict (V : Type) : Type := list (string * V).

Section Dict.
Context {V : Type}.

Fixpoint dict_get (k : string) (d : dict V) : option V :=
  match d with
  | [] => None
  | (k', v) :: d' => if String.eqb k' k then Some v else dict_get k d'
  end.

(** [k in d] *)
Definition dict_mem (k : string) (d : dict V) : bool :=
  match dict_get k d with Some _ => true | None => false end.

(** [d[k] = v] *)
Fixpoint dict_set (k : string) (v : V) (d : dict V) : dict V :=
  match d with
  | [] => [(k, v)]
  | (k', v') :: d' =>
      if String.eqb k' k then (k', v) :: d' else (k', v') :: dict_set k v d'
  end.

(** [d.get(k, default)] *)
Definition dict_get_default (k : string) (default : V) (d : dict V) : V :=
  match dict_get k d with Some v => v | None => default end.

Definition dict_keys (d : dict V) : list string := map fst d.
End Dict.

(** [datetime.date], compared lexicographically. *)
Record pydate : Type := mkdate { year : Z; month : Z; day : Z }.

Definition date_ltb (a b : pydate) : bool :=
  (year a <? year b)
  || ((year a =? year b)
      && ((month a <? month b) || ((month a =? month b) && (day a <? day b)))).

(** True division of floats: [a / b] raises [ZeroDivisionError] when [b]
    compares equal to zero (either sign). *)
Definition py_truediv (a b : float) : option float :=
  if (b =? 0)%float then None else Some (a / b)%float.

(** [min(a, b)] on floats: Python returns [b] only when [b < a]. *)
Definition py_min (a b : float) : float := if (b <? a)%float then b else a.

(* ================================================================= *)
(** ** Aggregation loops, generic in the arithmetic

    The summing and grouping loops of [index], [suggestions] and
    [get_financial_summary] are written once over an addition [add] and
    its start value [zero]; the program runs them at binary64. *)

Section Aggregation.
Variable A : Type.
Variable zero : A.
Variable add : A -> A -> A.

(** [sum(xs)]: the items are added from left to right, starting at 0. *)
Definition sum_with (xs : list A) : A := fold_left add xs zero.

Section Grouping.
Variable R : Type.
Variable key : R -> string.
Variable val : R -> A.

(** One iteration of
    [if key not in d: d[key] = 0]; [d[key] += val]. *)
Definition group_step (d : dict A) (r : R) : dict A :=
  let d1 := if dict_mem (key r) d then d else dict_set (key r) zero d in
  match dict_get (key r) d1 with
  | Some v => dict_set (key r) (add v (val r)) d1
  | None => d1
  end.

Definition group_by (rs : list R) : dict A := fold_left group_step rs [].

(** One iteration of the budget page's loop, which only accumulates
    into keys already present: [if key in d: d[key] += val]. *)
Definition accumulate_step (d : dict A) (r : R) : dict A :=
  match dict_get (key r) d with
  | Some v => dict_set (key r) (add v (val r)) d
  | None => d
  end.

Definition accumulate_into (d : dict A) (rs : list R) : dict A :=
  fold_left accumulate_step rs d.
End Grouping.
End Aggregation.

Arguments sum_with {A} zero add xs.
Arguments group_step {A} zero add {R} key val d r.
Arguments group_by {A} zero add {R} key val rs.
Arguments accumulate_step {A} add {R} key val d r.
Arguments accumulate_into {A} add {R} key val d rs.

Definition py_sum (xs : list float) : float := sum_with 0%float PrimFloat.add xs.



(* ================================================================= *)
(** ** The data model ([src/models.py]) *)

Module User.
Record t : Type := mk
  { id : Z; username : string; email : string; password_hash : string }.
End User.

Module Expense.
Record t : Type := mk
  { id : Z; description : string; amount : float; category : string;
    date : pydate; user_id : Z }.
End Expense.

Module Income.
Record t : Type := mk
  { id : Z; description : string; amount : float; category : string;
    date : pydate; user_id : Z }.
End Income.

(** [current_amount] and [target_date] are nullable columns. *)
Module Goal.
Record t : Type := mk
  { id : Z; name : string; target_amount : float; current_amount : option float;
    target_date : option pydate; description : string; user_id : Z }.
End Goal.

(** [current_value] is a nullable column. *)
Module Investment.
Record t : Type := mk
  { id : Z; name : string; type : string; amount : float;
    purchase_date : pydate; current_value : option float; notes : string;
    user_id : Z }.
End Investment.

Module Budget.
Record t : Type := mk
  { id : Z; category : string; amount : float; user_id : Z }.
End Budget.

(** The database: one list of rows per table, in insertion order. *)
Record Store : Type := mkStore
  { users : list User.t;
    expenses : list Expense.t;
    incomes : list Income.t;
    goals : list Goal.t;
    investments : list Investment.t;
    budgets : list Budget.t }.

Definition set_users (f : list User.t -> list User.t) (s : Store) : Store :=
  mkStore (f (users s)) (expenses s) (incomes s) (goals s) (investments s) (budgets s).
Definition set_expenses (f : list Expense.t -> list Expense.t) (s : Store) : Store :=
  mkStore (users s) (f (expenses s)) (incomes s) (goals s) (investments s) (budgets s).
Definition set_incomes (f : list Income.t -> list Income.t) (s : Store) : Store :=
  mkStore (users s) (expenses s) (f (incomes s)) (goals s) (investments s) (budgets s).
Definition set_goals (f : list Goal.t -> list Goal.t) (s : Store) : Store :=
  mkStore (users s) (expenses s) (incomes s) (f (goals s)) (investments s) (budgets s).
Definition set_investments (f : list Investment.t -> list Investment.t) (s : Store) : Store :=
  mkStore (users s) (expenses s) (incomes s) (goals s) (f (investments s)) (budgets s).
Definition set_budgets (f : list Budget.t -> list Budget.t) (s : Store) : Store :=
  mkStore (users s) (expenses s) (incomes s) (goals s) (investments s) (f (budgets s)).

(** Primary keys are assigned by the database: one more than the largest
    key of the table (1 for an empty table), as for an SQLite rowid. What
    follows only uses that the new key is not in the table. *)
Definition next_id (ids : list Z) : Z := 1 + fold_right Z.max 0 ids.

(** Row-level operations of the ORM session. *)
Section Rows.
Context {R : Type}.

(** [query.filter_by(...).first()] *)
Definition first (p : R -> bool) (rows : list R) : option R := find p rows.

(** [db.session.delete(row)] for the row that [first p] returned: that row
    leaves the table, the others stay in place. *)
Fixpoint delete_first (p : R -> bool) (rows : list R) : list R :=
  match rows with
  | [] => []
  | r :: rows' => if p r then rows' else r :: delete_first p rows'
  end.

(** Attribute assignments on the row that [first p] returned, committed. *)
Fixpoint update_first (p : R -> bool) (f : R -> R) (rows : list R) : list R :=
  match rows with
  | [] => []
  | r :: rows' => if p r then f r :: rows' else r :: update_first p f rows'
  end.
End Rows.

(* ================================================================= *)
(** ** Requests, responses and the session *)

(** Exceptions a handler can let escape; Flask answers them with a 500
    and the session's uncommitted changes are discarded. *)
Inductive exn : Type := ValueError | TypeError | ZeroDivisionError | IntegrityError.

Inductive result (A : Type) : Type :=
| Ok (a : A)
| Raise (e : exn).
Arguments Ok {A} a.
Arguments Raise {A} e.

Definition bind {A B : Type} (r : result A) (k : A -> result B) : result B :=
  match r with Ok a => k a | Raise e => Raise e end.

Notation "x <- r ;; k" := (bind r (fun x => k))
  (at level 61, r at next level, right associativity).

Definition truediv (a b : float) : result float :=
  match py_truediv a b with Some q => Ok q | None => Raise ZeroDivisionError end.

(** A float written to a [db.Float] column. SQLite binds NaN as NULL: a
    column declared [nullable=False] refuses it at the next flush
    ([IntegrityError: NOT NULL constraint failed]), a nullable column
    stores NULL, which is read back as [None]. Every other float,
    infinities included, is stored as it is. *)
Definition not_null (x : float) : result float :=
  if is_nan x then Raise IntegrityError else Ok x.

Definition nullable (x : float) : option float :=
  if is_nan x then None else Some x.

(** An operand read from a nullable column: arithmetic on [None] raises
    [TypeError]. *)
Definition number (x : option float) : result float :=
  match x with Some v => Ok v | None => Raise TypeError end.

(** A request field that the handler converts with [float(...)] or
    [strptime(..., '%Y-%m-%d')]: the key may be absent, its value may make
    the conversion raise, or it converts to a value. *)
Inductive field (A : Type) : Type :=
| Absent
| Malformed
| Value (a : A).
Arguments Absent {A}.
Arguments Malformed {A}.
Arguments Value {A} a.

(** [conv(data.get(k))]: [conv(None)] raises [TypeError]. *)
Definition required {A : Type} (f : field A) : result A :=
  match f with
  | Absent => Raise TypeError
  | Malformed => Raise ValueError
  | Value a => Ok a
  end.

(** [conv(data.get(k, default))] *)
Definition with_default {A : Type} (default : A) (f : field A) : result A :=
  match f with
  | Absent => Ok default
  | Malformed => Raise ValueError
  | Value a => Ok a
  end.

(** Payload of the expense and income forms and JSON bodies. The keys
    that the handlers read as strings are present in the requests
    considered here; the keys they convert are fields. *)
Record TxnData : Type := mkTxn
  { t_description : string; t_amount : field float; t_category : string;
    t_date : field pydate }.

(** Payload for a new goal; [g_target_date] is [Absent] when the string is
    missing or empty. *)
Record GoalData : Type := mkGoalData
  { g_name : string; g_target_amount : field float;
    g_current_amount : field float; g_target_date : field pydate;
    g_description : string }.

(** Body of [PUT /api/goals/<id>]: a key that is not in the body is [None]
    (resp. [Absent]); a present but empty [target_date] is [Value None]. *)
Record GoalPatch : Type := mkGoalPatch
  { gp_name : option string; gp_target_amount : field float;
    gp_current_amount : field float; gp_target_date : field (option pydate);
    gp_description : option string }.

Record InvestmentData : Type := mkInvData
  { i_name : string; i_type : string; i_amount : field float;
    i_purchase_date : field pydate; i_current_value : field float;
    i_notes : string }.

Record InvestmentPatch : Type := mkInvPatch
  { ip_name : option string; ip_type : option string;
    ip_amount : field float; ip_purchase_date : field pydate;
    ip_current_value : field float; ip_notes : option string }.

Inductive Request : Type :=
| GetIndex
| GetLogin
| PostLogin (username password : string)
| GetRegister
| PostRegister (username email password : string)
| GetLogout
| GetExpenseTracker
| PostExpenseTracker (form : TxnData)
| GetExpenses
| AddExpense (data : TxnData)
| DeleteExpense (expense_id : Z)
| GetIncomeTracker
| PostIncomeTracker (form : TxnData)
| GetIncomes
| AddIncome (data : TxnData)
| DeleteIncome (income_id : Z)
| GetGoalTracker
| PostGoalTracker (form : GoalData)
| GetGoals
| AddGoal (data : GoalData)
| UpdateGoal (goal_id : Z) (data : GoalPatch)
| DeleteGoal (goal_id : Z)
| GetInvestmentTracker
| PostInvestmentTracker (form : InvestmentData)
| GetInvestments
| AddInvestment (data : InvestmentData)
| UpdateInvestment (investment_id : Z) (data : InvestmentPatch)
| DeleteInvestment (investment_id : Z)
| GetSuggestions
| GetBudgetPlanner
| PostBudgetPlanner (form : dict (field float))
| GetBudget
| UpdateBudget (data : dict (field float))
| GetFinancialSummary.

(** JSON bodies; [JDate d] stands for the string [d.strftime('%Y-%m-%d')]. *)
Inductive json : Type :=
| JNone
| JBool (b : bool)
| JInt (n : Z)
| JNum (x : float)
| JStr (s : string)
| JDate (d : pydate)
| JList (l : list json)
| JDict (d : list (string * json)).

(** Pieces of a formatted message; [Fmt1f x] is ['{:.1f}'.format(x)]. *)
Inductive piece : Type :=
| Lit (s : string)
| Fmt1f (x : float).

Module Suggestion.
Record t : Type := mk
  { title : string; description : list piece; type : string }.
End Suggestion.

Module BudgetRow.
Record t : Type := mk
  { category : string; budget_amount : float; spent_amount : float;
    percentage : float; status : string }.
End BudgetRow.

(** Template contexts of [render_template]. *)
Inductive Context : Type :=
| CtxNone
| CtxIndex (username : string) (total_expenses total_income net_worth : float)
    (expenses : list Expense.t) (incomes : list Income.t)
    (goals : list Goal.t) (investments : list Investment.t)
| CtxExpenses (expenses : list Expense.t) (categories : list string)
| CtxIncomes (incomes : list Income.t) (categories : list string)
| CtxGoals (goals : list Goal.t)
| CtxInvestments (investments : list Investment.t) (investment_types : list string)
| CtxSuggestions (suggestions : list Suggestion.t)
| CtxBudget (budget_data : list BudgetRow.t) (categories : list string).

Definition flash : Type := (string * string)%type.

(** The URL rule of a request and the id in its path. *)
Definition url_of (req : Request) : string * option Z :=
  match req with
  | GetIndex => ("/", None)
  | GetLogin | PostLogin _ _ => ("/login", None)
  | GetRegister | PostRegister _ _ _ => ("/register", None)
  | GetLogout => ("/logout", None)
  | GetExpenseTracker | PostExpenseTracker _ => ("/expenses", None)
  | GetExpenses | AddExpense _ => ("/api/expenses", None)
  | DeleteExpense k => ("/api/expenses/<int:expense_id>", Some k)
  | GetIncomeTracker | PostIncomeTracker _ => ("/income", None)
  | GetIncomes | AddIncome _ => ("/api/incomes", None)
  | DeleteIncome k => ("/api/incomes/<int:income_id>", Some k)
  | GetGoalTracker | PostGoalTracker _ => ("/goals", None)
  | GetGoals | AddGoal _ => ("/api/goals", None)
  | UpdateGoal k _ | DeleteGoal k => ("/api/goals/<int:goal_id>", Some k)
  | GetInvestmentTracker | PostInvestmentTracker _ => ("/investments", None)
  | GetInvestments | AddInvestment _ => ("/api/investments", None)
  | UpdateInvestment k _ | DeleteInvestment k =>
      ("/api/investments/<int:investment_id>", Some k)
  | GetSuggestions => ("/suggestions", None)
  | GetBudgetPlanner | PostBudgetPlanner _ => ("/budget", None)
  | GetBudget | UpdateBudget _ => ("/api/budget", None)
  | GetFinancialSummary => ("/api/summary", None)
  end.

(** [RedirectNext endpoint next flashed]: a redirect whose query string
    carries [next], the URL of the request that was refused. *)
Inductive Response : Type :=
| Redirect (endpoint : string) (flashed : list flash)
| RedirectNext (endpoint : string) (next : string * option Z) (flashed : list flash)
| Render (template : string) (flashed : list flash) (ctx : Context)
| Jsonify (status : Z) (body : json)
| ServerError (e : exn).

(** What the handlers take from their environment: werkzeug's password
    hashing (salted, hence left abstract) and the clock. *)
Record Env : Type := mkEnv
  { generate_password_hash : string -> string;
    check_password_hash : string -> string -> bool;
    today : pydate }.

(** The database together with the session cookie. *)
Record State : Type := mkState
  { db : Store; session_user_id : option Z; session_username : option string }.

Definition with_db (s : Store) (st : State) : State :=
  mkState s (session_user_id st) (session_username st).

(** [load_user]: [User.query.get(int(user_id))] *)
Definition load_user (s : Store) (uid : Z) : option User.t :=
  first (fun u => User.id u =? uid) (users s).

Definition current_user (st : State) : option User.t :=
  match session_user_id st with
  | Some uid => load_user (db st) uid
  | None => None
  end.

Definition is_authenticated (st : State) : bool :=
  match current_user st with Some _ => true | None => false end.

Definition default_expense_categories : list string :=
  [ "Housing"; "Transportation"; "Food"; "Utilities"; "Insurance";
    "Healthcare"; "Debt Payments"; "Savings"; "Personal"; "Entertainment";
    "Education"; "Clothing"; "Gifts/Donations"; "Miscellaneous" ].

Definition default_income_categories : list string :=
  [ "Salary"; "Freelance"; "Business"; "Investments"; "Rental";
    "Gifts"; "Other" ].

Definition investment_types : list string :=
  [ "Stocks"; "Bonds"; "Mutual Funds"; "ETFs"; "Real Estate";
    "Retirement Accounts"; "Cryptocurrencies"; "Other" ].

(* ================================================================= *)
(** ** Queries and helpers *)

(** [get_user_data(user_id, ...)] and the inline
    [Model.query.filter_by(user_id=current_user.id).all()]. *)
Definition user_expenses (uid : Z) (s : Store) : list Expense.t :=
  filter (fun e => Expense.user_id e =? uid) (expenses s).
Definition user_incomes (uid : Z) (s : Store) : list Income.t :=
  filter (fun i => Income.user_id i =? uid) (incomes s).
Definition user_goals (uid : Z) (s : Store) : list Goal.t :=
  filter (fun g => Goal.user_id g =? uid) (goals s).
Definition user_investments (uid : Z) (s : Store) : list Investment.t :=
  filter (fun i => Investment.user_id i =? uid) (investments s).
Definition user_budgets (uid : Z) (s : Store) : list Budget.t :=
  filter (fun b => Budget.user_id b =? uid) (budgets s).

(** [sorted(rows, key=lambda x: x.date, reverse=True)]: a stable sort,
    latest first. *)
Section Sorted.
Context {R : Type}.
Variable key : R -> pydate.

Fixpoint insert_desc (x : R) (l : list R) : list R :=
  match l with
  | [] => [x]
  | y :: l' => if date_ltb (key x) (key y) then y :: insert_desc x l' else x :: l
  end.

Definition sorted_desc (l : list R) : list R := fold_right insert_desc [] l.
End Sorted.

Definition expense_json (e : Expense.t) : json :=
  JDict [ ("id", JInt (Expense.id e)); ("description", JStr (Expense.description e));
          ("amount", JNum (Expense.amount e)); ("category", JStr (Expense.category e));
          ("date", JDate (Expense.date e)) ].

Definition income_json (i : Income.t) : json :=
  JDict [ ("id", JInt (Income.id i)); ("description", JStr (Income.description i));
          ("amount", JNum (Income.amount i)); ("category", JStr (Income.category i));
          ("date", JDate (Income.date i)) ].

Definition goal_json (g : Goal.t) : json :=
  JDict [ ("id", JInt (Goal.id g)); ("name", JStr (Goal.name g));
          ("target_amount", JNum (Goal.target_amount g));
          ("current_amount",
            match Goal.current_amount g with Some x => JNum x | None => JNone end);
          ("target_date",
            match Goal.target_date g with Some d => JDate d | None => JNone end);
          ("description", JStr (Goal.description g)) ].

Definition investment_json (i : Investment.t) : json :=
  JDict [ ("id", JInt (Investment.id i)); ("name", JStr (Investment.name i));
          ("type", JStr (Investment.type i)); ("amount", JNum (Investment.amount i));
          ("purchase_date", JDate (Investment.purchase_date i));
          ("current_value",
            match Investment.current_value i with Some x => JNum x | None => JNone end);
          ("notes", JStr (Investment.notes i)) ].

Definition success : json := JDict [("success", JBool true)].
Definition success_with (k : string) (v : json) : json :=
  JDict [("success", JBool true); (k, v)].
Definition not_found (msg : string) : Response :=
  Jsonify 404 (JDict [("error", JStr msg)]).

(** [db.session.add(Budget(category=..., amount=..., user_id=...))] *)
Definition add_budget (category : string) (amount : float) (uid : Z) (s : Store) : Store :=
  set_budgets
    (fun l => l ++ [Budget.mk (next_id (map Budget.id l)) category amount uid]) s.

(* ================================================================= *)
(** ** Authentication handlers *)

Definition invalid_credentials : Response :=
  Render "login.html" [("Invalid username or password", "danger")] CtxNone.

(** [/login]; [post] is the submitted form of a POST, [None] for a GET. *)
Definition login (env : Env) (post : option (string * string)) (st : State)
  : Response * State :=
  if is_authenticated st then (Redirect "index" [], st)
  else match post with
       | Some (username, password) =>
           match first (fun u => String.eqb (User.username u) username) (users (db st)) with
           | Some user =>
               if check_password_hash env (User.password_hash user) password
               then (Redirect "index" [("Login successful!", "success")],
                     mkState (db st) (Some (User.id user)) (Some (User.username user)))
               else (invalid_credentials, st)
           | None => (invalid_credentials, st)
           end
       | None => (Render "login.html" [] CtxNone, st)
       end.

Definition registration_successful : Response :=
  Redirect "login" [("Registration successful! Please log in.", "success")].

(** [/register] *)
Definition register (env : Env) (post : option (string * string * string)) (st : State)
  : Response * State :=
  if is_authenticated st then (Redirect "index" [], st)
  else match post with
       | Some (username, email, password) =>
           match first (fun u => String.eqb (User.username u) username) (users (db st)) with
           | Some _ =>
               (Render "register.html" [("Username already exists", "danger")] CtxNone, st)
           | None =>
               match first (fun u => String.eqb (User.email u) email) (users (db st)) with
               | Some _ =>
                   (Render "register.html" [("Email already registered", "danger")] CtxNone, st)
               | None =>
                   let new_user :=
                     User.mk (next_id (map User.id (users (db st)))) username email
                       (generate_password_hash env password) in
                   let s1 := set_users (fun l => l ++ [new_user]) (db st) in
                   let s2 :=
                     fold_left (fun s category => add_budget category 0%float (User.id new_user) s)
                       default_expense_categories s1 in
                   (registration_successful, with_db s2 st)
               end
           end
       | None => (Render "register.html" [] CtxNone, st)
       end.

(** [@login_required], with [login_manager.login_view = 'login']: a visitor
    who is not logged in is flashed Flask-Login's [login_message] and
    redirected to the login page, the refused URL in [next]. *)
Definition please_log_in (next : string * option Z) : Response :=
  RedirectNext "login" next [("Please log in to access this page.", "message")].

Definition login_required (next : string * option Z)
  (h : User.t -> State -> Response * State) (st : State) : Response * State :=
  match current_user st with
  | Some u => h u st
  | None => (please_log_in next, st)
  end.

Definition logout (u : User.t) (st : State) : Response * State :=
  (Redirect "login" [("You have been logged out", "success")],
   mkState (db st) None None).

(* ================================================================= *)
(** ** The dashboard *)

Definition index (u : User.t) (st : State) : Response * State :=
  let ues := user_expenses (User.id u) (db st) in
  let uis := user_incomes (User.id u) (db st) in
  let ugs := user_goals (User.id u) (db st) in
  let uvs := user_investments (User.id u) (db st) in
  let total_expenses := py_sum (map Expense.amount ues) in
  let total_income := py_sum (map Income.amount uis) in
  let net_worth := (total_income - total_expenses)%float in
  let latest_expenses := firstn 5 (sorted_desc Expense.date ues) in
  let latest_incomes := firstn 5 (sorted_desc Income.date uis) in
  (Render "index.html" []
     (CtxIndex (User.username u) total_expenses total_income net_worth
        latest_expenses latest_incomes ugs uvs), st).

(* ================================================================= *)
(** ** Expenses *)

(** The row that [db.session.add] and [db.session.commit] store, after the
    conversions of the handler; the commit refuses a NaN amount. *)
Definition new_expense (env : Env) (data : TxnData) (uid : Z) (s : Store)
  : result Expense.t :=
  amount <- required (t_amount data) ;;
  expense_date <- with_default (today env) (t_date data) ;;
  amount <- not_null amount ;;
  Ok (Expense.mk (next_id (map Expense.id (expenses s))) (t_description data)
        amount (t_category data) expense_date uid).

Definition expense_tracker (env : Env) (post : option TxnData) (u : User.t) (st : State)
  : Response * State :=
  let ues := user_expenses (User.id u) (db st) in
  match post with
  | Some form =>
      match new_expense env form (User.id u) (db st) with
      | Ok e =>
          (Redirect "expense_tracker" [("Expense added successfully!", "success")],
           with_db (set_expenses (fun l => l ++ [e]) (db st)) st)
      | Raise x => (ServerError x, st)
      end
  | None => (Render "expenses.html" [] (CtxExpenses ues default_expense_categories), st)
  end.

Definition get_expenses (u : User.t) (st : State) : Response * State :=
  (Jsonify 200 (JList (map expense_json (user_expenses (User.id u) (db st)))), st).

Definition add_expense (env : Env) (data : TxnData) (u : User.t) (st : State)
  : Response * State :=
  match new_expense env data (User.id u) (db st) with
  | Ok e =>
      (Jsonify 200 (success_with "expense" (expense_json e)),
       with_db (set_expenses (fun l => l ++ [e]) (db st)) st)
  | Raise x => (ServerError x, st)
  end.

Definition delete_expense (expense_id : Z) (u : User.t) (st : State) : Response * State :=
  let q := fun e => (Expense.id e =? expense_id) && (Expense.user_id e =? User.id u) in
  match first q (expenses (db st)) with
  | Some _ => (Jsonify 200 success, with_db (set_expenses (delete_first q) (db st)) st)
  | None => (not_found "Expense not found", st)
  end.

(* ================================================================= *)
(** ** Incomes *)

Definition new_income (env : Env) (data : TxnData) (uid : Z) (s : Store)
  : result Income.t :=
  amount <- required (t_amount data) ;;
  income_date <- with_default (today env) (t_date data) ;;
  amount <- not_null amount ;;
  Ok (Income.mk (next_id (map Income.id (incomes s))) (t_description data)
        amount (t_category data) income_date uid).

Definition income_tracker (env : Env) (post : option TxnData) (u : User.t) (st : State)
  : Response * State :=
  let uis := user_incomes (User.id u) (db st) in
  match post with
  | Some form =>
      match new_income env form (User.id u) (db st) with
      | Ok i =>
          (Redirect "income_tracker" [("Income added successfully!", "success")],
           with_db (set_incomes (fun l => l ++ [i]) (db st)) st)
      | Raise x => (ServerError x, st)
      end
  | None => (Render "income.html" [] (CtxIncomes uis default_income_categories), st)
  end.

Definition get_incomes (u : User.t) (st : State) : Response * State :=
  (Jsonify 200 (JList (map income_json (user_incomes (User.id u) (db st)))), st).

Definition add_income (env : Env) (data : TxnData) (u : User.t) (st : State)
  : Response * State :=
  match new_income env data (User.id u) (db st) with
  | Ok i =>
      (Jsonify 200 (success_with "income" (income_json i)),
       with_db (set_incomes (fun l => l ++ [i]) (db st)) st)
  | Raise x => (ServerError x, st)
  end.

Definition delete_income (income_id : Z) (u : User.t) (st : State) : Response * State :=
  let q := fun i => (Income.id i =? income_id) && (Income.user_id i =? User.id u) in
  match first q (incomes (db st)) with
  | Some _ => (Jsonify 200 success, with_db (set_incomes (delete_first q) (db st)) st)
  | None => (not_found "Income not found", st)
  end.

(* ================================================================= *)
(** ** Goals *)

(** [strptime(s, '%Y-%m-%d').date() if s else None] *)
Definition optional_date (f : field pydate) : result (option pydate) :=
  match f with
  | Absent => Ok None
  | Malformed => Raise ValueError
  | Value d => Ok (Some d)
  end.

Definition new_goal (data : GoalData) (uid : Z) (s : Store) : result Goal.t :=
  target_amount <- required (g_target_amount data) ;;
  current_amount <- with_default 0%float (g_current_amount data) ;;
  target_date <- optional_date (g_target_date data) ;;
  target_amount <- not_null target_amount ;;
  Ok (Goal.mk (next_id (map Goal.id (goals s))) (g_name data) target_amount
        (nullable current_amount) target_date (g_description data) uid).

Definition goal_tracker (post : option GoalData) (u : User.t) (st : State)
  : Response * State :=
  let ugs := user_goals (User.id u) (db st) in
  match post with
  | Some form =>
      match new_goal form (User.id u) (db st) with
      | Ok g =>
          (Redirect "goal_tracker" [("Goal added successfully!", "success")],
           with_db (set_goals (fun l => l ++ [g]) (db st)) st)
      | Raise x => (ServerError x, st)
      end
  | None => (Render "goals.html" [] (CtxGoals ugs), st)
  end.

Definition get_goals (u : User.t) (st : State) : Response * State :=
  (Jsonify 200 (JList (map goal_json (user_goals (User.id u) (db st)))), st).

Definition add_goal (data : GoalData) (u : User.t) (st : State) : Response * State :=
  match new_goal data (User.id u) (db st) with
  | Ok g =>
      (Jsonify 200 (success_with "goal" (goal_json g)),
       with_db (set_goals (fun l => l ++ [g]) (db st)) st)
  | Raise x => (ServerError x, st)
  end.

(** [if k in data: row.k = float(data.get(k))], committed later: the
    conversion first, what the column stores once the session is flushed. *)
Definition converted (f : field float) : result unit :=
  match f with
  | Malformed => Raise ValueError
  | _ => Ok tt
  end.

Definition assigned_not_null (old : float) (f : field float) : result float :=
  match f with
  | Value a => not_null a
  | _ => Ok old
  end.

Definition assigned_nullable (old : option float) (f : field float) : option float :=
  match f with
  | Value a => nullable a
  | _ => old
  end.

(** The attribute assignments of [update_goal], one per key of the body,
    and the commit. *)
Definition patch_goal (data : GoalPatch) (goal : Goal.t) : result Goal.t :=
  let name := match gp_name data with Some n => n | None => Goal.name goal end in
  _ <- converted (gp_target_amount data) ;;
  _ <- converted (gp_current_amount data) ;;
  target_date <- with_default (Goal.target_date goal) (gp_target_date data) ;;
  let description :=
    match gp_description data with Some d => d | None => Goal.description goal end in
  target_amount <- assigned_not_null (Goal.target_amount goal) (gp_target_amount data) ;;
  let current_amount :=
    assigned_nullable (Goal.current_amount goal) (gp_current_amount data) in
  Ok (Goal.mk (Goal.id goal) name target_amount current_amount target_date
        description (Goal.user_id goal)).

Definition update_goal (goal_id : Z) (data : GoalPatch) (u : User.t) (st : State)
  : Response * State :=
  let q := fun g => (Goal.id g =? goal_id) && (Goal.user_id g =? User.id u) in
  match first q (goals (db st)) with
  | Some goal =>
      match patch_goal data goal with
      | Ok goal' =>
          (Jsonify 200 (success_with "goal" (goal_json goal')),
           with_db (set_goals (update_first q (fun _ => goal')) (db st)) st)
      | Raise x => (ServerError x, st)
      end
  | None => (not_found "Goal not found", st)
  end.

Definition delete_goal (goal_id : Z) (u : User.t) (st : State) : Response * State :=
  let q := fun g => (Goal.id g =? goal_id) && (Goal.user_id g =? User.id u) in
  match first q (goals (db st)) with
  | Some _ => (Jsonify 200 success, with_db (set_goals (delete_first q) (db st)) st)
  | None => (not_found "Goal not found", st)
  end.

(* ================================================================= *)
(** ** Investments *)

Definition new_investment (data : InvestmentData) (uid : Z) (s : Store)
  : result Investment.t :=
  amount <- required (i_amount data) ;;
  purchase_date <- required (i_purchase_date data) ;;
  current_value <- with_default amount (i_current_value data) ;;
  amount <- not_null amount ;;
  Ok (Investment.mk (next_id (map Investment.id (investments s))) (i_name data)
        (i_type data) amount purchase_date (nullable current_value) (i_notes data) uid).

Definition investment_tracker (post : option InvestmentData) (u : User.t) (st : State)
  : Response * State :=
  let uvs := user_investments (User.id u) (db st) in
  match post with
  | Some form =>
      match new_investment form (User.id u) (db st) with
      | Ok i =>
          (Redirect "investment_tracker" [("Investment added successfully!", "success")],
           with_db (set_investments (fun l => l ++ [i]) (db st)) st)
      | Raise x => (ServerError x, st)
      end
  | None => (Render "investments.html" [] (CtxInvestments uvs investment_types), st)
  end.

Definition get_investments (u : User.t) (st : State) : Response * State :=
  (Jsonify 200 (JList (map investment_json (user_investments (User.id u) (db st)))), st).

Definition add_investment (data : InvestmentData) (u : User.t) (st : State)
  : Response * State :=
  match new_investment data (User.id u) (db st) with
  | Ok i =>
      (Jsonify 200 (success_with "investment" (investment_json i)),
       with_db (set_investments (fun l => l ++ [i]) (db st)) st)
  | Raise x => (ServerError x, st)
  end.

Definition patch_investment (data : InvestmentPatch) (inv : Investment.t)
  : result Investment.t :=
  let name := match ip_name data with Some n => n | None => Investment.name inv end in
  let type := match ip_type data with Some t => t | None => Investment.type inv end in
  _ <- converted (ip_amount data) ;;
  purchase_date <- with_default (Investment.purchase_date inv) (ip_purchase_date data) ;;
  _ <- converted (ip_current_value data) ;;
  let notes := match ip_notes data with Some n => n | None => Investment.notes inv end in
  amount <- assigned_not_null (Investment.amount inv) (ip_amount data) ;;
  let current_value :=
    assigned_nullable (Investment.current_value inv) (ip_current_value data) in
  Ok (Investment.mk (Investment.id inv) name type amount purchase_date current_value
        notes (Investment.user_id inv)).

Definition update_investment (investment_id : Z) (data : InvestmentPatch)
  (u : User.t) (st : State) : Response * State :=
  let q := fun i => (Investment.id i =? investment_id) && (Investment.user_id i =? User.id u) in
  match first q (investments (db st)) with
  | Some inv =>
      match patch_investment data inv with
      | Ok inv' =>
          (Jsonify 200 (success_with "investment" (investment_json inv')),
           with_db (set_investments (update_first q (fun _ => inv')) (db st)) st)
      | Raise x => (ServerError x, st)
      end
  | None => (not_found "Investment not found", st)
  end.

Definition delete_investment (investment_id : Z) (u : User.t) (st : State)
  : Response * State :=
  let q := fun i => (Investment.id i =? investment_id) && (Investment.user_id i =? User.id u) in
  match first q (investments (db st)) with
  | Some _ =>
      (Jsonify 200 success, with_db (set_investments (delete_first q) (db st)) st)
  | None => (not_found "Investment not found", st)
  end.

(* ================================================================= *)
(** ** Analytics: totals and groupings *)

Fixpoint mapM {A B : Type} (f : A -> result B) (l : list A) : result (list B) :=
  match l with
  | [] => Ok []
  | a :: l' => b <- f a ;; bs <- mapM f l' ;; Ok (b :: bs)
  end.

Definition expense_by_category (ues : list Expense.t) : dict float :=
  group_by 0%float PrimFloat.add Expense.category Expense.amount ues.
Definition income_by_category (uis : list Income.t) : dict float :=
  group_by 0%float PrimFloat.add Income.category Income.amount uis.

(** [sum(investment.current_value for investment in user_investments)]:
    adding [None] raises [TypeError]. *)
Definition current_values (uvs : list Investment.t) : result (list float) :=
  mapM (fun i => number (Investment.current_value i)) uvs.

(** The grouping loop over the investments; its [+=] reads
    [investment.current_value]. *)
Definition investments_by_type (uvs : list Investment.t) : result (dict float) :=
  fold_left
    (fun acc i =>
       d <- acc ;;
       v <- number (Investment.current_value i) ;;
       Ok (group_step 0%float PrimFloat.add fst snd d (Investment.type i, v)))
    uvs (Ok []).

(** [max(d.items(), key=lambda x: x[1])]: the first item among those with
    the largest value. *)
Definition max_item (d : dict float) : option (string * float) :=
  match d with
  | [] => None
  | it :: rest =>
      Some (fold_left (fun best it' => if (snd best <? snd it')%float then it' else best)
              rest it)
  end.

Definition is_empty {A : Type} (l : list A) : bool :=
  match l with [] => true | _ :: _ => false end.

(* ================================================================= *)
(** ** Suggestions *)

Definition reduce_expenses (expense_ratio : float) : Suggestion.t :=
  Suggestion.mk "Reduce Expenses"
    [ Lit "Your expenses are "; Fmt1f (expense_ratio * 100)%float;
      Lit "% of your income. Aim to keep expenses below 70% of income." ]
    "warning".

Definition great_savings_rate (expense_ratio : float) : Suggestion.t :=
  Suggestion.mk "Great Savings Rate"
    [ Lit "You're saving "; Fmt1f ((1 - expense_ratio) * 100)%float;
      Lit "% of your income. Consider investing more for long-term growth." ]
    "success".

Definition emergency_fund : Suggestion.t :=
  Suggestion.mk "Start an Emergency Fund"
    [ Lit "Consider building an emergency fund with 3-6 months of expenses." ] "info".

Definition diversify_investments : Suggestion.t :=
  Suggestion.mk "Diversify Investments"
    [ Lit "Consider diversifying your investment portfolio across different asset classes." ]
    "info".

Definition high_category (category : string) (share : float) : Suggestion.t :=
  Suggestion.mk (String.append "High " (String.append category " Expenses"))
    [ Lit category; Lit " expenses make up "; Fmt1f share;
      Lit "% of your total spending. Consider ways to reduce this." ]
    "warning".

Definition goal_behind (name : string) (progress : float) : Suggestion.t :=
  Suggestion.mk (String.append "Goal: " name)
    [ Lit "You're only "; Fmt1f (progress * 100)%float;
      Lit "% of the way to your goal. Consider allocating more funds." ]
    "warning".

Definition default_suggestions : list Suggestion.t :=
  [ Suggestion.mk "Track Your Expenses"
      [ Lit "Start by logging all your expenses to get better financial insights." ] "info";
    Suggestion.mk "Set Financial Goals"
      [ Lit "Define clear financial goals to help motivate your saving and investing habits." ]
      "info";
    Suggestion.mk "Create a Budget"
      [ Lit "A budget is the foundation of financial success. Use our budget tool to get started." ]
      "info" ].

(** The income/expense ratio rule. *)
Definition ratio_rule (total_income total_expenses : float)
  (suggestions : list Suggestion.t) : result (list Suggestion.t) :=
  if (0 <? total_income)%float then
    expense_ratio <- truediv total_expenses total_income ;;
    Ok (if (0.9 <? expense_ratio)%float then suggestions ++ [reduce_expenses expense_ratio]
        else if (expense_ratio <? 0.5)%float
             then suggestions ++ [great_savings_rate expense_ratio]
             else suggestions)
  else Ok suggestions.

(** The two investment rules. *)
Definition investment_rules (uvs : list Investment.t)
  (suggestions : list Suggestion.t) : list Suggestion.t :=
  let suggestions :=
    if is_empty uvs then suggestions ++ [emergency_fund] else suggestions in
  let investment_types := nodup string_dec (map Investment.type uvs) in
  if (List.length investment_types <? 3)%nat && negb (is_empty uvs)
  then suggestions ++ [diversify_investments]
  else suggestions.

(** The highest-category rule. *)
Definition high_category_rule (by_category : dict float) (total_expenses : float)
  (suggestions : list Suggestion.t) : result (list Suggestion.t) :=
  match max_item by_category with
  | Some highest_category =>
      if (total_expenses * 0.4 <? snd highest_category)%float then
        share <- truediv (snd highest_category) total_expenses ;;
        Ok (suggestions ++ [high_category (fst highest_category) (share * 100)%float])
      else Ok suggestions
  | None => Ok suggestions
  end.

(** One iteration of the goal-progress loop. *)
Definition goal_rule (suggestions : list Suggestion.t) (goal : Goal.t)
  : result (list Suggestion.t) :=
  let target := Goal.target_amount goal in
  let current := Goal.current_amount goal in
  progress <- (if (0 <? target)%float
               then current <- number current ;; truediv current target
               else Ok 0%float) ;;
  Ok (if (progress <? 0.25)%float
      then suggestions ++ [goal_behind (Goal.name goal) progress]
      else suggestions).

Definition goal_rules (ugs : list Goal.t) (suggestions : list Suggestion.t)
  : result (list Suggestion.t) :=
  fold_left (fun acc goal => s <- acc ;; goal_rule s goal) ugs (Ok suggestions).

Definition suggestion_list (ues : list Expense.t) (uis : list Income.t)
  (ugs : list Goal.t) (uvs : list Investment.t) : result (list Suggestion.t) :=
  let total_expenses := py_sum (map Expense.amount ues) in
  let total_income := py_sum (map Income.amount uis) in
  let by_category := expense_by_category ues in
  s1 <- ratio_rule total_income total_expenses [] ;;
  let s2 := investment_rules uvs s1 in
  s3 <- high_category_rule by_category total_expenses s2 ;;
  s4 <- goal_rules ugs s3 ;;
  Ok (if is_empty s4 then default_suggestions else s4).

Definition suggestions (u : User.t) (st : State) : Response * State :=
  let uid := User.id u in
  match suggestion_list (user_expenses uid (db st)) (user_incomes uid (db st))
          (user_goals uid (db st)) (user_investments uid (db st)) with
  | Ok l => (Render "suggestions.html" [] (CtxSuggestions l), st)
  | Raise x => (ServerError x, st)
  end.

(* ================================================================= *)
(** ** Budgets *)

(** [{budget.category: budget.amount for budget in user_budgets}] *)
Definition budget_dict_of (ubs : list Budget.t) : dict float :=
  fold_left (fun d b => dict_set (Budget.category b) (Budget.amount b) d) ubs [].

(** The loop that adds a zero budget for every default category missing
    from [budget_dict]; the new rows are pending in the session. *)
Definition ensure_budgets (uid : Z) (s : Store) (budget_dict : dict float)
  : Store * dict float :=
  fold_left
    (fun sd category =>
       if dict_mem category (snd sd) then sd
       else (add_budget category 0%float uid (fst sd),
             dict_set category 0%float (snd sd)))
    default_expense_categories (s, budget_dict).

(** The POST loop: one budget limit per default category. An iteration
    converts its field, then queries, which flushes the amount written by
    the iteration before it (the second component of the accumulator; a
    NaN is refused), then writes its own amount. *)
Definition post_budget (uid : Z) (form : dict (field float))
  (acc : result (Store * float)) (category : string) : result (Store * float) :=
  sp <- acc ;;
  let s := fst sp in
  amount <- with_default 0%float
              (dict_get_default (String.append "budget_" category) Absent form) ;;
  _ <- not_null (snd sp) ;;
  let q := fun b => String.eqb (Budget.category b) category && (Budget.user_id b =? uid) in
  match first q (budgets s) with
  | Some _ =>
      Ok (set_budgets
            (update_first q
               (fun b => Budget.mk (Budget.id b) (Budget.category b) amount (Budget.user_id b)))
            s, amount)
  | None => Ok (add_budget category amount uid s, amount)
  end.

(** [db.session.commit()] after the loop flushes the last amount written. *)
Definition commit_budgets (acc : result (Store * float)) : result Store :=
  sp <- acc ;;
  _ <- not_null (snd sp) ;;
  Ok (fst sp).

(** The store of the loop, without the amount still to be flushed. *)
Definition written (acc : result (Store * float)) : result Store :=
  sp <- acc ;; Ok (fst sp).

(** [{category: 0 for category in default_expense_categories}] followed by
    the accumulation of the user's expenses. *)
Definition spending_by_category (ues : list Expense.t) : dict float :=
  accumulate_into PrimFloat.add Expense.category Expense.amount
    (fold_left (fun d category => dict_set category 0%float d)
       default_expense_categories [])
    ues.

Definition budget_row (budget_dict spending : dict float) (category : string)
  : result BudgetRow.t :=
  let budget_amount := dict_get_default category 0%float budget_dict in
  let spent_amount := dict_get_default category 0%float spending in
  percentage <- (if (0 <? budget_amount)%float
                 then q <- truediv spent_amount budget_amount ;; Ok (q * 100)%float
                 else Ok 0%float) ;;
  Ok (BudgetRow.mk category budget_amount spent_amount (py_min percentage 100%float)
        (if (100 <? percentage)%float then "danger"
         else if (70 <? percentage)%float then "warning" else "success")).

Definition budget_data (budget_dict : dict float) (ues : list Expense.t)
  : result (list BudgetRow.t) :=
  mapM (budget_row budget_dict (spending_by_category ues)) default_expense_categories.

Definition budget_planner (post : option (dict (field float))) (u : User.t) (st : State)
  : Response * State :=
  let uid := User.id u in
  let ubs := user_budgets uid (db st) in
  let ues := user_expenses uid (db st) in
  let ensured := ensure_budgets uid (db st) (budget_dict_of ubs) in
  let pending := fst ensured in
  let budget_dict := snd ensured in
  let committed :=
    if (List.length budget_dict =? List.length default_expense_categories)%nat
    then db st else pending in
  match post with
  | Some form =>
      match commit_budgets
              (fold_left (post_budget uid form) default_expense_categories
                 (Ok (pending, 0%float))) with
      | Ok s' =>
          (Redirect "budget_planner" [("Budget updated successfully!", "success")],
           with_db s' st)
      | Raise x => (ServerError x, with_db committed st)
      end
  | None =>
      match budget_data budget_dict ues with
      | Ok rows =>
          (Render "budget.html" [] (CtxBudget rows default_expense_categories),
           with_db committed st)
      | Raise x => (ServerError x, with_db committed st)
      end
  end.

Definition json_of_dict (d : dict float) : json :=
  JDict (map (fun kv => (fst kv, JNum (snd kv))) d).

Definition get_budget (u : User.t) (st : State) : Response * State :=
  (Jsonify 200 (json_of_dict (budget_dict_of (user_budgets (User.id u) (db st)))), st).

(** One iteration of [for category, amount in data.items()]; the amount it
    writes is flushed, and a NaN refused, by the next query or the commit. *)
Definition put_budget (uid : Z) (acc : result Store) (item : string * field float)
  : result Store :=
  s <- acc ;;
  let category := fst item in
  let q := fun b => String.eqb (Budget.category b) category && (Budget.user_id b =? uid) in
  match first q (budgets s) with
  | Some _ =>
      amount <- required (snd item) ;;
      amount <- not_null amount ;;
      Ok (set_budgets
            (update_first q
               (fun b => Budget.mk (Budget.id b) (Budget.category b) amount (Budget.user_id b)))
            s)
  | None =>
      amount <- required (snd item) ;;
      amount <- not_null amount ;;
      Ok (add_budget category amount uid s)
  end.

Definition update_budget (data : dict (field float)) (u : User.t) (st : State)
  : Response * State :=
  match fold_left (put_budget (User.id u)) data (Ok (db st)) with
  | Ok s' => (Jsonify 200 success, with_db s' st)
  | Raise x => (ServerError x, st)
  end.

(* ================================================================= *)
(** ** The summary *)

Definition financial_summary (ues : list Expense.t) (uis : list Income.t)
  (uvs : list Investment.t) : result json :=
  let total_expenses := py_sum (map Expense.amount ues) in
  let total_income := py_sum (map Income.amount uis) in
  values <- current_values uvs ;;
  let total_investments := py_sum values in
  let net_worth := (total_income - total_expenses + total_investments)%float in
  by_type <- investments_by_type uvs ;;
  Ok (JDict [ ("total_expenses", JNum total_expenses);
              ("total_income", JNum total_income);
              ("total_investments", JNum total_investments);
              ("net_worth", JNum net_worth);
              ("expense_by_category", json_of_dict (expense_by_category ues));
              ("income_by_category", json_of_dict (income_by_category uis));
              ("investments_by_type", json_of_dict by_type) ]).

Definition get_financial_summary (u : User.t) (st : State) : Response * State :=
  let uid := User.id u in
  match financial_summary (user_expenses uid (db st)) (user_incomes uid (db st))
          (user_investments uid (db st)) with
  | Ok body => (Jsonify 200 body, st)
  | Raise x => (ServerError x, st)
  end.

(* ================================================================= *)
(** ** Routing *)

Definition handle (env : Env) (req : Request) (st : State) : Response * State :=
  match req with
  | GetIndex => login_required (url_of req) index st
  | GetLogin => login env None st
  | PostLogin username password => login env (Some (username, password)) st
  | GetRegister => register env None st
  | PostRegister username email password =>
      register env (Some (username, email, password)) st
  | GetLogout => login_required (url_of req) logout st
  | GetExpenseTracker => login_required (url_of req) (expense_tracker env None) st
  | PostExpenseTracker form => login_required (url_of req) (expense_tracker env (Some form)) st
  | GetExpenses => login_required (url_of req) get_expenses st
  | AddExpense data => login_required (url_of req) (add_expense env data) st
  | DeleteExpense expense_id => login_required (url_of req) (delete_expense expense_id) st
  | GetIncomeTracker => login_required (url_of req) (income_tracker env None) st
  | PostIncomeTracker form => login_required (url_of req) (income_tracker env (Some form)) st
  | GetIncomes => login_required (url_of req) get_incomes st
  | AddIncome data => login_required (url_of req) (add_income env data) st
  | DeleteIncome income_id => login_required (url_of req) (delete_income income_id) st
  | GetGoalTracker => login_required (url_of req) (goal_tracker None) st
  | PostGoalTracker form => login_required (url_of req) (goal_tracker (Some form)) st
  | GetGoals => login_required (url_of req) get_goals st
  | AddGoal data => login_required (url_of req) (add_goal data) st
  | UpdateGoal goal_id data => login_required (url_of req) (update_goal goal_id data) st
  | DeleteGoal goal_id => login_required (url_of req) (delete_goal goal_id) st
  | GetInvestmentTracker => login_required (url_of req) (investment_tracker None) st
  | PostInvestmentTracker form => login_required (url_of req) (investment_tracker (Some form)) st
  | GetInvestments => login_required (url_of req) get_investments st
  | AddInvestment data => login_required (url_of req) (add_investment data) st
  | UpdateInvestment investment_id data =>
      login_required (url_of req) (update_investment investment_id data) st
  | DeleteInvestment investment_id => login_required (url_of req) (delete_investment investment_id) st
  | GetSuggestions => login_required (url_of req) suggestions st
  | GetBudgetPlanner => login_required (url_of req) (budget_planner None) st
  | PostBudgetPlanner form => login_required (url_of req) (budget_planner (Some form)) st
  | GetBudget => login_required (url_of req) get_budget st
  | UpdateBudget data => login_required (url_of req) (update_budget data) st
  | GetFinancialSummary => login_required (url_of req) get_financial_summary st
  end.

(* ================================================================= *)
(** ** Observations on responses and states *)

(** [body[k]] of a JSON object. *)
Definition json_field (k : string) (j : json) : option json :=
  match j with
  | JDict d => dict_get k d
  | _ => None
  end.




(** The titles of the suggestions a page shows. *)
Definition page_titles (r : Response) : option (list string) :=
  match r with
  | Render _ _ (CtxSuggestions l) => Some (map Suggestion.title l)
  | _ => None
  end.

Definition titles (s : list Suggestion.t) : list string := map Suggestion.title s.

(** The two titles only the ratio rule produces. *)
Definition ratio_title (t : string) : Prop :=
  t = "Reduce Expenses" \/ t = "Great Savings Rate".

(** Every row that does not belong to [uid] is where and what it was, and
    the user table is the same. *)
Definition others_untouched (uid : Z) (s s' : Store) : Prop :=
  users s' = users s /\
  filter (fun e => negb (Expense.user_id e =? uid)) (expenses s')
  = filter (fun e => negb (Expense.user_id e =? uid)) (expenses s) /\
  filter (fun i => negb (Income.user_id i =? uid)) (incomes s')
  = filter (fun i => negb (Income.user_id i =? uid)) (incomes s) /\
  filter (fun g => negb (Goal.user_id g =? uid)) (goals s')
  = filter (fun g => negb (Goal.user_id g =? uid)) (goals s) /\
  filter (fun i => negb (Investment.user_id i =? uid)) (investments s')
  = filter (fun i => negb (Investment.user_id i =? uid)) (investments s) /\
  filter (fun b => negb (Budget.user_id b =? uid)) (budgets s')
  = filter (fun b => negb (Budget.user_id b =? uid)) (budgets s).

(** The tables of the database. *)
Inductive Table : Type := Users | Expenses | Incomes | Goals | Investments | Budgets.

Definition table_unchanged (t : Table) (s s' : Store) : Prop :=
  match t with
  | Users => users s' = users s
  | Expenses => expenses s' = expenses s
  | Incomes => incomes s' = incomes s
  | Goals => goals s' = goals s
  | Investments => investments s' = investments s
  | Budgets => budgets s' = budgets s
  end.


(** [others_untouched] for a store computed under the error monad: an
    exception leaves nothing to compare. *)
Definition frame_ok (uid : Z) (s0 : Store) (r : result Store) : Prop :=
  match r with
  | Ok s => others_untouched uid s0 s
  | Raise _ => True
  end.

(* ================================================================= *)
(** ** Example data *)

Definition demo_env : Env :=
  mkEnv (fun password => String.append "pbkdf2:" password)
        (fun pwhash password => String.eqb pwhash (String.append "pbkdf2:" password))
        (mkdate 2024 3 15).

Definition alice : User.t := User.mk 1 "alice" "alice@example.org" "pbkdf2:rabbit".
Definition bob : User.t := User.mk 2 "bob" "bob@example.org" "pbkdf2:builder".

Definition march (d : Z) : pydate := mkdate 2024 3 d.

Definition demo_store : Store :=
  mkStore
    [ alice; bob ]
    [ Expense.mk 1 "Rent" 1200%float "Housing" (march 1) 1;
      Expense.mk 2 "Bus pass" 60%float "Transportation" (march 2) 2;
      Expense.mk 3 "Groceries" 310.5%float "Food" (march 4) 1;
      Expense.mk 4 "Cinema" 24%float "Fun" (march 9) 1 ]
    [ Income.mk 1 "Pay" 4000%float "Salary" (march 1) 1;
      Income.mk 2 "Pay" 3100%float "Salary" (march 1) 2 ]
    [ Goal.mk 1 "Laptop" 1500%float (Some 200%float) None "" 1;
      Goal.mk 2 "Holiday" 2500%float (Some 900%float) (Some (mkdate 2024 8 1)) "" 2 ]
    [ Investment.mk 1 "Index fund" "ETFs" 1000%float (march 1) (Some 1100%float) "" 1;
      Investment.mk 2 "Savings bond" "Bonds" 500%float (march 1) (Some 505%float) "" 2 ]
    [ Budget.mk 1 "Housing" 1300%float 1;
      Budget.mk 2 "Food" 400%float 1;
      Budget.mk 3 "Food" 250%float 2 ].

Definition logged_in (u : User.t) (s : Store) : State :=
  mkState s (Some (User.id u)) (Some (User.username u)).
Definition logged_out (s : Store) : State := mkState s None None.





(** A salary, an expense and a refund of the same amount filed under
    another category. *)
Definition refund_store : Store :=
  mkStore [ alice ]
    [ Expense.mk 1 "Shoes" 80%float "Clothing" (march 3) 1;
      Expense.mk 2 "Shoes returned" (-80)%float "Personal" (march 5) 1 ]
    [ Income.mk 1 "Pay" 2000%float "Salary" (march 1) 1 ]
    [] [] [].

(* ================================================================= *)
(** ** Classes of requests and further observations *)

(** The routes decorated with [@login_required]: all but [/login] and
    [/register]. *)
Definition protected (req : Request) : bool :=
  match req with
  | GetLogin | PostLogin _ _ | GetRegister | PostRegister _ _ _ => false
  | _ => true
  end.

(** The GET routes, [/logout] and [/budget] apart. *)
Definition read_only (req : Request) : bool :=
  match req with
  | GetIndex | GetLogin | GetRegister
  | GetExpenseTracker | GetExpenses | GetIncomeTracker | GetIncomes
  | GetGoalTracker | GetGoals | GetInvestmentTracker | GetInvestments
  | GetSuggestions | GetBudget | GetFinancialSummary => true
  | _ => false
  end.

(** The items of a JSON list response. *)
Definition json_list (r : Response) : list json :=
  match r with
  | Jsonify _ (JList l) => l
  | _ => []
  end.

(** No two rows of a table share a primary key. *)
Definition keys_unique (s : Store) : Prop :=
  NoDup (map User.id (users s)) /\
  NoDup (map Expense.id (expenses s)) /\
  NoDup (map Income.id (incomes s)) /\
  NoDup (map Goal.id (goals s)) /\
  NoDup (map Investment.id (investments s)) /\
  NoDup (map Budget.id (budgets s)).

(** [progress] of the goal loop in [suggestions]; there is none for a
    positive target without a current amount. *)
Definition goal_progress (g : Goal.t) : option float :=
  if (0 <? Goal.target_amount g)%float
  then match Goal.current_amount g with
       | Some current => Some (current / Goal.target_amount g)%float
       | None => None
       end
  else Some 0%float.

(** A date is no earlier than the dates that follow it. *)
Fixpoint latest_first {R : Type} (key : R -> pydate) (l : list R) : Prop :=
  match l with
  | [] => True
  | x :: l' => (forall y, In y l' -> date_ltb (key x) (key y) = false) /\ latest_first key l'
  end.

(** For each route, the tables its handler adds to, updates or deletes
    from. *)
Definition writes (req : Request) : list Table :=
  match req with
  | PostRegister _ _ _ => [Users; Budgets]
  | PostExpenseTracker _ | AddExpense _ | DeleteExpense _ => [Expenses]
  | PostIncomeTracker _ | AddIncome _ | DeleteIncome _ => [Incomes]
  | PostGoalTracker _ | AddGoal _ | UpdateGoal _ _ | DeleteGoal _ => [Goals]
  | PostInvestmentTracker _ | AddInvestment _ | UpdateInvestment _ _
  | DeleteInvestment _ => [Investments]
  | GetBudgetPlanner | PostBudgetPlanner _ | UpdateBudget _ => [Budgets]
  | _ => []
  end.

(** The routes that log a user in or out. *)
Definition changes_session (req : Request) : bool :=
  match req with
  | PostLogin _ _ | GetLogout => true
  | _ => false
  end.

(** Owner and category of every budget row, in table order. *)
Definition budget_keys (s : Store) : list (Z * string) :=
  map (fun b => (Budget.user_id b, Budget.category b)) (budgets s).

(** No user has two budget rows for one category, and every budget row
    belongs to a stored user (the foreign key of [Budget.user_id]). *)
Definition budgets_consistent (s : Store) : Prop :=
  NoDup (budget_keys s) /\
  forall k, In k (budget_keys s) -> In (fst k) (map User.id (users s)).

(** What [sorted(rows, key=lambda x: x.date, reverse=True)[:5]] is to show:
    five of the rows, or all of them if there are fewer, latest first, and
    no row left out is later than a row shown. *)
Definition latest_five {R : Type} (key : R -> pydate) (shown rows : list R) : Prop :=
  List.length shown = Nat.min 5 (List.length rows) /\
  (forall x, In x shown -> In x rows) /\
  latest_first key shown /\
  forall x y, In x shown -> In y rows -> ~ In y shown -> date_ltb (key x) (key y) = false.

(* ================================================================= *)
(** ** Exact float additions *)






Section ExactGrouping.
Context {R : Type}.
Variable key : R -> string.
Variable val : R -> float.


End ExactGrouping.


(** A user whose largest expense is outside the default categories. *)
Definition hobby_store : Store :=
  mkStore [ alice ]
    [ Expense.mk 1 "Groceries" 100%float "Food" (march 4) 1;
      Expense.mk 2 "Drone" 400%float "Gadgets" (march 9) 1 ]
    [ Income.mk 1 "Pay" 1000%float "Salary" (march 1) 1 ]
    [] [] [].


(** A user whose only rows are three investments of three types. *)
Definition portfolio_store : Store :=
  mkStore [ alice ] [] [] []
    [ Investment.mk 1 "Index fund" "ETFs" 1000%float (march 1) (Some 1100%float) "" 1;
      Investment.mk 2 "Savings bond" "Bonds" 500%float (march 1) (Some 505%float) "" 1;
      Investment.mk 3 "Flat" "Real Estate" 90000%float (march 2) (Some 91000%float) "" 1 ]
    [].

(* ================================================================= *)
(** * Properties *)

(** ** Dictionaries *)

Section DictFacts.
Context {V : Type}.
Implicit Types (d : dict V) (k : string) (v : V).

Lemma dict_get_set_same k v d : dict_get k (dict_set k v d) = Some v.
Proof.
  induction d as [|[k' v'] d IH]; simpl.
  - now rewrite String.eqb_refl.
  - destruct (String.eqb k' k) eqn:E; simpl; rewrite E; auto.
Qed.

Lemma dict_get_set_other k k' v d :
  k <> k' -> dict_get k' (dict_set k v d) = dict_get k' d.
Proof.
  intros Hne. induction d as [|[k0 v0] d IH]; simpl.
  - destruct (String.eqb_spec k k'); congruence.
  - destruct (String.eqb_spec k0 k) as [->|Hk]; simpl.
    + destruct (String.eqb_spec k k'); congruence.
    + now rewrite IH.
Qed.

Lemma dict_mem_true k d : dict_mem k d = true <-> exists v, dict_get k d = Some v.
Proof.
  unfold dict_mem. destruct (dict_get k d) as [v|].
  - split; eauto.
  - split; [discriminate | intros [v Hv]; discriminate].
Qed.

(** Assigning to a key that is present keeps the keys as they are. *)
Lemma dict_keys_set_present k v d :
  dict_mem k d = true -> dict_keys (dict_set k v d) = dict_keys d.
Proof.
  unfold dict_mem, dict_keys.
  induction d as [|[k0 v0] d IH]; simpl; [discriminate|].
  destruct (String.eqb_spec k0 k) as [->|Hk]; simpl; intros H.
  - reflexivity.
  - now rewrite IH.
Qed.

(** Assigning to a fresh key appends it. *)
Lemma dict_set_absent k v d :
  dict_get k d = None -> dict_set k v d = d ++ [(k, v)].
Proof.
  induction d as [|[k0 v0] d IH]; simpl; [reflexivity|].
  destruct (String.eqb k0 k); [discriminate|].
  intros H. now rewrite IH.
Qed.


End DictFacts.

(* ================================================================= *)
(** ** The grouping loop *)

Section GroupingFacts.
Variable A : Type.
Variable zero : A.
Variable add : A -> A -> A.
Variable R : Type.
Variable key : R -> string.
Variable val : R -> A.

Local Abbreviation step := (group_step zero add key val).
Local Abbreviation has c := (fun r : R => String.eqb (key r) c).

Lemma group_step_get_same d r :
  dict_get (key r) (step d r) =
  Some (add (match dict_get (key r) d with Some v => v | None => zero end) (val r)).
Proof.
  unfold group_step, dict_mem.
  destruct (dict_get (key r) d) as [v|] eqn:E.
  - rewrite E. apply dict_get_set_same.
  - rewrite dict_get_set_same. apply dict_get_set_same.
Qed.

Lemma group_step_get_other d r c :
  key r <> c -> dict_get c (step d r) = dict_get c d.
Proof.
  intros Hne. unfold group_step, dict_mem.
  destruct (dict_get (key r) d) as [v|] eqn:E.
  - rewrite E. now apply dict_get_set_other.
  - rewrite dict_get_set_same.
    rewrite !dict_get_set_other by assumption. reflexivity.
Qed.

(** The value the loop leaves at [c], from any starting dictionary. *)
Lemma group_fold_get rs : forall d c,
  dict_get c (fold_left step rs d) =
  match dict_get c d, filter (has c) rs with
  | None, [] => None
  | Some v, l => Some (fold_left add (map val l) v)
  | None, l => Some (fold_left add (map val l) zero)
  end.
Proof.
  induction rs as [|r rs IH]; intros d c; simpl.
  - destruct (dict_get c d); reflexivity.
  - rewrite IH. destruct (String.eqb_spec (key r) c) as [<-|Hne].
    + rewrite group_step_get_same. simpl.
      destruct (dict_get (key r) d); reflexivity.
    + rewrite group_step_get_other by assumption. reflexivity.
Qed.

(** Each key of the result maps to the left-to-right sum of the values of
    exactly the rows with that key; keys of no row are absent. *)
Lemma group_by_get rs c :
  dict_get c (group_by zero add key val rs) =
  match filter (has c) rs with
  | [] => None
  | l => Some (sum_with zero add (map val l))
  end.
Proof.
  unfold group_by. rewrite group_fold_get. simpl.
  destruct (filter (has c) rs); reflexivity.
Qed.

(** With an exact addition (associative, commutative, [zero] neutral) the
    values of the result add up to the sum over all rows. *)
Section Exact.
Hypothesis add_assoc : forall x y z, add x (add y z) = add (add x y) z.
Hypothesis add_comm : forall x y, add x y = add y x.
Hypothesis add_zero_l : forall x, add zero x = x.






End Exact.
End GroupingFacts.

(* ================================================================= *)
(** ** Facts about binary64 comparisons *)

Section FloatFacts.
Open Scope float_scope.

Lemma Prim2SF_zero : Prim2SF 0 = S754_zero false.
Proof. reflexivity. Qed.

(** A float above zero does not compare equal to zero. *)
Lemma positive_nonzero x : (0 <? x) = true -> (x =? 0) = false.
Proof.
  rewrite ltb_spec, eqb_spec, Prim2SF_zero.
  destruct (Prim2SF x) as [s|s| |s m e]; try discriminate.
  - destruct s; reflexivity.
  - destruct s; [discriminate | reflexivity].
Qed.

(** A float that compares equal to zero is not above zero. *)
Lemma zero_not_positive x : (x =? 0) = true -> (0 <? x) = false.
Proof.
  rewrite ltb_spec, eqb_spec, Prim2SF_zero.
  destruct (Prim2SF x) as [s|s| |s m e]; try reflexivity.
  - destruct s; discriminate.
  - destruct s; discriminate.
Qed.

(** Positive finite floats with the exponent [k]: nothing lies both above
    the larger and below the smaller mantissa. *)
Lemma SFltb_squeeze (m1 m2 m : positive) (k e : Z) (s : bool) :
  (m2 <= m1)%positive ->
  SFltb (S754_finite false m1 k) (S754_finite s m e) = true ->
  SFltb (S754_finite s m e) (S754_finite false m2 k) = false.
Proof.
  intros Hm. unfold SFltb, SFcompare.
  change (Pos.compare_cont Eq m1 m) with (Pos.compare m1 m).
  change (Pos.compare_cont Eq m m2) with (Pos.compare m m2).
  destruct s; [discriminate|].
  rewrite (Z.compare_antisym e k).
  destruct (Z.compare_spec e k) as [He|He|He]; cbn [CompOpp]; try discriminate; auto.
  rewrite (Pos.compare_antisym m m1).
  destruct (Pos.compare_spec m m1) as [H1|H1|H1]; cbn [CompOpp]; try discriminate.
  intros _. destruct (Pos.compare_spec m m2) as [H2|H2|H2]; auto. lia.
Qed.

(** The two thresholds of the ratio rule exclude each other. *)
Lemma above_090_not_below_050 r : (0.9 <? r) = true -> (r <? 0.5) = false.
Proof.
  rewrite !ltb_spec.
  change (Prim2SF 0.9) with (S754_finite false 8106479329266893 (-53)).
  change (Prim2SF 0.5) with (S754_finite false 4503599627370496 (-53)).
  destruct (Prim2SF r) as [s|s| |s m e].
  - destruct s; discriminate.
  - destruct s; [discriminate | reflexivity].
  - discriminate.
  - apply SFltb_squeeze. vm_compute. discriminate.
Qed.


End FloatFacts.

(* ================================================================= *)
(** ** Summary totals, groupings and the two net worths *)

(** Reading the current values of the investments. *)
Lemma current_values_ok (uvs : list Investment.t) : forall values,
  map Investment.current_value uvs = map Some values -> current_values uvs = Ok values.
Proof.
  unfold current_values.
  induction uvs as [|i uvs IH]; intros [|v values]; cbn [map mapM]; try discriminate.
  - reflexivity.
  - intros [= Hi Hrest]. rewrite Hi. cbn [number bind]. now rewrite (IH values Hrest).
Qed.


Lemma investments_by_type_fold (uvs : list Investment.t) : forall values d,
  map Investment.current_value uvs = map Some values ->
  fold_left
    (fun acc i =>
       d <- acc ;;
       v <- number (Investment.current_value i) ;;
       Ok (group_step 0%float PrimFloat.add fst snd d (Investment.type i, v)))
    uvs (Ok d)
  = Ok (fold_left (group_step 0%float PrimFloat.add fst snd)
          (combine (map Investment.type uvs) values) d).
Proof.
  induction uvs as [|i uvs IH]; intros [|v values] d; cbn [map combine fold_left];
    try discriminate.
  - reflexivity.
  - intros [= Hi Hrest]. cbn [bind]. rewrite Hi. cbn [number bind]. now apply IH.
Qed.

(** With every current value set, the grouping loop runs over the pairs of
    type and current value. *)
Lemma investments_by_type_ok (uvs : list Investment.t) (values : list float) :
  map Investment.current_value uvs = map Some values ->
  investments_by_type uvs
  = Ok (group_by 0%float PrimFloat.add fst snd (combine (map Investment.type uvs) values)).
Proof. intros H. unfold investments_by_type, group_by. now apply investments_by_type_fold. Qed.

Lemma financial_summary_ok (ues : list Expense.t) (uis : list Income.t)
  (uvs : list Investment.t) (values : list float) :
  map Investment.current_value uvs = map Some values ->
  financial_summary ues uis uvs
  = Ok (JDict
          [ ("total_expenses", JNum (py_sum (map Expense.amount ues)));
            ("total_income", JNum (py_sum (map Income.amount uis)));
            ("total_investments", JNum (py_sum values));
            ("net_worth",
              JNum (py_sum (map Income.amount uis) - py_sum (map Expense.amount ues)
                    + py_sum values)%float);
            ("expense_by_category", json_of_dict (expense_by_category ues));
            ("income_by_category", json_of_dict (income_by_category uis));
            ("investments_by_type",
              json_of_dict
                (group_by 0%float PrimFloat.add fst snd
                   (combine (map Investment.type uvs) values))) ]).
Proof.
  intros H. unfold financial_summary.
  rewrite (current_values_ok _ _ H), (investments_by_type_ok _ _ H). reflexivity.
Qed.









(* ================================================================= *)
(** ** Divisions *)

Lemma truediv_positive (a b : float) :
  (0 <? b)%float = true -> truediv a b = Ok (a / b)%float.
Proof.
  intros H. unfold truediv, py_truediv. now rewrite (positive_nonzero b H).
Qed.

(** The expense ratio is only computed for a positive income. *)
Lemma ratio_rule_defined (total_income total_expenses : float) (s : list Suggestion.t) :
  exists s', ratio_rule total_income total_expenses s = Ok s'.
Proof.
  unfold ratio_rule. destruct (0 <? total_income)%float eqn:H.
  - rewrite (truediv_positive _ _ H). cbn [bind]. eauto.
  - eauto.
Qed.

(** Goal progress is only computed for a positive target: one iteration
    of the goal loop appends or not according to the progress, and fails,
    with [TypeError], only for a positive target without a current
    amount. *)
Lemma goal_rule_progress (s : list Suggestion.t) (g : Goal.t) :
  goal_rule s g =
  match goal_progress g with
  | Some progress =>
      Ok (if (progress <? 0.25)%float
          then s ++ [goal_behind (Goal.name g) progress]
          else s)
  | None => Raise TypeError
  end.
Proof.
  unfold goal_rule, goal_progress. destruct (0 <? Goal.target_amount g)%float eqn:H.
  - destruct (Goal.current_amount g) as [current|]; cbn [number bind]; [|reflexivity].
    rewrite (truediv_positive _ _ H). reflexivity.
  - reflexivity.
Qed.

Lemma goal_rule_division (s : list Suggestion.t) (goal : Goal.t) :
  goal_rule s goal <> Raise ZeroDivisionError.
Proof. rewrite goal_rule_progress. destruct (goal_progress goal); discriminate. Qed.

Lemma goal_rule_defined (s : list Suggestion.t) (goal : Goal.t) :
  goal_progress goal <> None -> exists s', goal_rule s goal = Ok s'.
Proof.
  intros H. rewrite goal_rule_progress. destruct (goal_progress goal); [eauto | contradiction].
Qed.

Lemma goal_rules_defined (ugs : list Goal.t) : forall s,
  (forall g, In g ugs -> goal_progress g <> None) ->
  exists s', goal_rules ugs s = Ok s'.
Proof.
  unfold goal_rules. induction ugs as [|g ugs IH]; intros s Hall; cbn [fold_left].
  - eauto.
  - cbn [bind]. destruct (goal_rule_defined s g (Hall g (or_introl eq_refl))) as [s' ->].
    apply IH. intros g' Hg'. apply Hall. now right.
Qed.

(** The budget percentage is only computed for a positive budget, so the
    budget page never fails on a division. *)
Lemma budget_row_defined (budget_dict spending : dict float) (category : string) :
  exists row, budget_row budget_dict spending category = Ok row.
Proof.
  unfold budget_row.
  destruct (0 <? dict_get_default category 0 budget_dict)%float eqn:H.
  - rewrite (truediv_positive _ _ H). cbn [bind]. eauto.
  - cbn [bind]. eauto.
Qed.

Lemma mapM_defined {A B : Type} (f : A -> result B) (l : list A) :
  (forall a, exists b, f a = Ok b) -> exists bs, mapM f l = Ok bs.
Proof.
  intros Hf. induction l as [|a l [bs IH]]; cbn [mapM].
  - eauto.
  - destruct (Hf a) as [b ->]. rewrite IH. cbn [bind]. eauto.
Qed.

Lemma budget_data_defined (budget_dict : dict float) (ues : list Expense.t) :
  exists rows, budget_data budget_dict ues = Ok rows.
Proof. apply mapM_defined. intros c. apply budget_row_defined. Qed.

(** The share of the highest category is defined as soon as the total of
    the expenses is not zero. *)
Lemma high_category_rule_defined (d : dict float) (total : float) (s : list Suggestion.t) :
  (total =? 0)%float = false -> exists s', high_category_rule d total s = Ok s'.
Proof.
  intros H. unfold high_category_rule.
  destruct (max_item d) as [[c v]|]; [|eauto].
  destruct (total * 0.4 <? snd (c, v))%float; [|eauto].
  unfold truediv, py_truediv. rewrite H. cbn [bind]. eauto.
Qed.

(** C6 at its failing input. An expense of 80 and a refund of -80 in
    another category: the total is zero, the highest category holds 80,
    which is above 40% of zero, and its share divides by the total. *)
Theorem suggestions_divide_by_zero :
  py_sum (map Expense.amount (user_expenses 1 refund_store)) = 0%float /\
  max_item (expense_by_category (user_expenses 1 refund_store)) = Some ("Clothing", 80%float) /\
  handle demo_env GetSuggestions (logged_in alice refund_store)
  = (ServerError ZeroDivisionError, logged_in alice refund_store).
Proof. repeat split; vm_compute; reflexivity. Qed.

(* ================================================================= *)
(** ** The income/expense ratio rule *)

Section RatioTitles.
Implicit Types (s : list Suggestion.t) (t : string).

Lemma titles_snoc s x t :
  In t (titles (s ++ [x])) <-> In t (titles s) \/ Suggestion.title x = t.
Proof.
  unfold titles. rewrite map_app, in_app_iff. simpl. tauto.
Qed.

Lemma high_title_not_ratio c share t :
  ratio_title t -> Suggestion.title (high_category c share) <> t.
Proof. intros [-> | ->]; discriminate. Qed.

Lemma goal_title_not_ratio name progress t :
  ratio_title t -> Suggestion.title (goal_behind name progress) <> t.
Proof. intros [-> | ->]; discriminate. Qed.

Lemma investment_rules_titles uvs s t :
  ratio_title t -> (In t (titles (investment_rules uvs s)) <-> In t (titles s)).
Proof.
  intros Ht. unfold investment_rules.
  assert (E : forall s0, In t (titles (s0 ++ [emergency_fund])) <-> In t (titles s0)).
  { intros s0. rewrite titles_snoc. destruct Ht as [-> | ->]; simpl; intuition discriminate. }
  assert (D : forall s0, In t (titles (s0 ++ [diversify_investments])) <-> In t (titles s0)).
  { intros s0. rewrite titles_snoc. destruct Ht as [-> | ->]; simpl; intuition discriminate. }
  destruct (is_empty uvs);
    destruct ((List.length (nodup string_dec (map Investment.type uvs)) <? 3)%nat);
    cbn [andb negb]; rewrite ?D, ?E; tauto.
Qed.

Lemma high_category_rule_titles d total s s' t :
  ratio_title t -> high_category_rule d total s = Ok s' ->
  (In t (titles s') <-> In t (titles s)).
Proof.
  intros Ht. unfold high_category_rule.
  destruct (max_item d) as [[c v]|]; [|intros [= <-]; tauto].
  destruct (total * 0.4 <? snd (c, v))%float; [|intros [= <-]; tauto].
  destruct (truediv (snd (c, v)) total) as [share|]; cbn [bind]; [|discriminate].
  intros [= <-]. rewrite titles_snoc.
  pose proof (high_title_not_ratio (fst (c, v)) (share * 100)%float t Ht). tauto.
Qed.

Lemma goal_rule_titles s goal s' t :
  ratio_title t -> goal_rule s goal = Ok s' ->
  (In t (titles s') <-> In t (titles s)).
Proof.
  intros Ht. rewrite goal_rule_progress.
  destruct (goal_progress goal) as [progress|]; [|discriminate].
  destruct (progress <? 0.25)%float; intros [= <-]; [|tauto].
  rewrite titles_snoc.
  pose proof (goal_title_not_ratio (Goal.name goal) progress t Ht). tauto.
Qed.

Lemma fold_raise (ugs : list Goal.t) (e : exn) :
  fold_left (fun acc goal => x <- acc ;; goal_rule x goal) ugs (Raise e) = Raise e.
Proof. induction ugs as [|g ugs IH]; cbn [fold_left bind]; auto. Qed.

Lemma goal_rules_titles ugs : forall s s' t,
  ratio_title t -> goal_rules ugs s = Ok s' ->
  (In t (titles s') <-> In t (titles s)).
Proof.
  unfold goal_rules. induction ugs as [|g ugs IH]; intros s s' t Ht; cbn [fold_left].
  - intros [= <-]. tauto.
  - cbn [bind]. destruct (goal_rule s g) as [s1|e] eqn:E.
    + intros H. rewrite (IH s1 s' t Ht H). now apply goal_rule_titles with (goal := g).
    + rewrite fold_raise. discriminate.
Qed.

Lemma default_titles_not_ratio t : ratio_title t -> ~ In t (titles default_suggestions).
Proof. intros [-> | ->]; simpl; intuition discriminate. Qed.

Lemma or_default_titles s t :
  ratio_title t ->
  (In t (titles (if is_empty s then default_suggestions else s)) <-> In t (titles s)).
Proof.
  intros Ht. destruct s as [|x s]; cbn [is_empty]; [|tauto].
  pose proof (default_titles_not_ratio t Ht). simpl in *. tauto.
Qed.

(** The titles of the ratio rule survive to the page, and no other rule
    adds them. *)
Lemma suggestion_list_ratio_titles ues uis ugs uvs l t :
  ratio_title t ->
  suggestion_list ues uis ugs uvs = Ok l ->
  exists s1,
    ratio_rule (py_sum (map Income.amount uis)) (py_sum (map Expense.amount ues)) [] = Ok s1 /\
    (In t (titles l) <-> In t (titles s1)).
Proof.
  intros Ht. unfold suggestion_list.
  destruct (ratio_rule _ _ []) as [s1|] eqn:E1; cbn [bind]; [|discriminate].
  destruct (high_category_rule _ _ _) as [s3|] eqn:E3; cbn [bind]; [|discriminate].
  destruct (goal_rules ugs s3) as [s4|] eqn:E4; cbn [bind]; [|discriminate].
  intros [= <-]. exists s1. split; [reflexivity|].
  rewrite (or_default_titles s4 t Ht).
  rewrite (goal_rules_titles ugs s3 s4 t Ht E4).
  rewrite (high_category_rule_titles _ _ _ _ t Ht E3).
  now apply investment_rules_titles.
Qed.

Lemma ratio_rule_titles (total_income total_expenses : float) s1 :
  ratio_rule total_income total_expenses [] = Ok s1 ->
  ((0 <? total_income)%float = true ->
   (In "Reduce Expenses" (titles s1)
    <-> (0.9 <? total_expenses / total_income)%float = true) /\
   (In "Great Savings Rate" (titles s1)
    <-> (total_expenses / total_income <? 0.5)%float = true)) /\
  ((0 <? total_income)%float = false -> s1 = []).
Proof.
  unfold ratio_rule. destruct (0 <? total_income)%float eqn:H.
  - rewrite (truediv_positive _ _ H). cbn [bind].
    set (r := (total_expenses / total_income)%float).
    intros [= <-]. split; [intros _|discriminate].
    destruct (0.9 <? r)%float eqn:Hhigh.
    + rewrite (above_090_not_below_050 r Hhigh). simpl.
      split; split; intros; auto; try discriminate.
      destruct H0 as [H0|[]]. discriminate.
    + destruct (r <? 0.5)%float eqn:Hlow; simpl.
      * split; split; intros; auto; try discriminate.
        destruct H0 as [H0|[]]. discriminate.
      * split; split; intros; try contradiction; discriminate.
  - intros [= <-]. split; [discriminate|reflexivity].
Qed.
End RatioTitles.

(** X26. On every suggestions page that is rendered: if [total_income > 0], it
    carries the title 'Reduce Expenses' exactly when
    [total_expenses / total_income > 0.9] and the title 'Great Savings Rate'
    exactly when [total_expenses / total_income < 0.5]; if [total_income] is
    zero it carries neither. *)
Lemma ratio_suggestions (env : Env) (st : State) (u : User.t) (shown : list string) :
  current_user st = Some u ->
  page_titles (fst (handle env GetSuggestions st)) = Some shown ->
  let total_expenses :=
    py_sum (map Expense.amount
              (filter (fun e => Expense.user_id e =? User.id u) (expenses (db st)))) in
  let total_income :=
    py_sum (map Income.amount
              (filter (fun i => Income.user_id i =? User.id u) (incomes (db st)))) in
  ((0 <? total_income)%float = true ->
   (In "Reduce Expenses" shown <-> (0.9 <? total_expenses / total_income)%float = true) /\
   (In "Great Savings Rate" shown <-> (total_expenses / total_income <? 0.5)%float = true)) /\
  ((total_income =? 0)%float = true ->
   ~ In "Reduce Expenses" shown /\ ~ In "Great Savings Rate" shown).
Proof.
  intros Hu. cbn [handle]. unfold login_required. rewrite Hu. unfold suggestions.
  destruct (suggestion_list _ _ _ _) as [l|] eqn:E; cbn [fst page_titles]; [|discriminate].
  intros [= <-]. cbv zeta.
  destruct (suggestion_list_ratio_titles _ _ _ _ l "Reduce Expenses" (or_introl eq_refl) E)
    as (s1 & Hrule & Hreduce).
  destruct (suggestion_list_ratio_titles _ _ _ _ l "Great Savings Rate" (or_intror eq_refl) E)
    as (s1' & Hrule' & Hgreat).
  assert (s1' = s1) as -> by congruence. clear Hrule'.
  fold (titles l). rewrite Hreduce, Hgreat.
  destruct (ratio_rule_titles _ _ _ Hrule) as [Hpos Hnonpos].
  split.
  - exact Hpos.
  - intros Hzero. rewrite (Hnonpos (zero_not_positive _ Hzero)). simpl. tauto.
Qed.

Lemma ratio_suggestions_example :
  let st := logged_in alice demo_store in
  current_user st = Some alice /\
  page_titles (fst (handle demo_env GetSuggestions st))
  = Some [ "Great Savings Rate"; "Diversify Investments"; "High Housing Expenses";
           "Goal: Laptop" ] /\
  (In "Great Savings Rate"
      [ "Great Savings Rate"; "Diversify Investments"; "High Housing Expenses";
        "Goal: Laptop" ]
   <-> (1534.5 / 4000 <? 0.5)%float = true).
Proof.
  intros st.
  split; [reflexivity|]. split; [vm_compute; reflexivity|].
  exact (proj2 (proj1 (ratio_suggestions demo_env st alice _ eq_refl eq_refl) eq_refl)).
Defined.

(** C7 at its failing input. With a salary of 2000 and expenses that cancel
    out, the income is positive and the ratio 0 is below 0.5, so the ratio
    rule puts 'Great Savings Rate' on the list; the page that should carry
    it is never rendered, because the highest-category rule then divides
    by the zero total. *)
Theorem ratio_rule_lost_to_division :
  let st := logged_in alice refund_store in
  let total_income := py_sum (map Income.amount (user_incomes 1 refund_store)) in
  let total_expenses := py_sum (map Expense.amount (user_expenses 1 refund_store)) in
  (0 <? total_income)%float = true /\
  (total_expenses / total_income <? 0.5)%float = true /\
  titles match ratio_rule total_income total_expenses [] with Ok s => s | Raise _ => [] end
  = [ "Great Savings Rate" ] /\
  fst (handle demo_env GetSuggestions st) = ServerError ZeroDivisionError /\
  page_titles (fst (handle demo_env GetSuggestions st)) = None.
Proof. repeat split; vm_compute; reflexivity. Qed.

(* ================================================================= *)
(** ** Spending per budget category *)

Section AccumulateFacts.
Variable A : Type.
Variable add : A -> A -> A.
Variable R : Type.
Variable key : R -> string.
Variable val : R -> A.

Local Abbreviation acc_step := (accumulate_step add key val).

(** The loop adds to the keys it starts with and never creates one. *)
Lemma accumulate_into_get rs : forall d c,
  dict_get c (accumulate_into add key val d rs) =
  match dict_get c d with
  | Some v =>
      Some (fold_left add (map val (filter (fun r => String.eqb (key r) c) rs)) v)
  | None => None
  end.
Proof.
  unfold accumulate_into.
  induction rs as [|r rs IH]; intros d c; cbn [fold_left filter map].
  - destruct (dict_get c d); reflexivity.
  - rewrite IH. unfold accumulate_step.
    destruct (String.eqb_spec (key r) c) as [<-|Hne].
    + destruct (dict_get (key r) d) as [v|] eqn:E.
      * now rewrite dict_get_set_same.
      * now rewrite E.
    + destruct (dict_get (key r) d) as [v|] eqn:E.
      * now rewrite dict_get_set_other.
      * reflexivity.
Qed.

(** A row whose key the dictionary lacks leaves it as it is. *)
Lemma accumulate_into_skip d rs1 r rs2 :
  dict_get (key r) d = None ->
  accumulate_into add key val d (rs1 ++ r :: rs2)
  = accumulate_into add key val d (rs1 ++ rs2).
Proof.
  intros Hd. unfold accumulate_into. rewrite !fold_left_app. cbn [fold_left].
  f_equal. unfold accumulate_step at 1.
  pose proof (accumulate_into_get rs1 d (key r)) as H.
  unfold accumulate_into in H. rewrite Hd in H. now rewrite H.
Qed.
End AccumulateFacts.

Lemma dict_from_keys_get {V : Type} (v : V) (ks : list string) : forall (d : dict V) (c : string),
  dict_get c (fold_left (fun d k => dict_set k v d) ks d) =
  if existsb (fun k => String.eqb k c) ks then Some v else dict_get c d.
Proof.
  induction ks as [|k ks IH]; intros d c; cbn [fold_left existsb].
  - reflexivity.
  - rewrite IH. destruct (existsb (fun k0 => String.eqb k0 c) ks).
    + now rewrite orb_true_r.
    + rewrite orb_false_r. destruct (String.eqb_spec k c) as [->|Hne].
      * apply dict_get_set_same.
      * now apply dict_get_set_other.
Qed.

Lemma existsb_eqb_In (c : string) (ks : list string) :
  existsb (fun k => String.eqb k c) ks = true <-> In c ks.
Proof.
  rewrite existsb_exists. split.
  - intros (k & Hin & Hk). apply String.eqb_eq in Hk. now subst.
  - intros Hin. exists c. split; [assumption | apply String.eqb_refl].
Qed.

(** The budget page's [spent_amount] of a default category is the float sum
    of the amounts of the expenses filed under it; no other key exists. *)
Lemma spending_by_category_get (ues : list Expense.t) (c : string) :
  dict_get c (spending_by_category ues) =
  if existsb (fun k => String.eqb k c) default_expense_categories
  then Some (py_sum (map Expense.amount
                       (filter (fun e => String.eqb (Expense.category e) c) ues)))
  else None.
Proof.
  unfold spending_by_category. rewrite accumulate_into_get, dict_from_keys_get.
  destruct (existsb _ default_expense_categories); reflexivity.
Qed.

Lemma spending_by_category_skip (e : Expense.t) (es1 es2 : list Expense.t) :
  ~ In (Expense.category e) default_expense_categories ->
  spending_by_category (es1 ++ e :: es2) = spending_by_category (es1 ++ es2).
Proof.
  intros Hcat. unfold spending_by_category. apply accumulate_into_skip.
  rewrite dict_from_keys_get.
  destruct (existsb _ default_expense_categories) eqn:E; [|reflexivity].
  apply existsb_eqb_In in E. contradiction.
Qed.

Lemma budget_data_skip (budget_dict : dict float) (e : Expense.t) (es1 es2 : list Expense.t) :
  ~ In (Expense.category e) default_expense_categories ->
  budget_data budget_dict (es1 ++ e :: es2) = budget_data budget_dict (es1 ++ es2).
Proof.
  intros Hcat. unfold budget_data. now rewrite spending_by_category_skip.
Qed.

(** The dictionary built by [ensure_budgets] does not depend on the store. *)
Lemma ensure_budgets_dict (uid : Z) (cats : list string) : forall (s s0 : Store) (d : dict float),
  snd (fold_left
         (fun sd category =>
            if dict_mem category (snd sd) then sd
            else (add_budget category 0%float uid (fst sd),
                  dict_set category 0%float (snd sd)))
         cats (s, d))
  = snd (fold_left
           (fun sd category =>
              if dict_mem category (snd sd) then sd
              else (add_budget category 0%float uid (fst sd),
                    dict_set category 0%float (snd sd)))
           cats (s0, d)).
Proof.
  induction cats as [|c cats IH]; intros s s0 d; cbn [fold_left snd fst].
  - reflexivity.
  - destruct (dict_mem c d); apply IH.
Qed.

Lemma filter_insert {R : Type} (p : R -> bool) (l1 l2 : list R) (x : R) :
  p x = true -> filter p (l1 ++ x :: l2) = filter p l1 ++ x :: filter p l2.
Proof. intros Hx. rewrite filter_app. cbn [filter]. now rewrite Hx. Qed.

(* ================================================================= *)
(** ** Ownership: what a handler may touch *)

Section RowFrames.
Context {R : Type}.
Variable ruid : R -> Z.
Variable uid : Z.

Local Abbreviation foreign := (fun r : R => negb (ruid r =? uid)).

Lemma foreign_snoc (l : list R) (x : R) :
  ruid x = uid -> filter foreign (l ++ [x]) = filter foreign l.
Proof.
  intros Hx. rewrite filter_app. cbn [filter].
  rewrite Hx, Z.eqb_refl. cbn [negb]. apply app_nil_r.
Qed.

Lemma foreign_delete_first (q : R -> bool) (l : list R) :
  (forall r, q r = true -> ruid r = uid) ->
  filter foreign (delete_first q l) = filter foreign l.
Proof.
  intros Hq. induction l as [|r l IH]; cbn [delete_first filter]; [reflexivity|].
  destruct (q r) eqn:E.
  - rewrite (Hq r E), Z.eqb_refl. reflexivity.
  - cbn [filter]. now rewrite IH.
Qed.

Lemma foreign_update_first (q : R -> bool) (f : R -> R) (l : list R) :
  (forall r, q r = true -> ruid r = uid) ->
  (forall r, q r = true -> ruid (f r) = uid) ->
  filter foreign (update_first q f l) = filter foreign l.
Proof.
  intros Hq Hf. induction l as [|r l IH]; cbn [update_first filter]; [reflexivity|].
  destruct (q r) eqn:E.
  - cbn [filter]. rewrite (Hq r E), (Hf r E), Z.eqb_refl. reflexivity.
  - cbn [filter]. now rewrite IH.
Qed.

Lemma first_owned (key : Z) (rid : R -> Z) (r : R) :
  ((rid r =? key) && (ruid r =? uid)) = true -> ruid r = uid.
Proof. intros H. apply andb_true_iff in H. now apply Z.eqb_eq. Qed.
End RowFrames.

Lemma others_untouched_refl (uid : Z) (s : Store) : others_untouched uid s s.
Proof. unfold others_untouched. repeat split. Qed.

Lemma others_untouched_trans (uid : Z) (s1 s2 s3 : Store) :
  others_untouched uid s1 s2 -> others_untouched uid s2 s3 -> others_untouched uid s1 s3.
Proof.
  unfold others_untouched.
  intros (A1 & A2 & A3 & A4 & A5 & A6) (B1 & B2 & B3 & B4 & B5 & B6).
  repeat split; congruence.
Qed.

(** Changing one table in a way that keeps the rows of other users. *)
Lemma untouched_expenses uid s f :
  filter (fun e => negb (Expense.user_id e =? uid)) (f (expenses s))
  = filter (fun e => negb (Expense.user_id e =? uid)) (expenses s) ->
  others_untouched uid s (set_expenses f s).
Proof. intros H. unfold others_untouched. cbn. repeat split. exact H. Qed.

Lemma untouched_incomes uid s f :
  filter (fun i => negb (Income.user_id i =? uid)) (f (incomes s))
  = filter (fun i => negb (Income.user_id i =? uid)) (incomes s) ->
  others_untouched uid s (set_incomes f s).
Proof. intros H. unfold others_untouched. cbn. repeat split. exact H. Qed.

Lemma untouched_goals uid s f :
  filter (fun g => negb (Goal.user_id g =? uid)) (f (goals s))
  = filter (fun g => negb (Goal.user_id g =? uid)) (goals s) ->
  others_untouched uid s (set_goals f s).
Proof. intros H. unfold others_untouched. cbn. repeat split. exact H. Qed.

Lemma untouched_investments uid s f :
  filter (fun i => negb (Investment.user_id i =? uid)) (f (investments s))
  = filter (fun i => negb (Investment.user_id i =? uid)) (investments s) ->
  others_untouched uid s (set_investments f s).
Proof. intros H. unfold others_untouched. cbn. repeat split. exact H. Qed.

Lemma untouched_budgets uid s f :
  filter (fun b => negb (Budget.user_id b =? uid)) (f (budgets s))
  = filter (fun b => negb (Budget.user_id b =? uid)) (budgets s) ->
  others_untouched uid s (set_budgets f s).
Proof. intros H. unfold others_untouched. cbn. repeat split. exact H. Qed.

Lemma add_budget_untouched uid category amount s :
  others_untouched uid s (add_budget category amount uid s).
Proof.
  unfold add_budget. apply untouched_budgets.
  now apply (foreign_snoc Budget.user_id).
Qed.

Lemma budget_query_owned uid category (b : Budget.t) :
  (String.eqb (Budget.category b) category && (Budget.user_id b =? uid)) = true ->
  Budget.user_id b = uid.
Proof. intros H. apply andb_true_iff in H. now apply Z.eqb_eq. Qed.

Lemma set_amount_untouched uid category amount s :
  others_untouched uid s
    (set_budgets
       (update_first
          (fun b => String.eqb (Budget.category b) category && (Budget.user_id b =? uid))
          (fun b => Budget.mk (Budget.id b) (Budget.category b) amount (Budget.user_id b)))
       s).
Proof.
  apply untouched_budgets. apply (foreign_update_first Budget.user_id).
  - intros b. apply budget_query_owned.
  - intros b Hb. cbn. now apply budget_query_owned with (category := category).
Qed.

Lemma ensure_budgets_untouched uid (cats : list string) : forall s0 s d,
  others_untouched uid s0 s ->
  others_untouched uid s0
    (fst (fold_left
            (fun sd category =>
               if dict_mem category (snd sd) then sd
               else (add_budget category 0%float uid (fst sd),
                     dict_set category 0%float (snd sd)))
            cats (s, d))).
Proof.
  induction cats as [|c cats IH]; intros s0 s d H; cbn [fold_left fst snd].
  - exact H.
  - destruct (dict_mem c d).
    + now apply IH.
    + apply IH. eapply others_untouched_trans; [exact H|]. apply add_budget_untouched.
Qed.

Lemma post_budget_untouched uid form s0 acc category :
  frame_ok uid s0 (written acc) ->
  frame_ok uid s0 (written (post_budget uid form acc category)).
Proof.
  unfold post_budget, written.
  destruct acc as [[s last]|e]; cbn [bind frame_ok fst snd]; [|trivial].
  intros H.
  destruct (with_default 0%float _) as [amount|]; cbn [bind frame_ok]; [|trivial].
  destruct (not_null last) as [flushed|]; cbn [bind frame_ok]; [|trivial].
  destruct (first _ (budgets s)); cbn [bind frame_ok fst].
  - eapply others_untouched_trans; [exact H|]. apply set_amount_untouched.
  - eapply others_untouched_trans; [exact H|]. apply add_budget_untouched.
Qed.

Lemma commit_budgets_written (acc : result (Store * float)) (s : Store) :
  commit_budgets acc = Ok s -> written acc = Ok s.
Proof.
  unfold commit_budgets, written. destruct acc as [[s0 last]|e]; cbn [bind fst snd];
    [|discriminate].
  destruct (not_null last); cbn [bind]; [tauto | discriminate].
Qed.

Lemma post_budgets_untouched uid form s0 (cats : list string) : forall acc,
  frame_ok uid s0 (written acc) ->
  frame_ok uid s0 (written (fold_left (post_budget uid form) cats acc)).
Proof.
  induction cats as [|c cats IH]; intros acc H; cbn [fold_left]; [exact H|].
  apply IH. now apply post_budget_untouched.
Qed.

Lemma put_budget_untouched uid s0 acc item :
  frame_ok uid s0 acc -> frame_ok uid s0 (put_budget uid acc item).
Proof.
  unfold put_budget. destruct acc as [s|e]; cbn [bind frame_ok]; [|trivial].
  intros H.
  destruct (first _ (budgets s));
    destruct (required (snd item)) as [converted|]; cbn [bind frame_ok]; trivial;
    destruct (not_null converted) as [amount|]; cbn [bind frame_ok]; trivial.
  - eapply others_untouched_trans; [exact H|]. apply set_amount_untouched.
  - eapply others_untouched_trans; [exact H|]. apply add_budget_untouched.
Qed.

Lemma put_budgets_untouched uid s0 (data : dict (field float)) : forall acc,
  frame_ok uid s0 acc -> frame_ok uid s0 (fold_left (put_budget uid) data acc).
Proof.
  induction data as [|item data IH]; intros acc H; cbn [fold_left]; [exact H|].
  apply IH. now apply put_budget_untouched.
Qed.

Lemma new_expense_owner env data uid s e :
  new_expense env data uid s = Ok e -> Expense.user_id e = uid.
Proof.
  unfold new_expense.
  destruct (required (t_amount data)); cbn [bind]; [|discriminate].
  destruct (with_default (today env) (t_date data)); cbn [bind]; [|discriminate].
  destruct (not_null _); cbn [bind]; [|discriminate].
  now intros [= <-].
Qed.

Lemma new_income_owner env data uid s i :
  new_income env data uid s = Ok i -> Income.user_id i = uid.
Proof.
  unfold new_income.
  destruct (required (t_amount data)); cbn [bind]; [|discriminate].
  destruct (with_default (today env) (t_date data)); cbn [bind]; [|discriminate].
  destruct (not_null _); cbn [bind]; [|discriminate].
  now intros [= <-].
Qed.

Lemma new_goal_owner data uid s g :
  new_goal data uid s = Ok g -> Goal.user_id g = uid.
Proof.
  unfold new_goal.
  destruct (required (g_target_amount data)); cbn [bind]; [|discriminate].
  destruct (with_default 0%float (g_current_amount data)); cbn [bind]; [|discriminate].
  destruct (optional_date (g_target_date data)); cbn [bind]; [|discriminate].
  destruct (not_null _); cbn [bind]; [|discriminate].
  now intros [= <-].
Qed.

Lemma new_investment_owner data uid s i :
  new_investment data uid s = Ok i -> Investment.user_id i = uid.
Proof.
  unfold new_investment.
  destruct (required (i_amount data)) as [amount|]; cbn [bind]; [|discriminate].
  destruct (required (i_purchase_date data)); cbn [bind]; [|discriminate].
  destruct (with_default amount (i_current_value data)); cbn [bind]; [|discriminate].
  destruct (not_null _); cbn [bind]; [|discriminate].
  now intros [= <-].
Qed.

Lemma patch_goal_owner data goal goal' :
  patch_goal data goal = Ok goal' -> Goal.user_id goal' = Goal.user_id goal.
Proof.
  unfold patch_goal.
  destruct (converted (gp_target_amount data)); cbn [bind]; [|discriminate].
  destruct (converted (gp_current_amount data)); cbn [bind]; [|discriminate].
  destruct (with_default (Goal.target_date goal) _); cbn [bind]; [|discriminate].
  destruct (assigned_not_null _ _); cbn [bind]; [|discriminate].
  now intros [= <-].
Qed.

Lemma patch_investment_owner data inv inv' :
  patch_investment data inv = Ok inv' -> Investment.user_id inv' = Investment.user_id inv.
Proof.
  unfold patch_investment.
  destruct (converted (ip_amount data)); cbn [bind]; [|discriminate].
  destruct (with_default (Investment.purchase_date inv) _); cbn [bind]; [|discriminate].
  destruct (converted (ip_current_value data)); cbn [bind]; [|discriminate].
  destruct (assigned_not_null _ _); cbn [bind]; [|discriminate].
  now intros [= <-].
Qed.

Lemma first_holds {R : Type} (q : R -> bool) (l : list R) (r : R) :
  first q l = Some r -> In r l /\ q r = true.
Proof. apply find_some. Qed.

Section HandlerFrames.
Variable env : Env.
Variable u : User.t.
Variable st : State.

Local Abbreviation untouched_by h := (others_untouched (User.id u) (db st) (db (snd h))).

Lemma expense_tracker_frame post : untouched_by (expense_tracker env post u st).
Proof.
  unfold expense_tracker. destruct post as [form|]; [|apply others_untouched_refl].
  destruct (new_expense env form (User.id u) (db st)) as [e|x] eqn:E;
    [|apply others_untouched_refl].
  cbn [snd db with_db]. apply untouched_expenses.
  apply (foreign_snoc Expense.user_id). eapply new_expense_owner, E.
Qed.

Lemma add_expense_frame data : untouched_by (add_expense env data u st).
Proof.
  unfold add_expense.
  destruct (new_expense env data (User.id u) (db st)) as [e|x] eqn:E;
    [|apply others_untouched_refl].
  cbn [snd db with_db]. apply untouched_expenses.
  apply (foreign_snoc Expense.user_id). eapply new_expense_owner, E.
Qed.

Lemma delete_expense_frame key : untouched_by (delete_expense key u st).
Proof.
  unfold delete_expense. destruct (first _ (expenses (db st)));
    [|apply others_untouched_refl].
  cbn [snd db with_db]. apply untouched_expenses.
  apply (foreign_delete_first Expense.user_id).
  intros r. apply first_owned.
Qed.

Lemma income_tracker_frame post : untouched_by (income_tracker env post u st).
Proof.
  unfold income_tracker. destruct post as [form|]; [|apply others_untouched_refl].
  destruct (new_income env form (User.id u) (db st)) as [i|x] eqn:E;
    [|apply others_untouched_refl].
  cbn [snd db with_db]. apply untouched_incomes.
  apply (foreign_snoc Income.user_id). eapply new_income_owner, E.
Qed.

Lemma add_income_frame data : untouched_by (add_income env data u st).
Proof.
  unfold add_income.
  destruct (new_income env data (User.id u) (db st)) as [i|x] eqn:E;
    [|apply others_untouched_refl].
  cbn [snd db with_db]. apply untouched_incomes.
  apply (foreign_snoc Income.user_id). eapply new_income_owner, E.
Qed.

Lemma delete_income_frame key : untouched_by (delete_income key u st).
Proof.
  unfold delete_income. destruct (first _ (incomes (db st)));
    [|apply others_untouched_refl].
  cbn [snd db with_db]. apply untouched_incomes.
  apply (foreign_delete_first Income.user_id).
  intros r. apply first_owned.
Qed.

Lemma goal_tracker_frame post : untouched_by (goal_tracker post u st).
Proof.
  unfold goal_tracker. destruct post as [form|]; [|apply others_untouched_refl].
  destruct (new_goal form (User.id u) (db st)) as [g|x] eqn:E;
    [|apply others_untouched_refl].
  cbn [snd db with_db]. apply untouched_goals.
  apply (foreign_snoc Goal.user_id). eapply new_goal_owner, E.
Qed.

Lemma add_goal_frame data : untouched_by (add_goal data u st).
Proof.
  unfold add_goal.
  destruct (new_goal data (User.id u) (db st)) as [g|x] eqn:E;
    [|apply others_untouched_refl].
  cbn [snd db with_db]. apply untouched_goals.
  apply (foreign_snoc Goal.user_id). eapply new_goal_owner, E.
Qed.

Lemma update_goal_frame key data : untouched_by (update_goal key data u st).
Proof.
  unfold update_goal.
  destruct (first _ (goals (db st))) as [goal|] eqn:F; [|apply others_untouched_refl].
  destruct (patch_goal data goal) as [goal'|x] eqn:E; [|apply others_untouched_refl].
  cbn [snd db with_db]. apply untouched_goals.
  apply first_holds in F. destruct F as [_ F].
  apply (foreign_update_first Goal.user_id).
  - intros r. apply first_owned.
  - intros _ _. rewrite (patch_goal_owner _ _ _ E).
    now apply first_owned with (key := key) (rid := Goal.id).
Qed.

Lemma delete_goal_frame key : untouched_by (delete_goal key u st).
Proof.
  unfold delete_goal. destruct (first _ (goals (db st)));
    [|apply others_untouched_refl].
  cbn [snd db with_db]. apply untouched_goals.
  apply (foreign_delete_first Goal.user_id).
  intros r. apply first_owned.
Qed.

Lemma investment_tracker_frame post : untouched_by (investment_tracker post u st).
Proof.
  unfold investment_tracker. destruct post as [form|]; [|apply others_untouched_refl].
  destruct (new_investment form (User.id u) (db st)) as [i|x] eqn:E;
    [|apply others_untouched_refl].
  cbn [snd db with_db]. apply untouched_investments.
  apply (foreign_snoc Investment.user_id). eapply new_investment_owner, E.
Qed.

Lemma add_investment_frame data : untouched_by (add_investment data u st).
Proof.
  unfold add_investment.
  destruct (new_investment data (User.id u) (db st)) as [i|x] eqn:E;
    [|apply others_untouched_refl].
  cbn [snd db with_db]. apply untouched_investments.
  apply (foreign_snoc Investment.user_id). eapply new_investment_owner, E.
Qed.

Lemma update_investment_frame key data : untouched_by (update_investment key data u st).
Proof.
  unfold update_investment.
  destruct (first _ (investments (db st))) as [inv|] eqn:F;
    [|apply others_untouched_refl].
  destruct (patch_investment data inv) as [inv'|x] eqn:E; [|apply others_untouched_refl].
  cbn [snd db with_db]. apply untouched_investments.
  apply first_holds in F. destruct F as [_ F].
  apply (foreign_update_first Investment.user_id).
  - intros r. apply first_owned.
  - intros _ _. rewrite (patch_investment_owner _ _ _ E).
    now apply first_owned with (key := key) (rid := Investment.id).
Qed.

Lemma delete_investment_frame key : untouched_by (delete_investment key u st).
Proof.
  unfold delete_investment. destruct (first _ (investments (db st)));
    [|apply others_untouched_refl].
  cbn [snd db with_db]. apply untouched_investments.
  apply (foreign_delete_first Investment.user_id).
  intros r. apply first_owned.
Qed.

Lemma suggestions_frame : untouched_by (suggestions u st).
Proof.
  unfold suggestions. destruct (suggestion_list _ _ _ _); apply others_untouched_refl.
Qed.

Lemma summary_frame : untouched_by (get_financial_summary u st).
Proof.
  unfold get_financial_summary.
  destruct (financial_summary _ _ _); apply others_untouched_refl.
Qed.

Lemma budget_planner_frame post : untouched_by (budget_planner post u st).
Proof.
  unfold budget_planner.
  set (ensured := ensure_budgets _ _ _).
  assert (Hpending : others_untouched (User.id u) (db st) (fst ensured)).
  { apply ensure_budgets_untouched, others_untouched_refl. }
  assert (Hcommitted :
            others_untouched (User.id u) (db st)
              (if (List.length (snd ensured) =? List.length default_expense_categories)%nat
               then db st else fst ensured)).
  { destruct (_ =? _)%nat; [apply others_untouched_refl | exact Hpending]. }
  destruct post as [form|].
  - pose proof (post_budgets_untouched (User.id u) form (db st)
                  default_expense_categories (Ok (fst ensured, 0%float)) Hpending) as H.
    destruct (commit_budgets _) as [s'|x] eqn:C.
    + apply commit_budgets_written in C. rewrite C in H. exact H.
    + exact Hcommitted.
  - destruct (budget_data _ _); exact Hcommitted.
Qed.

Lemma update_budget_frame data : untouched_by (update_budget data u st).
Proof.
  unfold update_budget.
  pose proof (put_budgets_untouched (User.id u) (db st) data (Ok (db st))
                (others_untouched_refl _ _)) as H.
  destruct (fold_left _ data (Ok (db st))) as [s'|x].
  - exact H.
  - apply others_untouched_refl.
Qed.
End HandlerFrames.

Lemma authenticated (st : State) (u : User.t) :
  current_user st = Some u -> is_authenticated st = true.
Proof. unfold is_authenticated. now intros ->. Qed.

(** Whatever the request, the handlers leave the rows of other users and
    the user table alone. *)
Lemma handle_frame (env : Env) (st : State) (u : User.t) (req : Request) :
  current_user st = Some u ->
  others_untouched (User.id u) (db st) (db (snd (handle env req st))).
Proof.
  intros Hu.
  destruct req; cbn [handle]; unfold login_required, login, register;
    rewrite ?Hu, ?(authenticated st u Hu);
    first
      [ apply expense_tracker_frame | apply add_expense_frame | apply delete_expense_frame
      | apply income_tracker_frame | apply add_income_frame | apply delete_income_frame
      | apply goal_tracker_frame | apply add_goal_frame | apply update_goal_frame
      | apply delete_goal_frame
      | apply investment_tracker_frame | apply add_investment_frame
      | apply update_investment_frame | apply delete_investment_frame
      | apply suggestions_frame | apply summary_frame
      | apply budget_planner_frame | apply update_budget_frame
      | apply others_untouched_refl ].
Qed.

(* ================================================================= *)
(** ** Deleting a row *)

Lemma delete_first_split {R : Type} (q : R -> bool) (l : list R) (r : R) :
  first q l = Some r ->
  exists l1 l2, l = l1 ++ r :: l2 /\ delete_first q l = l1 ++ l2.
Proof.
  unfold first. induction l as [|x l IH]; cbn [find delete_first]; [discriminate|].
  destruct (q x).
  - intros [= ->]. now exists [], l.
  - intros H. destruct (IH H) as (l1 & l2 & -> & ->). now exists (x :: l1), l2.
Qed.





(* ================================================================= *)
(** ** Registration and login *)

Lemma next_id_bound (ids : list Z) : forall x, In x ids -> x < next_id ids.
Proof.
  unfold next_id. induction ids as [|y ids IH]; intros x; cbn [In fold_right].
  - contradiction.
  - intros [-> | Hin]; [lia|]. specialize (IH x Hin). lia.
Qed.

Lemma next_id_fresh (ids : list Z) : ~ In (next_id ids) ids.
Proof. intros H. apply next_id_bound in H. lia. Qed.

Lemma first_none_iff {R : Type} (q : R -> bool) (l : list R) :
  first q l = None <-> forall r, In r l -> q r = false.
Proof.
  unfold first. split.
  - intros H r. now apply find_none.
  - induction l as [|x l IH]; cbn [find]; [reflexivity|].
    intros H. rewrite (H x (or_introl eq_refl)). apply IH.
    intros r Hr. apply H. now right.
Qed.

(** The loop of [register] appends one zero budget per category, in order. *)
Lemma default_budgets_added (uid : Z) (cats : list string) : forall s : Store,
  exists bs,
    fold_left (fun s category => add_budget category 0%float uid s) cats s
    = mkStore (users s) (expenses s) (incomes s) (goals s) (investments s)
        (budgets s ++ bs) /\
    map Budget.category bs = cats /\
    Forall (fun b => Budget.amount b = 0%float /\ Budget.user_id b = uid) bs.
Proof.
  induction cats as [|c cats IH]; intros s; cbn [fold_left].
  - exists []. rewrite app_nil_r. destruct s. repeat split. constructor.
  - destruct (IH (add_budget c 0%float uid s)) as (bs & Hs & Hcats & Hall).
    exists (Budget.mk (next_id (map Budget.id (budgets s))) c 0%float uid :: bs).
    split; [|split].
    + rewrite Hs. unfold add_budget, set_budgets. cbn.
      now rewrite <- app_assoc.
    + cbn [map Budget.category]. now rewrite Hcats.
    + constructor; [split; reflexivity | exact Hall].
Qed.

(** C8, as amended. A visitor who is logged in is sent to the dashboard and
    nothing is created. For a visitor who is not logged in, registration
    succeeds exactly when neither the username nor the email belongs to a
    stored user. On failure the state is unchanged. On success one user
    with a fresh id is appended, and one budget per default expense category
    (14 of them), each with amount 0 and owned by the new user; nothing else
    changes. *)
Theorem register_outcome (env : Env) (st : State) (username email password : string) :
  let out := handle env (PostRegister username email password) st in
  let taken :=
    exists u, In u (users (db st)) /\
              (User.username u = username \/ User.email u = email) in
  (is_authenticated st = true -> out = (Redirect "index" [], st)) /\
  (is_authenticated st = false ->
   (fst out = registration_successful <-> ~ taken) /\
   (taken -> snd out = st) /\
   (~ taken ->
    exists new_user new_budgets,
      snd out
      = with_db (mkStore (users (db st) ++ [new_user]) (expenses (db st)) (incomes (db st))
                   (goals (db st)) (investments (db st)) (budgets (db st) ++ new_budgets)) st /\
      User.username new_user = username /\
      User.email new_user = email /\
      User.password_hash new_user = generate_password_hash env password /\
      ~ In (User.id new_user) (map User.id (users (db st))) /\
      map Budget.category new_budgets = default_expense_categories /\
      List.length new_budgets = 14%nat /\
      Forall (fun b => Budget.amount b = 0%float /\ Budget.user_id b = User.id new_user)
        new_budgets)).
Proof.
  intros out taken. subst out. cbn [handle]. unfold register. split.
  { now intros ->. }
  intros Hanon. rewrite Hanon.
  destruct (first (fun u => String.eqb (User.username u) username) (users (db st)))
    as [u1|] eqn:F1.
  { apply first_holds in F1. destruct F1 as [Hin Hname]. apply String.eqb_eq in Hname.
    assert (Ht : taken) by (exists u1; tauto).
    cbn [fst snd]. split; [|split].
    - split; [discriminate | tauto].
    - reflexivity.
    - tauto. }
  destruct (first (fun u => String.eqb (User.email u) email) (users (db st)))
    as [u2|] eqn:F2.
  { apply first_holds in F2. destruct F2 as [Hin Hmail]. apply String.eqb_eq in Hmail.
    assert (Ht : taken) by (exists u2; tauto).
    cbn [fst snd]. split; [|split].
    - split; [discriminate | tauto].
    - reflexivity.
    - tauto. }
  assert (Hfree : ~ taken).
  { intros (u0 & Hin & [Hname | Hmail]).
    - pose proof (proj1 (first_none_iff _ _) F1 u0 Hin) as H. cbn in H.
      rewrite Hname, String.eqb_refl in H. discriminate.
    - pose proof (proj1 (first_none_iff _ _) F2 u0 Hin) as H. cbn in H.
      rewrite Hmail, String.eqb_refl in H. discriminate. }
  cbn [fst snd]. split; [|split].
  - tauto.
  - tauto.
  - intros _.
    set (new_user := User.mk (next_id (map User.id (users (db st)))) username email
                       (generate_password_hash env password)).
    destruct (default_budgets_added (User.id new_user) default_expense_categories
                (set_users (fun l => l ++ [new_user]) (db st)))
      as (bs & Hs & Hcats & Hall).
    exists new_user, bs. rewrite Hs. cbn.
    repeat split; try assumption.
    + apply next_id_fresh.
    + rewrite <- (length_map Budget.category), Hcats. reflexivity.
Qed.

Lemma register_outcome_witness :
  let st := logged_out demo_store in
  let out := handle demo_env (PostRegister "carol" "carol@example.org" "tea") st in
  is_authenticated st = false /\
  fst out = registration_successful /\
  users (db (snd out))
  = [ alice; bob; User.mk 3 "carol" "carol@example.org" "pbkdf2:tea" ] /\
  List.length (budgets (db (snd out))) = 17%nat.
Proof.
  intros st out. split; [reflexivity|]. split.
  - apply (proj1 (proj2 (register_outcome demo_env st "carol" "carol@example.org" "tea") eq_refl)).
    intros (u & Hin & Hu). simpl in Hin.
    destruct Hin as [<- | [<- | []]]; destruct Hu; discriminate.
  - split; vm_compute; reflexivity.
Defined.

(** Alice, logged in, posts the registration form with a username and an
    email that nobody has: she is redirected and no user is created. *)
Lemma register_while_logged_in :
  let st := logged_in alice demo_store in
  let out := handle demo_env (PostRegister "carol" "carol@example.org" "tea") st in
  ~ (exists u, In u (users (db st)) /\
               (User.username u = "carol" \/ User.email u = "carol@example.org")) /\
  fst out <> registration_successful /\
  out = (Redirect "index" [], st).
Proof.
  intros st out. split; [|split].
  - intros (u & Hin & Hu). simpl in Hin.
    destruct Hin as [<- | [<- | []]]; destruct Hu; discriminate.
  - discriminate.
  - reflexivity.
Qed.

Lemma unique_by {R K : Type} (f : R -> K) (l : list R) :
  NoDup (map f l) -> forall a b, In a l -> In b l -> f a = f b -> a = b.
Proof.
  induction l as [|x l IH]; cbn [map In]; intros Hnd a b Ha Hb Hf; [contradiction|].
  inversion Hnd as [|? ? Hx Hl]; subst.
  destruct Ha as [<- | Ha], Hb as [<- | Hb].
  - reflexivity.
  - exfalso. apply Hx. rewrite Hf. now apply in_map.
  - exfalso. apply Hx. rewrite <- Hf. now apply in_map.
  - now apply IH.
Qed.

(** C9, as amended. A visitor who is logged in is sent to the dashboard and
    keeps the session identity they have. For a visitor who is not logged
    in (usernames being unique, as the user table requires): after the login
    form is posted, the session identity is the id [uid] exactly when a
    stored user with that id has the submitted username and a password hash
    that the submitted password matches. If no stored user does, the answer
    is the invalid-credentials page and the state, hence the session, is as
    before. The database is never changed. *)
Theorem login_session (env : Env) (st : State) (username password : string) :
  let out := handle env (PostLogin username password) st in
  let valid u :=
    In u (users (db st)) /\ User.username u = username /\
    check_password_hash env (User.password_hash u) password = true in
  (is_authenticated st = true -> out = (Redirect "index" [], st)) /\
  (session_user_id st = None ->
   NoDup (map User.username (users (db st))) ->
   (forall uid, session_user_id (snd out) = Some uid
                <-> exists u, valid u /\ User.id u = uid) /\
   (~ (exists u, valid u) -> out = (invalid_credentials, st)) /\
   db (snd out) = db st).
Proof.
  intros out valid. subst out. cbn [handle]. unfold login. split.
  { now intros ->. }
  intros Hanon Hunique.
  assert (Hauth : is_authenticated st = false).
  { unfold is_authenticated, current_user. now rewrite Hanon. }
  rewrite Hauth.
  destruct (first (fun u => String.eqb (User.username u) username) (users (db st)))
    as [user|] eqn:F.
  - apply first_holds in F. destruct F as [Hin Hname]. apply String.eqb_eq in Hname.
    assert (Honly : forall u, valid u -> u = user).
    { intros u (Hu & Hn & _). apply (unique_by User.username _ Hunique); congruence. }
    destruct (check_password_hash env (User.password_hash user) password) eqn:Hcheck;
      cbn [fst snd session_user_id db].
    + split; [|split; [|reflexivity]].
      * intros uid. split.
        -- intros [= <-]. exists user. unfold valid. tauto.
        -- intros (u & Hv & <-). now rewrite (Honly u Hv).
      * intros Hno. exfalso. apply Hno. exists user. unfold valid. tauto.
    + assert (Hno : ~ exists u, valid u).
      { intros (u & Hv). pose proof (Honly u Hv) as ->.
        destruct Hv as (_ & _ & Hc). congruence. }
      split; [|split; [|reflexivity]].
      * intros uid. rewrite Hanon. split; [discriminate|].
        intros (u & Hv & _). exfalso. apply Hno. now exists u.
      * reflexivity.
  - assert (Hno : ~ exists u, valid u).
    { intros (u & Hu & Hn & _).
      pose proof (proj1 (first_none_iff _ _) F u Hu) as H. cbn in H.
      rewrite Hn, String.eqb_refl in H. discriminate. }
    cbn [fst snd]. split; [|split; [|reflexivity]].
    + intros uid. rewrite Hanon. split; [discriminate|].
      intros (u & Hv & _). exfalso. apply Hno. now exists u.
    + reflexivity.
Qed.

Lemma login_session_witness :
  let st := logged_out demo_store in
  (session_user_id st = None /\ NoDup (map User.username (users (db st)))) /\
  session_user_id (snd (handle demo_env (PostLogin "alice" "rabbit") st)) = Some 1 /\
  handle demo_env (PostLogin "alice" "hatter") st = (invalid_credentials, st).
Proof.
  intros st.
  assert (Hunique : NoDup (map User.username (users (db st)))).
  { simpl. repeat constructor; simpl; intuition discriminate. }
  split; [split; [reflexivity | exact Hunique]|]. split.
  - apply (proj1 (proj2 (login_session demo_env st "alice" "rabbit") eq_refl Hunique)).
    exists alice. simpl. tauto.
  - apply (proj1 (proj2 (proj2 (login_session demo_env st "alice" "hatter") eq_refl Hunique))).
    intros (u & Hin & Hname & Hcheck). simpl in Hin.
    destruct Hin as [<- | [<- | []]]; vm_compute in Hcheck; discriminate.
Defined.

(** Alice, logged in, posts the login form. With Bob's username and
    password the session stays hers; with a wrong password she is
    redirected all the same and sees no invalid-credentials page. *)
Lemma login_while_logged_in :
  let st := logged_in alice demo_store in
  (In bob (users (db st)) /\ User.username bob = "bob" /\
   check_password_hash demo_env (User.password_hash bob) "builder" = true) /\
  session_user_id (snd (handle demo_env (PostLogin "bob" "builder") st)) = Some (User.id alice) /\
  session_user_id (snd (handle demo_env (PostLogin "bob" "builder") st)) <> Some (User.id bob) /\
  handle demo_env (PostLogin "bob" "hammer") st = (Redirect "index" [], st) /\
  fst (handle demo_env (PostLogin "bob" "hammer") st) <> invalid_credentials.
Proof.
  intros st. split; [|split; [|split; [|split]]].
  - simpl. tauto.
  - reflexivity.
  - discriminate.
  - reflexivity.
  - discriminate.
Qed.

(* ================================================================= *)
(** ** Invariants and totality *)

(** Usernames stay unique under every request, so the uniqueness assumed of
    the login is an invariant of the reachable states. *)
Lemma usernames_stay_unique (env : Env) (req : Request) (st : State) :
  NoDup (map User.username (users (db st))) ->
  NoDup (map User.username (users (db (snd (handle env req st))))).
Proof.
  intros Hunique. destruct (current_user st) as [u|] eqn:Hu.
  - destruct (handle_frame env st u req Hu) as [Husers _]. now rewrite Husers.
  - assert (Hanon : is_authenticated st = false).
    { unfold is_authenticated. now rewrite Hu. }
    destruct req; cbn [handle]; unfold login_required; rewrite ?Hu; try exact Hunique.
    + unfold login. rewrite Hanon. exact Hunique.
    + unfold login. rewrite Hanon.
      destruct (first _ (users (db st))) as [user|]; [|exact Hunique].
      destruct (check_password_hash env _ _); exact Hunique.
    + unfold register. rewrite Hanon. exact Hunique.
    + unfold register. rewrite Hanon.
      destruct (first (fun u => String.eqb (User.username u) username) (users (db st)))
        as [u1|] eqn:F1; [exact Hunique|].
      destruct (first (fun u => String.eqb (User.email u) email) (users (db st)));
        [exact Hunique|].
      cbn [snd db with_db].
      set (new_user := User.mk _ username email _).
      destruct (default_budgets_added (User.id new_user) default_expense_categories
                  (set_users (fun l => l ++ [new_user]) (db st))) as (bs & -> & _).
      cbn [users set_users]. rewrite map_app. cbn [map User.username new_user].
      apply NoDup_app.
      * exact Hunique.
      * repeat constructor. simpl. tauto.
      * intros name Hin [<- | []]. apply in_map_iff in Hin.
        destruct Hin as (u0 & Hname & Hin).
        pose proof (proj1 (first_none_iff _ _) F1 u0 Hin) as H. cbn in H.
        rewrite Hname, String.eqb_refl in H. discriminate.
Qed.

(** The budget page is always rendered: its division is guarded. *)
Lemma budget_page_rendered (u : User.t) (st : State) :
  exists rows,
    fst (budget_planner None u st)
    = Render "budget.html" [] (CtxBudget rows default_expense_categories).
Proof.
  unfold budget_planner.
  destruct (budget_data_defined
              (snd (ensure_budgets (User.id u) (db st)
                      (budget_dict_of (user_budgets (User.id u) (db st)))))
              (user_expenses (User.id u) (db st))) as [rows ->].
  now exists rows.
Qed.

(** The suggestions page is rendered as soon as the total of the user's
    expenses is not zero and none of the user's goals has a positive target
    without a current amount. *)
Lemma suggestions_rendered (u : User.t) (st : State) :
  PrimFloat.eqb (py_sum (map Expense.amount (user_expenses (User.id u) (db st)))) 0%float
  = false ->
  (forall g, In g (user_goals (User.id u) (db st)) -> goal_progress g <> None) ->
  exists l, fst (suggestions u st) = Render "suggestions.html" [] (CtxSuggestions l).
Proof.
  intros Htotal Hgoals. unfold suggestions, suggestion_list.
  destruct (ratio_rule_defined
              (py_sum (map Income.amount (user_incomes (User.id u) (db st))))
              (py_sum (map Expense.amount (user_expenses (User.id u) (db st)))) [])
    as [s1 ->].
  cbn [bind].
  destruct (high_category_rule_defined
              (expense_by_category (user_expenses (User.id u) (db st)))
              (py_sum (map Expense.amount (user_expenses (User.id u) (db st))))
              (investment_rules (user_investments (User.id u) (db st)) s1) Htotal)
    as [s3 ->].
  cbn [bind].
  destruct (goal_rules_defined (user_goals (User.id u) (db st)) s3 Hgoals) as [s4 ->].
  cbn [bind fst]. eauto.
Qed.

(* ================================================================= *)
(** * Further properties of the handlers *)

(** ** The login gate, reads and failures *)

(** X1. A request to any route other than [/login] and [/register] from a
    visitor who is not logged in is answered by the login manager: the
    message 'Please log in to access this page.' is flashed and the
    visitor is redirected to the login page, with the refused URL as
    [next]. The database and the session are left as they are. *)
Theorem login_required_gate (env : Env) (req : Request) (st : State) :
  current_user st = None ->
  protected req = true ->
  handle env req st
  = (RedirectNext "login" (url_of req) [("Please log in to access this page.", "message")],
     st).
Proof.
  intros Hu Hreq.
  destruct req; try discriminate Hreq; cbn [handle]; unfold login_required;
    now rewrite Hu.
Qed.

Lemma login_required_gate_witness :
  current_user (logged_out demo_store) = None /\
  handle demo_env (DeleteExpense 1) (logged_out demo_store)
  = (RedirectNext "login" ("/api/expenses/<int:expense_id>", Some 1)
       [("Please log in to access this page.", "message")],
     logged_out demo_store).
Proof.
  split; [reflexivity|].
  exact (login_required_gate demo_env (DeleteExpense 1) (logged_out demo_store)
           eq_refl eq_refl).
Defined.

(** X2. The GET routes other than [/logout] and [/budget] change neither
    the database nor the session, whoever asks. *)
Theorem reads_change_nothing (env : Env) (req : Request) (st : State) :
  read_only req = true -> snd (handle env req st) = st.
Proof.
  intros Hreq.
  destruct req; try discriminate Hreq; cbn [handle];
    unfold login_required, login, register;
    destruct (current_user st) as [u|]; try reflexivity;
    try (destruct (is_authenticated st); reflexivity).
  - unfold suggestions. destruct (suggestion_list _ _ _ _); reflexivity.
  - unfold get_financial_summary. destruct (financial_summary _ _ _); reflexivity.
Qed.

Lemma reads_change_nothing_witness :
  read_only GetSuggestions = true /\
  snd (handle demo_env GetSuggestions (logged_in bob demo_store)) = logged_in bob demo_store.
Proof.
  split; [reflexivity|].
  exact (reads_change_nothing demo_env GetSuggestions (logged_in bob demo_store) eq_refl).
Defined.

(** X3. Whenever a handler other than the POST of [/budget] ends in a server
    error (a malformed number or date, a division by zero, an operand
    that is [None], a NaN refused by a column), the state is what it was
    before the request: nothing of the failed request is committed. *)
Theorem server_error_rolls_back (env : Env) (req : Request) (st : State) (e : exn) :
  (forall form, req <> PostBudgetPlanner form) ->
  fst (handle env req st) = ServerError e ->
  snd (handle env req st) = st.
Proof.
  intros Hreq.
  destruct req; cbn [handle]; unfold login_required, login, register;
    try (exfalso; now eapply Hreq);
    try (destruct (current_user st) as [u|]; [|discriminate]);
    try (destruct (budget_page_rendered u st) as [rows Hrows]; rewrite Hrows; discriminate);
    unfold expense_tracker, add_expense, delete_expense,
      income_tracker, add_income, delete_income,
      goal_tracker, add_goal, update_goal, delete_goal,
      investment_tracker, add_investment, update_investment, delete_investment,
      suggestions, update_budget, index, logout, get_expenses, get_incomes,
      get_goals, get_investments, get_budget, get_financial_summary;
    repeat (match goal with
            | |- context [match ?x with _ => _ end] => destruct x
            end; cbn [fst snd]);
    try discriminate; reflexivity.
Qed.

Lemma server_error_rolls_back_witness :
  let bad := mkTxn "Lunch" Malformed "Food" Absent in
  let st := logged_in alice demo_store in
  ((forall form, AddExpense bad <> PostBudgetPlanner form) /\
   fst (handle demo_env (AddExpense bad) st) = ServerError ValueError) /\
  snd (handle demo_env (AddExpense bad) st) = st.
Proof.
  intros bad st.
  assert (Hreq : forall form, AddExpense bad <> PostBudgetPlanner form) by discriminate.
  split; [split; [exact Hreq | reflexivity]|].
  exact (server_error_rolls_back demo_env (AddExpense bad) st ValueError Hreq eq_refl).
Defined.

(* ================================================================= *)
(** ** Keys of dictionaries *)

Section DictKeys.
Context {V : Type}.
Implicit Types (d : dict V) (k : string) (v : V).

Lemma dict_get_In k d : dict_get k d <> None <-> In k (dict_keys d).
Proof.
  unfold dict_keys. induction d as [|[k0 v0] d IH]; cbn [dict_get map In fst].
  - tauto.
  - destruct (String.eqb_spec k0 k) as [->|Hne].
    + split; [tauto | discriminate].
    + rewrite IH. tauto.
Qed.

Lemma dict_mem_In k d : dict_mem k d = true <-> In k (dict_keys d).
Proof.
  rewrite <- dict_get_In. unfold dict_mem.
  destruct (dict_get k d); split; congruence.
Qed.

Lemma dict_mem_not_In k d : dict_mem k d = false <-> ~ In k (dict_keys d).
Proof.
  rewrite <- dict_mem_In. destruct (dict_mem k d); split; congruence.
Qed.

Lemma dict_keys_set k v d :
  dict_keys (dict_set k v d) = if dict_mem k d then dict_keys d else dict_keys d ++ [k].
Proof.
  destruct (dict_mem k d) eqn:E.
  - now apply dict_keys_set_present.
  - unfold dict_mem in E. destruct (dict_get k d) eqn:G; [discriminate|].
    rewrite (dict_set_absent _ _ _ G). unfold dict_keys. now rewrite map_app.
Qed.

Lemma NoDup_snoc (l : list string) (k : string) :
  NoDup l -> ~ In k l -> NoDup (l ++ [k]).
Proof.
  intros Hl Hk. apply NoDup_app.
  - exact Hl.
  - repeat constructor. simpl. tauto.
  - intros x Hx [<- | []]. contradiction.
Qed.

(** Assignments never duplicate a key. *)
Lemma dict_set_keys_NoDup k v d : NoDup (dict_keys d) -> NoDup (dict_keys (dict_set k v d)).
Proof.
  intros Hd. rewrite dict_keys_set. destruct (dict_mem k d) eqn:E; [exact Hd|].
  apply NoDup_snoc; [exact Hd | now apply dict_mem_not_In].
Qed.

Lemma dict_set_keys_In k v d k' :
  In k' (dict_keys (dict_set k v d)) <-> In k' (dict_keys d) \/ k' = k.
Proof.
  rewrite dict_keys_set. destruct (dict_mem k d) eqn:E.
  - apply dict_mem_In in E. split; [tauto | intros [H | ->]; assumption].
  - rewrite in_app_iff. simpl. intuition congruence.
Qed.
End DictKeys.

(** The keys of a dictionary filled by successive assignments. *)
Lemma fold_set_keys {B V : Type} (kf : B -> string) (vf : B -> V) (bs : list B) : forall d,
  NoDup (dict_keys d) ->
  NoDup (dict_keys (fold_left (fun d b => dict_set (kf b) (vf b) d) bs d)) /\
  forall k, In k (dict_keys (fold_left (fun d b => dict_set (kf b) (vf b) d) bs d))
            <-> In k (dict_keys d) \/ In k (map kf bs).
Proof.
  induction bs as [|b bs IH]; intros d Hd; cbn [fold_left map In].
  - split; [exact Hd | tauto].
  - destruct (IH (dict_set (kf b) (vf b) d) (dict_set_keys_NoDup _ _ _ Hd)) as [Hnd Hin].
    split; [exact Hnd|]. intros k. rewrite Hin, dict_set_keys_In. intuition congruence.
Qed.

(** The dictionary and the pending rows that the loop of [budget_planner]
    leaves behind: every default category is a key, and every key has a
    budget row of the user. *)
Lemma ensure_budgets_keys (uid : Z) (cats : list string) : forall (s : Store) (d : dict float),
  NoDup (dict_keys d) ->
  (forall k, In k (dict_keys d) ->
             exists b, In b (budgets s) /\ Budget.user_id b = uid /\ Budget.category b = k) ->
  let r := fold_left
             (fun sd category =>
                if dict_mem category (snd sd) then sd
                else (add_budget category 0%float uid (fst sd),
                      dict_set category 0%float (snd sd)))
             cats (s, d) in
  NoDup (dict_keys (snd r)) /\
  (forall k, In k (dict_keys (snd r)) <-> In k (dict_keys d) \/ In k cats) /\
  (forall k, In k (dict_keys (snd r)) ->
             exists b, In b (budgets (fst r)) /\ Budget.user_id b = uid /\ Budget.category b = k).
Proof.
  induction cats as [|c cats IH]; intros s d Hd Hrows; cbn [fold_left fst snd In].
  - split; [exact Hd|]. split; [tauto | exact Hrows].
  - destruct (dict_mem c d) eqn:E.
    + destruct (IH s d Hd Hrows) as (Hnd & Hin & Hr). split; [exact Hnd|]. split; [|exact Hr].
      intros k. rewrite Hin. apply dict_mem_In in E. intuition congruence.
    + destruct (IH (add_budget c 0%float uid s) (dict_set c 0%float d)
                  (dict_set_keys_NoDup _ _ _ Hd)) as (Hnd & Hin & Hr).
      * intros k Hk. apply dict_set_keys_In in Hk. destruct Hk as [Hk | ->].
        -- destruct (Hrows k Hk) as (b & Hb & Hu & Hc). exists b.
           split; [|tauto]. unfold add_budget, set_budgets. cbn [budgets].
           apply in_or_app. now left.
        -- eexists. split; [|split].
           ++ unfold add_budget, set_budgets. cbn [budgets].
              apply in_or_app. right. left. reflexivity.
           ++ reflexivity.
           ++ reflexivity.
      * split; [exact Hnd|]. split; [|exact Hr].
        intros k. rewrite Hin, dict_set_keys_In. intuition congruence.
Qed.

Lemma ensure_budgets_spec (uid : Z) (s : Store) (d : dict float) :
  NoDup (dict_keys d) ->
  (forall k, In k (dict_keys d) ->
             exists b, In b (budgets s) /\ Budget.user_id b = uid /\ Budget.category b = k) ->
  NoDup (dict_keys (snd (ensure_budgets uid s d))) /\
  (forall k, In k (dict_keys (snd (ensure_budgets uid s d)))
             <-> In k (dict_keys d) \/ In k default_expense_categories) /\
  (forall k, In k (dict_keys (snd (ensure_budgets uid s d))) ->
             exists b, In b (budgets (fst (ensure_budgets uid s d))) /\
                       Budget.user_id b = uid /\ Budget.category b = k).
Proof. exact (ensure_budgets_keys uid default_expense_categories s d). Qed.

Lemma budget_dict_of_keys (ubs : list Budget.t) :
  NoDup (dict_keys (budget_dict_of ubs)) /\
  forall k, In k (dict_keys (budget_dict_of ubs)) <-> In k (map Budget.category ubs).
Proof.
  destruct (fold_set_keys Budget.category Budget.amount ubs [] (NoDup_nil _)) as [Hnd Hin].
  split; [exact Hnd|]. intros k. unfold budget_dict_of. rewrite Hin. simpl. tauto.
Qed.

Lemma default_expense_categories_NoDup : NoDup default_expense_categories.
Proof.
  unfold default_expense_categories.
  repeat (constructor; [simpl; intuition discriminate|]). constructor.
Qed.

Lemma state_with_own_db (st : State) : with_db (db st) st = st.
Proof. now destruct st. Qed.

(** X4. GET [/budget] prepares a zero budget for every default category the
    user has none for, but commits them only if the user has a budget in
    some category outside the defaults; then every default category has a
    budget of the user afterwards. If all of the user's budgets are in
    default categories the request leaves the state unchanged, whether or
    not budgets are missing. *)
Theorem budget_page_and_database (env : Env) (st : State) (u : User.t) :
  current_user st = Some u ->
  let mine b := In b (budgets (db st)) /\ Budget.user_id b = User.id u in
  let st' := snd (handle env GetBudgetPlanner st) in
  ((forall b, mine b -> In (Budget.category b) default_expense_categories) -> st' = st) /\
  ((exists b, mine b /\ ~ In (Budget.category b) default_expense_categories) ->
   forall c, In c default_expense_categories ->
     exists b, In b (budgets (db st')) /\ Budget.user_id b = User.id u /\
               Budget.category b = c).
Proof.
  intros Hu mine st'. subst st'. cbn [handle]. unfold login_required. rewrite Hu.
  unfold budget_planner.
  set (ubs := user_budgets (User.id u) (db st)).
  assert (Hubs : forall b, In b ubs <-> mine b).
  { intros b. unfold ubs, user_budgets, mine. rewrite filter_In, Z.eqb_eq. tauto. }
  destruct (budget_dict_of_keys ubs) as [Hnd0 Hin0].
  assert (Hrows0 : forall k, In k (dict_keys (budget_dict_of ubs)) ->
                     exists b, In b (budgets (db st)) /\ Budget.user_id b = User.id u /\
                               Budget.category b = k).
  { intros k Hk. pose proof (proj1 (Hin0 k) Hk) as Hk1.
    apply in_map_iff in Hk1. destruct Hk1 as (b & Hc & Hb).
    destruct (proj1 (Hubs b) Hb) as [Hb1 Hb2]. exists b. tauto. }
  destruct (ensure_budgets_spec (User.id u) (db st) (budget_dict_of ubs) Hnd0 Hrows0)
    as (Hnd & Hin & Hrows).
  set (ensured := ensure_budgets (User.id u) (db st) (budget_dict_of ubs)) in *.
  assert (Hlen : List.length (snd ensured) = List.length (dict_keys (snd ensured))).
  { unfold dict_keys. now rewrite length_map. }
  assert (Hsup : incl default_expense_categories (dict_keys (snd ensured))).
  { intros c Hc. apply (proj2 (Hin c)). right. exact Hc. }
  split.
  - intros Hdefault.
    assert (Hsub : incl (dict_keys (snd ensured)) default_expense_categories).
    { intros k Hk. destruct (proj1 (Hin k) Hk) as [Hk0 | Hk0]; [|exact Hk0].
      pose proof (proj1 (Hin0 k) Hk0) as Hk1.
      apply in_map_iff in Hk1. destruct Hk1 as (b & <- & Hb).
      apply Hdefault. exact (proj1 (Hubs b) Hb). }
    assert (Heq : List.length (snd ensured) = List.length default_expense_categories).
    { rewrite Hlen. apply Nat.le_antisymm.
      - now apply NoDup_incl_length.
      - apply NoDup_incl_length; [apply default_expense_categories_NoDup | exact Hsup]. }
    apply Nat.eqb_eq in Heq. rewrite Heq.
    destruct (budget_data _ _); cbn [snd]; apply state_with_own_db.
  - intros (b0 & Hb0 & Hforeign) c Hc.
    assert (Hneq : (List.length (snd ensured) =? List.length default_expense_categories)%nat
                   = false).
    { apply Nat.eqb_neq. intros Heq. apply Hforeign.
      assert (Hsub : incl (dict_keys (snd ensured)) default_expense_categories).
      { apply NoDup_length_incl.
        - apply default_expense_categories_NoDup.
        - rewrite <- Hlen, Heq. apply Nat.le_refl.
        - exact Hsup. }
      apply Hsub. apply (proj2 (Hin _)). left. apply (proj2 (Hin0 _)). apply in_map.
      exact (proj2 (Hubs b0) Hb0). }
    rewrite Hneq.
    destruct (budget_data _ _); cbn [snd db with_db]; apply Hrows, Hsup, Hc.
Qed.

Lemma budget_page_and_database_witness :
  let st := logged_in alice demo_store in
  current_user st = Some alice /\
  snd (handle demo_env GetBudgetPlanner st) = st.
Proof.
  intros st. split; [reflexivity|].
  apply (proj1 (budget_page_and_database demo_env st alice eq_refl)).
  intros b [Hb Hu]. simpl in Hb.
  destruct Hb as [<- | [<- | [<- | []]]]; simpl; tauto.
Defined.

(* ================================================================= *)
(** ** Registering, then logging in *)

Lemma first_app_none {R : Type} (q : R -> bool) (l l' : list R) :
  first q l = None -> first q (l ++ l') = first q l'.
Proof.
  unfold first. induction l as [|x l IH]; cbn [find app]; [reflexivity|].
  destruct (q x); [discriminate | exact IH].
Qed.

Lemma register_fresh (env : Env) (st : State) (username email password : string) :
  is_authenticated st = false ->
  (forall u, In u (users (db st)) -> User.username u <> username /\ User.email u <> email) ->
  exists bs,
    handle env (PostRegister username email password) st
    = (registration_successful,
       with_db (mkStore
                  (users (db st) ++
                   [User.mk (next_id (map User.id (users (db st)))) username email
                      (generate_password_hash env password)])
                  (expenses (db st)) (incomes (db st)) (goals (db st))
                  (investments (db st)) (budgets (db st) ++ bs)) st).
Proof.
  intros Hanon Hfree. cbn [handle]. unfold register. rewrite Hanon.
  assert (F1 : first (fun u => String.eqb (User.username u) username) (users (db st)) = None).
  { apply first_none_iff. intros r Hr. apply String.eqb_neq. now apply Hfree. }
  assert (F2 : first (fun u => String.eqb (User.email u) email) (users (db st)) = None).
  { apply first_none_iff. intros r Hr. apply String.eqb_neq. now apply Hfree. }
  rewrite F1, F2.
  set (new_user := User.mk _ username email _).
  destruct (default_budgets_added (User.id new_user) default_expense_categories
              (set_users (fun l => l ++ [new_user]) (db st))) as (bs & -> & _).
  exists bs. reflexivity.
Qed.

(** X5. A visitor who is not logged in registers with a username and an
    email that nobody has. If the password hash that is stored verifies
    against the password, logging in with that username and password
    succeeds and makes the new user the current user; and with any password
    that does not verify, the login is refused. *)
Theorem register_then_login (env : Env) (st : State) (username email password : string) :
  session_user_id st = None ->
  (forall u, In u (users (db st)) -> User.username u <> username /\ User.email u <> email) ->
  check_password_hash env (generate_password_hash env password) password = true ->
  let st1 := snd (handle env (PostRegister username email password) st) in
  let out := handle env (PostLogin username password) st1 in
  fst out = Redirect "index" [("Login successful!", "success")] /\
  (exists u, current_user (snd out) = Some u /\
             User.username u = username /\ User.email u = email /\
             ~ In (User.id u) (map User.id (users (db st)))) /\
  db (snd out) = db st1 /\
  (forall wrong,
     check_password_hash env (generate_password_hash env password) wrong = false ->
     handle env (PostLogin username wrong) st1 = (invalid_credentials, st1)).
Proof.
  intros Hsession Hfree Hhash st1 out.
  assert (Hanon : is_authenticated st = false).
  { unfold is_authenticated, current_user. now rewrite Hsession. }
  destruct (register_fresh env st username email password Hanon Hfree) as [bs Hreg].
  subst out st1. rewrite Hreg. cbn [snd].
  set (new_user := User.mk (next_id (map User.id (users (db st)))) username email
                     (generate_password_hash env password)).
  set (s1 := mkStore _ _ _ _ _ _).
  assert (Hanon1 : is_authenticated (with_db s1 st) = false).
  { unfold is_authenticated, current_user. cbn [session_user_id with_db]. now rewrite Hsession. }
  assert (Hfind : first (fun u => String.eqb (User.username u) username) (users s1)
                  = Some new_user).
  { unfold s1. cbn [users]. rewrite first_app_none.
    - cbn. now rewrite String.eqb_refl.
    - apply first_none_iff. intros r Hr. apply String.eqb_neq. now apply Hfree. }
  cbn [handle]. unfold login. rewrite Hanon1. cbn [db with_db]. rewrite Hfind.
  cbn [User.password_hash new_user]. rewrite Hhash. cbn [fst snd db].
  split; [reflexivity|]. split; [|split; [reflexivity|]].
  - exists new_user. split; [|split; [reflexivity|split; [reflexivity|]]].
    + unfold current_user, load_user. cbn [session_user_id db users s1 User.id new_user].
      rewrite first_app_none.
      * cbn. now rewrite Z.eqb_refl.
      * apply first_none_iff. intros r Hr. apply Z.eqb_neq.
        pose proof (next_id_bound (map User.id (users (db st))) (User.id r)
                      (in_map User.id _ _ Hr)). lia.
    + apply next_id_fresh.
  - intros wrong Hwrong. now rewrite Hwrong.
Qed.

Lemma register_then_login_witness :
  let st := logged_out demo_store in
  let st1 := snd (handle demo_env (PostRegister "carol" "carol@example.org" "tea") st) in
  (session_user_id st = None /\
   check_password_hash demo_env (generate_password_hash demo_env "tea") "tea" = true) /\
  fst (handle demo_env (PostLogin "carol" "tea") st1)
  = Redirect "index" [("Login successful!", "success")].
Proof.
  intros st st1. split; [split; reflexivity|].
  apply (register_then_login demo_env st "carol" "carol@example.org" "tea" eq_refl).
  - intros u Hu. simpl in Hu. destruct Hu as [<- | [<- | []]]; split; discriminate.
  - reflexivity.
Defined.

(* ================================================================= *)
(** ** Adding, listing and deleting rows *)

Lemma filter_snoc_owned {R : Type} (ruid : R -> Z) (uid : Z) (l : list R) (x : R) :
  ruid x = uid ->
  filter (fun r => ruid r =? uid) (l ++ [x]) = filter (fun r => ruid r =? uid) l ++ [x].
Proof.
  intros Hx. rewrite filter_app. cbn [filter]. now rewrite Hx, Z.eqb_refl.
Qed.

(** Adding rows keeps the requester logged in: the user table is not
    touched. *)
Lemma current_user_with_db (st : State) (s : Store) :
  users s = users (db st) -> current_user (with_db s st) = current_user st.
Proof.
  intros H. unfold current_user, load_user. cbn [session_user_id with_db db]. now rewrite H.
Qed.

(** X6. What a POST to one of the four JSON collections answers is what the
    collection's GET lists afterwards: if the answer is a JSON body, it is
    the success body around the new item, and the list is the list from
    before followed by that item; if the request fails instead, the state
    is unchanged. *)
Theorem added_rows_are_listed (env : Env) (st : State) (u : User.t) :
  current_user st = Some u ->
  (forall data,
     let out := handle env (AddExpense data) st in
     match fst out with
     | Jsonify _ body =>
         exists item, body = success_with "expense" item /\
           json_list (fst (handle env GetExpenses (snd out)))
           = json_list (fst (handle env GetExpenses st)) ++ [item]
     | _ => snd out = st
     end) /\
  (forall data,
     let out := handle env (AddIncome data) st in
     match fst out with
     | Jsonify _ body =>
         exists item, body = success_with "income" item /\
           json_list (fst (handle env GetIncomes (snd out)))
           = json_list (fst (handle env GetIncomes st)) ++ [item]
     | _ => snd out = st
     end) /\
  (forall data,
     let out := handle env (AddGoal data) st in
     match fst out with
     | Jsonify _ body =>
         exists item, body = success_with "goal" item /\
           json_list (fst (handle env GetGoals (snd out)))
           = json_list (fst (handle env GetGoals st)) ++ [item]
     | _ => snd out = st
     end) /\
  (forall data,
     let out := handle env (AddInvestment data) st in
     match fst out with
     | Jsonify _ body =>
         exists item, body = success_with "investment" item /\
           json_list (fst (handle env GetInvestments (snd out)))
           = json_list (fst (handle env GetInvestments st)) ++ [item]
     | _ => snd out = st
     end).
Proof.
  intros Hu. split; [|split; [|split]]; intros data; cbn [handle];
    unfold login_required; rewrite Hu.
  - unfold add_expense.
    destruct (new_expense env data (User.id u) (db st)) as [e|x] eqn:E; cbn [fst snd];
      [|reflexivity].
    exists (expense_json e). split; [reflexivity|].
    rewrite current_user_with_db, Hu by reflexivity.
    unfold get_expenses, user_expenses. cbn [fst json_list db with_db set_expenses expenses].
    rewrite (filter_snoc_owned Expense.user_id) by (eapply new_expense_owner, E).
    now rewrite map_app.
  - unfold add_income.
    destruct (new_income env data (User.id u) (db st)) as [i|x] eqn:E; cbn [fst snd];
      [|reflexivity].
    exists (income_json i). split; [reflexivity|].
    rewrite current_user_with_db, Hu by reflexivity.
    unfold get_incomes, user_incomes. cbn [fst json_list db with_db set_incomes incomes].
    rewrite (filter_snoc_owned Income.user_id) by (eapply new_income_owner, E).
    now rewrite map_app.
  - unfold add_goal.
    destruct (new_goal data (User.id u) (db st)) as [g|x] eqn:E; cbn [fst snd];
      [|reflexivity].
    exists (goal_json g). split; [reflexivity|].
    rewrite current_user_with_db, Hu by reflexivity.
    unfold get_goals, user_goals. cbn [fst json_list db with_db set_goals goals].
    rewrite (filter_snoc_owned Goal.user_id) by (eapply new_goal_owner, E).
    now rewrite map_app.
  - unfold add_investment.
    destruct (new_investment data (User.id u) (db st)) as [i|x] eqn:E; cbn [fst snd];
      [|reflexivity].
    exists (investment_json i). split; [reflexivity|].
    rewrite current_user_with_db, Hu by reflexivity.
    unfold get_investments, user_investments.
    cbn [fst json_list db with_db set_investments investments].
    rewrite (filter_snoc_owned Investment.user_id) by (eapply new_investment_owner, E).
    now rewrite map_app.
Qed.

Lemma added_rows_are_listed_witness :
  let st := logged_in alice demo_store in
  let lunch := mkTxn "Lunch" (Value 12.5%float) "Food" Absent in
  current_user st = Some alice /\
  List.length (json_list (fst (handle demo_env GetExpenses
                                 (snd (handle demo_env (AddExpense lunch) st))))) = 4%nat /\
  match fst (handle demo_env (AddExpense lunch) st) with
  | Jsonify _ body =>
      exists item, body = success_with "expense" item /\
        json_list (fst (handle demo_env GetExpenses (snd (handle demo_env (AddExpense lunch) st))))
        = json_list (fst (handle demo_env GetExpenses st)) ++ [item]
  | _ => snd (handle demo_env (AddExpense lunch) st) = st
  end.
Proof.
  intros st lunch. split; [reflexivity|]. split; [reflexivity|].
  exact (proj1 (added_rows_are_listed demo_env st alice eq_refl) lunch).
Defined.

Lemma delete_added_row {R : Type} (rid ruid : R -> Z) (uid : Z) (l : list R) (e : R) :
  rid e = next_id (map rid l) -> ruid e = uid ->
  let q := fun r => (rid r =? rid e) && (ruid r =? uid) in
  first q (l ++ [e]) = Some e /\ delete_first q (l ++ [e]) = l.
Proof.
  intros Hid Howner q.
  assert (Hold : forall r, In r l -> q r = false).
  { intros r Hr. unfold q. apply andb_false_iff. left. apply Z.eqb_neq.
    pose proof (next_id_bound (map rid l) (rid r) (in_map rid _ _ Hr)). lia. }
  assert (Hnew : q e = true).
  { unfold q. now rewrite Howner, !Z.eqb_refl. }
  split.
  - rewrite first_app_none by now apply first_none_iff.
    cbn. now rewrite Hnew.
  - clear Hid. induction l as [|x l IH]; cbn [app delete_first].
    + now rewrite Hnew.
    + rewrite (Hold x (or_introl eq_refl)). f_equal. apply IH.
      intros r Hr. apply Hold. now right.
Qed.

(** X7. Deleting the expense (income, goal, investment) that a POST has
    just created, by the id the POST answered, succeeds and gives back
    exactly the state from before the POST. *)
Theorem add_then_delete (env : Env) (st : State) (u : User.t) :
  current_user st = Some u ->
  (forall data item k,
     fst (handle env (AddExpense data) st) = Jsonify 200 (success_with "expense" item) ->
     json_field "id" item = Some (JInt k) ->
     handle env (DeleteExpense k) (snd (handle env (AddExpense data) st))
     = (Jsonify 200 success, st)) /\
  (forall data item k,
     fst (handle env (AddIncome data) st) = Jsonify 200 (success_with "income" item) ->
     json_field "id" item = Some (JInt k) ->
     handle env (DeleteIncome k) (snd (handle env (AddIncome data) st))
     = (Jsonify 200 success, st)) /\
  (forall data item k,
     fst (handle env (AddGoal data) st) = Jsonify 200 (success_with "goal" item) ->
     json_field "id" item = Some (JInt k) ->
     handle env (DeleteGoal k) (snd (handle env (AddGoal data) st))
     = (Jsonify 200 success, st)) /\
  (forall data item k,
     fst (handle env (AddInvestment data) st)
     = Jsonify 200 (success_with "investment" item) ->
     json_field "id" item = Some (JInt k) ->
     handle env (DeleteInvestment k) (snd (handle env (AddInvestment data) st))
     = (Jsonify 200 success, st)).
Proof.
  intros Hu. split; [|split; [|split]]; intros data item k; cbn [handle];
    unfold login_required; rewrite Hu.
  - unfold add_expense.
    destruct (new_expense env data (User.id u) (db st)) as [e|x] eqn:E; cbn [fst snd];
      [|discriminate].
    intros [= <-] [= <-].
    rewrite current_user_with_db, Hu by reflexivity.
    assert (Hid : Expense.id e = next_id (map Expense.id (expenses (db st)))).
    { unfold new_expense in E.
      destruct (required (t_amount data)); cbn [bind] in E; [|discriminate].
      destruct (with_default (today env) (t_date data)); cbn [bind] in E; [|discriminate].
      destruct (not_null _); cbn [bind] in E; [|discriminate].
      now injection E as <-. }
    destruct (delete_added_row Expense.id Expense.user_id (User.id u) (expenses (db st)) e
                Hid (new_expense_owner _ _ _ _ _ E)) as [Hfirst Hdel].
    unfold delete_expense. cbn [db with_db set_expenses expenses].
    rewrite Hfirst. unfold set_expenses, with_db.
    cbn [db users expenses incomes goals investments budgets session_user_id session_username].
    rewrite Hdel. destruct st as [[us es ics gs vs bs] sid sname]. reflexivity.
  - unfold add_income.
    destruct (new_income env data (User.id u) (db st)) as [e|x] eqn:E; cbn [fst snd];
      [|discriminate].
    intros [= <-] [= <-].
    rewrite current_user_with_db, Hu by reflexivity.
    assert (Hid : Income.id e = next_id (map Income.id (incomes (db st)))).
    { unfold new_income in E.
      destruct (required (t_amount data)); cbn [bind] in E; [|discriminate].
      destruct (with_default (today env) (t_date data)); cbn [bind] in E; [|discriminate].
      destruct (not_null _); cbn [bind] in E; [|discriminate].
      now injection E as <-. }
    destruct (delete_added_row Income.id Income.user_id (User.id u) (incomes (db st)) e
                Hid (new_income_owner _ _ _ _ _ E)) as [Hfirst Hdel].
    unfold delete_income. cbn [db with_db set_incomes incomes].
    rewrite Hfirst. unfold set_incomes, with_db.
    cbn [db users expenses incomes goals investments budgets session_user_id session_username].
    rewrite Hdel. destruct st as [[us es ics gs vs bs] sid sname]. reflexivity.
  - unfold add_goal.
    destruct (new_goal data (User.id u) (db st)) as [e|x] eqn:E; cbn [fst snd];
      [|discriminate].
    intros [= <-] [= <-].
    rewrite current_user_with_db, Hu by reflexivity.
    assert (Hid : Goal.id e = next_id (map Goal.id (goals (db st)))).
    { unfold new_goal in E.
      destruct (required (g_target_amount data)); cbn [bind] in E; [|discriminate].
      destruct (with_default 0%float (g_current_amount data)); cbn [bind] in E;
        [|discriminate].
      destruct (optional_date (g_target_date data)); cbn [bind] in E; [|discriminate].
      destruct (not_null _); cbn [bind] in E; [|discriminate].
      now injection E as <-. }
    destruct (delete_added_row Goal.id Goal.user_id (User.id u) (goals (db st)) e
                Hid (new_goal_owner _ _ _ _ E)) as [Hfirst Hdel].
    unfold delete_goal. cbn [db with_db set_goals goals].
    rewrite Hfirst. unfold set_goals, with_db.
    cbn [db users expenses incomes goals investments budgets session_user_id session_username].
    rewrite Hdel. destruct st as [[us es ics gs vs bs] sid sname]. reflexivity.
  - unfold add_investment.
    destruct (new_investment data (User.id u) (db st)) as [e|x] eqn:E; cbn [fst snd];
      [|discriminate].
    intros [= <-] [= <-].
    rewrite current_user_with_db, Hu by reflexivity.
    assert (Hid : Investment.id e = next_id (map Investment.id (investments (db st)))).
    { unfold new_investment in E.
      destruct (required (i_amount data)) as [amount|]; cbn [bind] in E; [|discriminate].
      destruct (required (i_purchase_date data)); cbn [bind] in E; [|discriminate].
      destruct (with_default amount (i_current_value data)); cbn [bind] in E;
        [|discriminate].
      destruct (not_null _); cbn [bind] in E; [|discriminate].
      now injection E as <-. }
    destruct (delete_added_row Investment.id Investment.user_id (User.id u)
                (investments (db st)) e Hid (new_investment_owner _ _ _ _ E))
      as [Hfirst Hdel].
    unfold delete_investment. cbn [db with_db set_investments investments].
    rewrite Hfirst. unfold set_investments, with_db.
    cbn [db users expenses incomes goals investments budgets session_user_id session_username].
    rewrite Hdel. destruct st as [[us es ics gs vs bs] sid sname]. reflexivity.
Qed.

Lemma add_then_delete_witness :
  let st := logged_in alice demo_store in
  let lunch := mkTxn "Lunch" (Value 12.5%float) "Food" Absent in
  current_user st = Some alice /\
  handle demo_env (DeleteExpense 5) (snd (handle demo_env (AddExpense lunch) st))
  = (Jsonify 200 success, st).
Proof.
  intros st lunch. split; [reflexivity|].
  exact (proj1 (add_then_delete demo_env st alice eq_refl) lunch _ 5 eq_refl eq_refl).
Defined.

(* ================================================================= *)
(** ** Primary keys *)

Section RowKeys.
Context {R : Type}.
Variable rid : R -> Z.

Lemma keys_snoc_fresh (l : list R) (e : R) :
  NoDup (map rid l) -> rid e = next_id (map rid l) -> NoDup (map rid (l ++ [e])).
Proof.
  intros Hl He. rewrite map_app. apply NoDup_app.
  - exact Hl.
  - repeat constructor. simpl. tauto.
  - intros x Hx [<- | []]. rewrite He in Hx. now apply next_id_fresh in Hx.
Qed.

Lemma delete_first_incl (q : R -> bool) (l : list R) (x : R) :
  In x (delete_first q l) -> In x l.
Proof.
  induction l as [|y l IH]; cbn [delete_first]; [tauto|].
  destruct (q y); cbn [In]; tauto.
Qed.

Lemma keys_delete_first (q : R -> bool) (l : list R) :
  NoDup (map rid l) -> NoDup (map rid (delete_first q l)).
Proof.
  induction l as [|y l IH]; cbn [delete_first map]; intros Hl; [exact Hl|].
  inversion Hl as [|? ? Hy Hl']; subst.
  destruct (q y); [exact Hl'|]. cbn [map]. constructor; [|now apply IH].
  intros Hin. apply Hy. apply in_map_iff in Hin. destruct Hin as (x & Hx & Hin).
  apply in_map_iff. exists x. split; [exact Hx|]. eapply delete_first_incl, Hin.
Qed.

(** Rewriting the row that a query finds, under its own key, keeps the
    keys of the table. *)
Lemma keys_update_first (q : R -> bool) (f : R -> R) (l : list R) :
  (forall r, In r l -> q r = true -> rid (f r) = rid r) ->
  map rid (update_first q f l) = map rid l.
Proof.
  induction l as [|y l IH]; cbn [update_first map]; intros Hf; [reflexivity|].
  destruct (q y) eqn:E; cbn [map].
  - f_equal. apply Hf; [now left | exact E].
  - f_equal. apply IH. intros r Hr. apply Hf. now right.
Qed.

Lemma keys_replace_first (q : R -> bool) (l : list R) (r r' : R) :
  first q l = Some r -> rid r' = rid r ->
  map rid (update_first q (fun _ => r') l) = map rid l.
Proof.
  unfold first. induction l as [|y l IH]; cbn [find update_first map]; [discriminate|].
  destruct (q y).
  - intros [= ->] Hid. cbn [map]. now rewrite Hid.
  - intros Hf Hid. cbn [map]. f_equal. now apply IH.
Qed.

(** Once the row with a key is deleted from a table with distinct keys,
    no row with that key is left. *)
Lemma deleted_key_is_gone (ruid : R -> Z) (uid key : Z) (l : list R) (r : R) :
  NoDup (map rid l) ->
  let q := fun x => (rid x =? key) && (ruid x =? uid) in
  first q l = Some r ->
  first q (delete_first q l) = None.
Proof.
  intros Hl q. unfold first.
  induction l as [|y l IH]; cbn [find delete_first map] in *; [discriminate|].
  inversion Hl as [|? ? Hy Hl']; subst.
  destruct (q y) eqn:E.
  - intros _. apply (proj2 (first_none_iff q l)). intros x Hx.
    unfold q. apply andb_false_iff. left. apply Z.eqb_neq. intros Hk.
    apply Hy. unfold q in E. apply andb_true_iff in E. destruct E as [E _].
    apply Z.eqb_eq in E. rewrite E, <- Hk. now apply in_map.
  - intros Hf. cbn [find]. rewrite E. now apply IH.
Qed.
End RowKeys.

Lemma keys_unique_expenses s f :
  keys_unique s -> NoDup (map Expense.id (f (expenses s))) -> keys_unique (set_expenses f s).
Proof. unfold keys_unique. cbn. tauto. Qed.

Lemma keys_unique_incomes s f :
  keys_unique s -> NoDup (map Income.id (f (incomes s))) -> keys_unique (set_incomes f s).
Proof. unfold keys_unique. cbn. tauto. Qed.

Lemma keys_unique_goals s f :
  keys_unique s -> NoDup (map Goal.id (f (goals s))) -> keys_unique (set_goals f s).
Proof. unfold keys_unique. cbn. tauto. Qed.

Lemma keys_unique_investments s f :
  keys_unique s -> NoDup (map Investment.id (f (investments s))) ->
  keys_unique (set_investments f s).
Proof. unfold keys_unique. cbn. tauto. Qed.

Lemma keys_unique_budgets s f :
  keys_unique s -> NoDup (map Budget.id (f (budgets s))) -> keys_unique (set_budgets f s).
Proof. unfold keys_unique. cbn. tauto. Qed.

Lemma keys_unique_users s f :
  keys_unique s -> NoDup (map User.id (f (users s))) -> keys_unique (set_users f s).
Proof. unfold keys_unique. cbn. tauto. Qed.

Lemma keys_unique_add_budget category amount uid s :
  keys_unique s -> keys_unique (add_budget category amount uid s).
Proof.
  intros H. unfold add_budget. apply keys_unique_budgets; [exact H|].
  apply keys_snoc_fresh; [apply H | reflexivity].
Qed.

Lemma keys_unique_set_amount q amount s :
  keys_unique s ->
  keys_unique
    (set_budgets
       (update_first q
          (fun b => Budget.mk (Budget.id b) (Budget.category b) amount (Budget.user_id b)))
       s).
Proof.
  intros H. apply keys_unique_budgets; [exact H|].
  rewrite keys_update_first by reflexivity. apply H.
Qed.

Lemma keys_unique_add_budgets uid (cats : list string) : forall s,
  keys_unique s ->
  keys_unique (fold_left (fun s category => add_budget category 0%float uid s) cats s).
Proof.
  induction cats as [|c cats IH]; intros s H; cbn [fold_left]; [exact H|].
  apply IH. now apply keys_unique_add_budget.
Qed.

Lemma keys_unique_ensure uid (cats : list string) : forall s d,
  keys_unique s ->
  keys_unique
    (fst (fold_left
            (fun sd category =>
               if dict_mem category (snd sd) then sd
               else (add_budget category 0%float uid (fst sd),
                     dict_set category 0%float (snd sd)))
            cats (s, d))).
Proof.
  induction cats as [|c cats IH]; intros s d H; cbn [fold_left fst snd]; [exact H|].
  destruct (dict_mem c d); apply IH; [exact H | now apply keys_unique_add_budget].
Qed.

Lemma keys_unique_post_budgets uid form (cats : list string) : forall acc,
  match written acc with Ok s => keys_unique s | Raise _ => True end ->
  match written (fold_left (post_budget uid form) cats acc) with
  | Ok s => keys_unique s
  | Raise _ => True
  end.
Proof.
  induction cats as [|c cats IH]; intros acc H; cbn [fold_left]; [exact H|].
  apply IH. unfold post_budget, written in *.
  destruct acc as [[s last]|x]; cbn [bind fst snd] in *; [|trivial].
  destruct (with_default 0%float _) as [amount|]; cbn [bind]; [|trivial].
  destruct (not_null last) as [flushed|]; cbn [bind]; [|trivial].
  destruct (first _ (budgets s)); cbn [bind fst].
  - now apply keys_unique_set_amount.
  - now apply keys_unique_add_budget.
Qed.

Lemma keys_unique_put_budgets uid (data : dict (field float)) : forall acc,
  match acc with Ok s => keys_unique s | Raise _ => True end ->
  match fold_left (put_budget uid) data acc with
  | Ok s => keys_unique s
  | Raise _ => True
  end.
Proof.
  induction data as [|item data IH]; intros acc H; cbn [fold_left]; [exact H|].
  apply IH. unfold put_budget. destruct acc as [s|x]; cbn [bind]; [|trivial].
  destruct (first _ (budgets s));
    destruct (required (snd item)) as [converted|]; cbn [bind]; trivial;
    destruct (not_null converted) as [amount|]; cbn [bind]; trivial.
  - now apply keys_unique_set_amount.
  - now apply keys_unique_add_budget.
Qed.

Lemma new_expense_id env data uid s e :
  new_expense env data uid s = Ok e -> Expense.id e = next_id (map Expense.id (expenses s)).
Proof.
  unfold new_expense.
  destruct (required (t_amount data)); cbn [bind]; [|discriminate].
  destruct (with_default (today env) (t_date data)); cbn [bind]; [|discriminate].
  destruct (not_null _); cbn [bind]; [|discriminate].
  now intros [= <-].
Qed.

Lemma new_income_id env data uid s i :
  new_income env data uid s = Ok i -> Income.id i = next_id (map Income.id (incomes s)).
Proof.
  unfold new_income.
  destruct (required (t_amount data)); cbn [bind]; [|discriminate].
  destruct (with_default (today env) (t_date data)); cbn [bind]; [|discriminate].
  destruct (not_null _); cbn [bind]; [|discriminate].
  now intros [= <-].
Qed.

Lemma new_goal_id data uid s g :
  new_goal data uid s = Ok g -> Goal.id g = next_id (map Goal.id (goals s)).
Proof.
  unfold new_goal.
  destruct (required (g_target_amount data)); cbn [bind]; [|discriminate].
  destruct (with_default 0%float (g_current_amount data)); cbn [bind]; [|discriminate].
  destruct (optional_date (g_target_date data)); cbn [bind]; [|discriminate].
  destruct (not_null _); cbn [bind]; [|discriminate].
  now intros [= <-].
Qed.

Lemma new_investment_id data uid s i :
  new_investment data uid s = Ok i ->
  Investment.id i = next_id (map Investment.id (investments s)).
Proof.
  unfold new_investment.
  destruct (required (i_amount data)) as [amount|]; cbn [bind]; [|discriminate].
  destruct (required (i_purchase_date data)); cbn [bind]; [|discriminate].
  destruct (with_default amount (i_current_value data)); cbn [bind]; [|discriminate].
  destruct (not_null _); cbn [bind]; [|discriminate].
  now intros [= <-].
Qed.

Lemma patch_goal_id data goal goal' :
  patch_goal data goal = Ok goal' -> Goal.id goal' = Goal.id goal.
Proof.
  unfold patch_goal.
  destruct (converted (gp_target_amount data)); cbn [bind]; [|discriminate].
  destruct (converted (gp_current_amount data)); cbn [bind]; [|discriminate].
  destruct (with_default (Goal.target_date goal) _); cbn [bind]; [|discriminate].
  destruct (assigned_not_null _ _); cbn [bind]; [|discriminate].
  now intros [= <-].
Qed.

Lemma patch_investment_id data inv inv' :
  patch_investment data inv = Ok inv' -> Investment.id inv' = Investment.id inv.
Proof.
  unfold patch_investment.
  destruct (converted (ip_amount data)); cbn [bind]; [|discriminate].
  destruct (with_default (Investment.purchase_date inv) _); cbn [bind]; [|discriminate].
  destruct (converted (ip_current_value data)); cbn [bind]; [|discriminate].
  destruct (assigned_not_null _ _); cbn [bind]; [|discriminate].
  now intros [= <-].
Qed.

Section KeyInvariant.
Variable env : Env.
Variable u : User.t.
Variable st : State.
Hypothesis Hkeys : keys_unique (db st).

Local Abbreviation unique_after h := (keys_unique (db (snd h))).

Lemma expense_tracker_keys post : unique_after (expense_tracker env post u st).
Proof.
  unfold expense_tracker. destruct post as [form|]; [|exact Hkeys].
  destruct (new_expense env form (User.id u) (db st)) as [e|x] eqn:E; [|exact Hkeys].
  cbn [snd db with_db]. apply keys_unique_expenses; [exact Hkeys|].
  apply keys_snoc_fresh; [apply Hkeys | eapply new_expense_id, E].
Qed.

Lemma add_expense_keys data : unique_after (add_expense env data u st).
Proof.
  unfold add_expense.
  destruct (new_expense env data (User.id u) (db st)) as [e|x] eqn:E; [|exact Hkeys].
  cbn [snd db with_db]. apply keys_unique_expenses; [exact Hkeys|].
  apply keys_snoc_fresh; [apply Hkeys | eapply new_expense_id, E].
Qed.

Lemma delete_expense_keys key : unique_after (delete_expense key u st).
Proof.
  unfold delete_expense. destruct (first _ (expenses (db st))); [|exact Hkeys].
  cbn [snd db with_db]. apply keys_unique_expenses; [exact Hkeys|].
  apply keys_delete_first, Hkeys.
Qed.

Lemma income_tracker_keys post : unique_after (income_tracker env post u st).
Proof.
  unfold income_tracker. destruct post as [form|]; [|exact Hkeys].
  destruct (new_income env form (User.id u) (db st)) as [i|x] eqn:E; [|exact Hkeys].
  cbn [snd db with_db]. apply keys_unique_incomes; [exact Hkeys|].
  apply keys_snoc_fresh; [apply Hkeys | eapply new_income_id, E].
Qed.

Lemma add_income_keys data : unique_after (add_income env data u st).
Proof.
  unfold add_income.
  destruct (new_income env data (User.id u) (db st)) as [i|x] eqn:E; [|exact Hkeys].
  cbn [snd db with_db]. apply keys_unique_incomes; [exact Hkeys|].
  apply keys_snoc_fresh; [apply Hkeys | eapply new_income_id, E].
Qed.

Lemma delete_income_keys key : unique_after (delete_income key u st).
Proof.
  unfold delete_income. destruct (first _ (incomes (db st))); [|exact Hkeys].
  cbn [snd db with_db]. apply keys_unique_incomes; [exact Hkeys|].
  apply keys_delete_first, Hkeys.
Qed.

Lemma goal_tracker_keys post : unique_after (goal_tracker post u st).
Proof.
  unfold goal_tracker. destruct post as [form|]; [|exact Hkeys].
  destruct (new_goal form (User.id u) (db st)) as [g|x] eqn:E; [|exact Hkeys].
  cbn [snd db with_db]. apply keys_unique_goals; [exact Hkeys|].
  apply keys_snoc_fresh; [apply Hkeys | eapply new_goal_id, E].
Qed.

Lemma add_goal_keys data : unique_after (add_goal data u st).
Proof.
  unfold add_goal.
  destruct (new_goal data (User.id u) (db st)) as [g|x] eqn:E; [|exact Hkeys].
  cbn [snd db with_db]. apply keys_unique_goals; [exact Hkeys|].
  apply keys_snoc_fresh; [apply Hkeys | eapply new_goal_id, E].
Qed.

Lemma update_goal_keys key data : unique_after (update_goal key data u st).
Proof.
  unfold update_goal.
  destruct (first _ (goals (db st))) as [goal|] eqn:F; [|exact Hkeys].
  destruct (patch_goal data goal) as [goal'|x] eqn:E; [|exact Hkeys].
  cbn [snd db with_db]. apply keys_unique_goals; [exact Hkeys|].
  rewrite (keys_replace_first Goal.id _ _ goal goal' F (patch_goal_id _ _ _ E)).
  apply Hkeys.
Qed.

Lemma delete_goal_keys key : unique_after (delete_goal key u st).
Proof.
  unfold delete_goal. destruct (first _ (goals (db st))); [|exact Hkeys].
  cbn [snd db with_db]. apply keys_unique_goals; [exact Hkeys|].
  apply keys_delete_first, Hkeys.
Qed.

Lemma investment_tracker_keys post : unique_after (investment_tracker post u st).
Proof.
  unfold investment_tracker. destruct post as [form|]; [|exact Hkeys].
  destruct (new_investment form (User.id u) (db st)) as [i|x] eqn:E; [|exact Hkeys].
  cbn [snd db with_db]. apply keys_unique_investments; [exact Hkeys|].
  apply keys_snoc_fresh; [apply Hkeys | eapply new_investment_id, E].
Qed.

Lemma add_investment_keys data : unique_after (add_investment data u st).
Proof.
  unfold add_investment.
  destruct (new_investment data (User.id u) (db st)) as [i|x] eqn:E; [|exact Hkeys].
  cbn [snd db with_db]. apply keys_unique_investments; [exact Hkeys|].
  apply keys_snoc_fresh; [apply Hkeys | eapply new_investment_id, E].
Qed.

Lemma update_investment_keys key data : unique_after (update_investment key data u st).
Proof.
  unfold update_investment.
  destruct (first _ (investments (db st))) as [inv|] eqn:F; [|exact Hkeys].
  destruct (patch_investment data inv) as [inv'|x] eqn:E; [|exact Hkeys].
  cbn [snd db with_db]. apply keys_unique_investments; [exact Hkeys|].
  rewrite (keys_replace_first Investment.id _ _ inv inv' F (patch_investment_id _ _ _ E)).
  apply Hkeys.
Qed.

Lemma delete_investment_keys key : unique_after (delete_investment key u st).
Proof.
  unfold delete_investment. destruct (first _ (investments (db st))); [|exact Hkeys].
  cbn [snd db with_db]. apply keys_unique_investments; [exact Hkeys|].
  apply keys_delete_first, Hkeys.
Qed.

Lemma suggestions_keys : unique_after (suggestions u st).
Proof. unfold suggestions. destruct (suggestion_list _ _ _ _); exact Hkeys. Qed.

Lemma summary_keys : unique_after (get_financial_summary u st).
Proof.
  unfold get_financial_summary. destruct (financial_summary _ _ _); exact Hkeys.
Qed.

Lemma budget_planner_keys post : unique_after (budget_planner post u st).
Proof.
  unfold budget_planner.
  set (ensured := ensure_budgets _ _ _).
  assert (Hpending : keys_unique (fst ensured)) by (apply keys_unique_ensure, Hkeys).
  assert (Hcommitted :
            keys_unique
              (if (List.length (snd ensured) =? List.length default_expense_categories)%nat
               then db st else fst ensured)).
  { destruct (_ =? _)%nat; [exact Hkeys | exact Hpending]. }
  destruct post as [form|].
  - pose proof (keys_unique_post_budgets (User.id u) form default_expense_categories
                  (Ok (fst ensured, 0%float)) Hpending) as H.
    destruct (commit_budgets _) as [s'|x] eqn:C.
    + apply commit_budgets_written in C. rewrite C in H. exact H.
    + exact Hcommitted.
  - destruct (budget_data _ _); exact Hcommitted.
Qed.

Lemma update_budget_keys data : unique_after (update_budget data u st).
Proof.
  unfold update_budget.
  pose proof (keys_unique_put_budgets (User.id u) data (Ok (db st)) Hkeys) as H.
  destruct (fold_left _ data (Ok (db st))) as [s'|x]; [exact H | exact Hkeys].
Qed.
End KeyInvariant.

(** X8. Primary keys stay distinct in every table, whatever the request: a
    new row gets a key that its table does not hold, an update never
    changes a key, and nothing else writes one. *)
Theorem keys_stay_unique (env : Env) (req : Request) (st : State) :
  keys_unique (db st) -> keys_unique (db (snd (handle env req st))).
Proof.
  intros H.
  destruct req; cbn [handle]; unfold login_required;
    try (destruct (current_user st) as [u|]; [|exact H]);
    first
      [ apply expense_tracker_keys, H | apply add_expense_keys, H
      | apply delete_expense_keys, H
      | apply income_tracker_keys, H | apply add_income_keys, H
      | apply delete_income_keys, H
      | apply goal_tracker_keys, H | apply add_goal_keys, H | apply update_goal_keys, H
      | apply delete_goal_keys, H
      | apply investment_tracker_keys, H | apply add_investment_keys, H
      | apply update_investment_keys, H | apply delete_investment_keys, H
      | apply suggestions_keys, H | apply summary_keys, H
      | apply budget_planner_keys, H
      | apply update_budget_keys, H
      | idtac ].
  all: try exact H.
  - unfold login. destruct (is_authenticated st); exact H.
  - unfold login. destruct (is_authenticated st); [exact H|].
    destruct (first _ (users (db st))) as [user|]; [|exact H].
    destruct (check_password_hash env _ _); exact H.
  - unfold register. destruct (is_authenticated st); exact H.
  - unfold register. destruct (is_authenticated st); [exact H|].
    destruct (first _ (users (db st))); [exact H|].
    destruct (first _ (users (db st))); [exact H|].
    cbn [snd db with_db]. apply keys_unique_add_budgets.
    apply keys_unique_users; [exact H|].
    apply keys_snoc_fresh; [apply H | reflexivity].
Qed.

Lemma keys_stay_unique_witness :
  let st := logged_in alice demo_store in
  let lunch := mkTxn "Lunch" (Value 12.5%float) "Food" Absent in
  keys_unique (db st) /\
  keys_unique (db (snd (handle demo_env (AddExpense lunch) st))).
Proof.
  intros st lunch.
  assert (H : keys_unique (db st)).
  { unfold keys_unique. simpl.
    repeat split; repeat (constructor; [simpl; intuition discriminate|]); constructor. }
  split; [exact H|].
  exact (keys_stay_unique demo_env (AddExpense lunch) st H).
Defined.

(** X9. With distinct primary keys, a delete that succeeded cannot be
    repeated: asking again to delete the same id is answered by the 404
    error and changes nothing. *)
Theorem delete_is_final (env : Env) (st : State) (u : User.t) (key : Z) :
  current_user st = Some u ->
  keys_unique (db st) ->
  (fst (handle env (DeleteExpense key) st) = Jsonify 200 success ->
   let st' := snd (handle env (DeleteExpense key) st) in
   handle env (DeleteExpense key) st' = (not_found "Expense not found", st')) /\
  (fst (handle env (DeleteIncome key) st) = Jsonify 200 success ->
   let st' := snd (handle env (DeleteIncome key) st) in
   handle env (DeleteIncome key) st' = (not_found "Income not found", st')) /\
  (fst (handle env (DeleteGoal key) st) = Jsonify 200 success ->
   let st' := snd (handle env (DeleteGoal key) st) in
   handle env (DeleteGoal key) st' = (not_found "Goal not found", st')) /\
  (fst (handle env (DeleteInvestment key) st) = Jsonify 200 success ->
   let st' := snd (handle env (DeleteInvestment key) st) in
   handle env (DeleteInvestment key) st' = (not_found "Investment not found", st')).
Proof.
  intros Hu (_ & He & Hi & Hg & Hv & _).
  split; [|split; [|split]]; cbn [handle]; unfold login_required; rewrite Hu.
  - unfold delete_expense.
    destruct (first _ (expenses (db st))) as [r|] eqn:F; cbn [fst snd]; [|discriminate].
    intros _. rewrite current_user_with_db, Hu by reflexivity.
    cbn [db with_db set_expenses expenses].
    now rewrite (deleted_key_is_gone Expense.id Expense.user_id _ _ _ r He F).
  - unfold delete_income.
    destruct (first _ (incomes (db st))) as [r|] eqn:F; cbn [fst snd]; [|discriminate].
    intros _. rewrite current_user_with_db, Hu by reflexivity.
    cbn [db with_db set_incomes incomes].
    now rewrite (deleted_key_is_gone Income.id Income.user_id _ _ _ r Hi F).
  - unfold delete_goal.
    destruct (first _ (goals (db st))) as [r|] eqn:F; cbn [fst snd]; [|discriminate].
    intros _. rewrite current_user_with_db, Hu by reflexivity.
    cbn [db with_db set_goals goals].
    now rewrite (deleted_key_is_gone Goal.id Goal.user_id _ _ _ r Hg F).
  - unfold delete_investment.
    destruct (first _ (investments (db st))) as [r|] eqn:F; cbn [fst snd]; [|discriminate].
    intros _. rewrite current_user_with_db, Hu by reflexivity.
    cbn [db with_db set_investments investments].
    now rewrite (deleted_key_is_gone Investment.id Investment.user_id _ _ _ r Hv F).
Qed.

Lemma delete_is_final_witness :
  let st := logged_in alice demo_store in
  let st' := snd (handle demo_env (DeleteExpense 3) st) in
  (current_user st = Some alice /\ keys_unique (db st)) /\
  handle demo_env (DeleteExpense 3) st' = (not_found "Expense not found", st').
Proof.
  intros st st'.
  assert (H : keys_unique (db st)).
  { unfold keys_unique. simpl.
    repeat split; repeat (constructor; [simpl; intuition discriminate|]); constructor. }
  split; [split; [reflexivity | exact H]|].
  exact (proj1 (delete_is_final demo_env st alice 3 eq_refl H) eq_refl).
Defined.

(* ================================================================= *)
(** ** Updating a row *)

Section UpdateFacts.
Context {R : Type}.

Lemma update_first_length (q : R -> bool) (f : R -> R) (l : list R) :
  List.length (update_first q f l) = List.length l.
Proof.
  induction l as [|y l IH]; cbn [update_first]; [reflexivity|].
  destruct (q y); cbn [List.length]; [reflexivity | now rewrite IH].
Qed.

(** The rows that the query does not select are kept. *)
Lemma update_first_keeps (q : R -> bool) (f : R -> R) (l : list R) (r : R) :
  In r l -> q r = false -> In r (update_first q f l).
Proof.
  induction l as [|y l IH]; cbn [update_first In]; [tauto|].
  intros [-> | Hr] Hq.
  - rewrite Hq. now left.
  - destruct (q y); [now right | right; now apply IH].
Qed.

(** Writing back the row that the query returns changes nothing. *)
Lemma update_first_same (q : R -> bool) (l : list R) (r : R) :
  first q l = Some r -> update_first q (fun _ => r) l = l.
Proof.
  unfold first. induction l as [|y l IH]; cbn [find update_first]; [discriminate|].
  destruct (q y).
  - now intros [= ->].
  - intros H. f_equal. now apply IH.
Qed.
End UpdateFacts.

Lemma owners_replace_first {R : Type} (ruid : R -> Z) (q : R -> bool) (l : list R) (r r' : R) :
  first q l = Some r -> ruid r' = ruid r ->
  map ruid (update_first q (fun _ => r') l) = map ruid l.
Proof. apply keys_replace_first. Qed.

(** X10. PUT on a goal or an investment changes at most the one row that
    has the given id and belongs to the requester: the table keeps its
    length, its ids and its owners in order, every row that is not that one
    is still there, and no other table changes. A body without any key
    leaves the state as it is. *)
Theorem update_keeps_identity (env : Env) (st : State) (u : User.t) (key : Z) :
  current_user st = Some u ->
  (forall data,
     let s' := db (snd (handle env (UpdateGoal key data) st)) in
     map Goal.id (goals s') = map Goal.id (goals (db st)) /\
     map Goal.user_id (goals s') = map Goal.user_id (goals (db st)) /\
     (forall g, In g (goals (db st)) ->
                Goal.id g <> key \/ Goal.user_id g <> User.id u -> In g (goals s')) /\
     s' = set_goals (fun _ => goals s') (db st)) /\
  snd (handle env (UpdateGoal key (mkGoalPatch None Absent Absent Absent None)) st) = st /\
  (forall data,
     let s' := db (snd (handle env (UpdateInvestment key data) st)) in
     map Investment.id (investments s') = map Investment.id (investments (db st)) /\
     map Investment.user_id (investments s') = map Investment.user_id (investments (db st)) /\
     (forall i, In i (investments (db st)) ->
                Investment.id i <> key \/ Investment.user_id i <> User.id u ->
                In i (investments s')) /\
     s' = set_investments (fun _ => investments s') (db st)) /\
  snd (handle env (UpdateInvestment key (mkInvPatch None None Absent Absent Absent None)) st)
  = st.
Proof.
  intros Hu. cbn [handle]. unfold login_required. rewrite Hu.
  assert (Hstore : forall s : Store, s = set_goals (fun _ => goals s) s) by now intros [].
  assert (Hstore' : forall s : Store, s = set_investments (fun _ => investments s) s)
    by now intros [].
  assert (Hnot : forall (a b : Z), a <> key \/ b <> User.id u ->
                   ((a =? key) && (b =? User.id u)) = false).
  { intros a b Hab. apply andb_false_iff. rewrite !Z.eqb_neq. exact Hab. }
  split; [|split; [|split]].
  - intros data. unfold update_goal.
    destruct (first _ (goals (db st))) as [goal|] eqn:F;
      [|cbn [snd]; repeat split; auto].
    destruct (patch_goal data goal) as [goal'|x] eqn:E;
      [|cbn [snd]; repeat split; auto].
    cbn [snd db with_db set_goals goals]. split; [|split; [|split]].
    + exact (keys_replace_first Goal.id _ _ goal goal' F (patch_goal_id _ _ _ E)).
    + exact (owners_replace_first Goal.user_id _ _ goal goal' F (patch_goal_owner _ _ _ E)).
    + intros g Hg Hother. apply update_first_keeps; [exact Hg | now apply Hnot].
    + reflexivity.
  - unfold update_goal.
    destruct (first _ (goals (db st))) as [goal|] eqn:F; [|reflexivity].
    assert (E : patch_goal (mkGoalPatch None Absent Absent Absent None) goal = Ok goal)
      by now destruct goal.
    rewrite E. cbn [snd]. unfold set_goals. rewrite (update_first_same _ _ _ F).
    destruct st as [[us es ics gs vs bs] sid sname]. reflexivity.
  - intros data. unfold update_investment.
    destruct (first _ (investments (db st))) as [inv|] eqn:F;
      [|cbn [snd]; repeat split; auto].
    destruct (patch_investment data inv) as [inv'|x] eqn:E;
      [|cbn [snd]; repeat split; auto].
    cbn [snd db with_db set_investments investments]. split; [|split; [|split]].
    + exact (keys_replace_first Investment.id _ _ inv inv' F (patch_investment_id _ _ _ E)).
    + exact (owners_replace_first Investment.user_id _ _ inv inv' F
               (patch_investment_owner _ _ _ E)).
    + intros i Hi Hother. apply update_first_keeps; [exact Hi | now apply Hnot].
    + reflexivity.
  - unfold update_investment.
    destruct (first _ (investments (db st))) as [inv|] eqn:F; [|reflexivity].
    assert (E : patch_investment (mkInvPatch None None Absent Absent Absent None) inv = Ok inv)
      by now destruct inv.
    rewrite E. cbn [snd]. unfold set_investments. rewrite (update_first_same _ _ _ F).
    destruct st as [[us es ics gs vs bs] sid sname]. reflexivity.
Qed.

Lemma update_keeps_identity_witness :
  let st := logged_in alice demo_store in
  let more := mkGoalPatch None Absent (Value 450%float) Absent None in
  current_user st = Some alice /\
  map Goal.current_amount (goals (db (snd (handle demo_env (UpdateGoal 1 more) st))))
  = [ Some 450%float; Some 900%float ] /\
  map Goal.id (goals (db (snd (handle demo_env (UpdateGoal 1 more) st))))
  = map Goal.id (goals (db st)).
Proof.
  intros st more. split; [reflexivity|]. split; [reflexivity|].
  exact (proj1 (proj1 (update_keeps_identity demo_env st alice 1 eq_refl) more)).
Defined.

(* ================================================================= *)
(** ** The rows of the budget page *)

Lemma mapM_Forall2 {A B : Type} (f : A -> result B) (l : list A) : forall bs,
  mapM f l = Ok bs -> Forall2 (fun a b => f a = Ok b) l bs.
Proof.
  induction l as [|a l IH]; cbn [mapM]; intros bs.
  - intros [= <-]. constructor.
  - destruct (f a) as [b|] eqn:E; cbn [bind]; [|discriminate].
    destruct (mapM f l) as [bs'|]; cbn [bind]; [|discriminate].
    intros [= <-]. constructor; [exact E | now apply IH].
Qed.

Lemma Forall2_map_eq {A B : Type} (g : B -> A) (P : A -> B -> Prop) (l : list A) (bs : list B) :
  (forall a b, P a b -> g b = a) -> Forall2 P l bs -> map g bs = l.
Proof.
  intros Hg H. induction H as [|a b l bs Hab _ IH]; cbn [map]; [reflexivity|].
  now rewrite (Hg a b Hab), IH.
Qed.

Lemma Forall2_Forall_r {A B : Type} (P : A -> B -> Prop) (Q : B -> Prop)
  (l : list A) (bs : list B) :
  (forall a b, P a b -> Q b) -> Forall2 P l bs -> Forall Q bs.
Proof.
  intros HQ H. induction H as [|a b l bs Hab _ IH]; constructor; eauto.
Qed.

(** What one row of the budget page holds. *)
Lemma budget_row_spec (budget_dict spending : dict float) (c : string) (r : BudgetRow.t) :
  budget_row budget_dict spending c = Ok r ->
  BudgetRow.category r = c /\
  BudgetRow.budget_amount r = dict_get_default c 0%float budget_dict /\
  BudgetRow.spent_amount r = dict_get_default c 0%float spending /\
  (100 <? BudgetRow.percentage r)%float = false /\
  ((BudgetRow.status r = "danger" /\ BudgetRow.percentage r = 100%float) \/
   (BudgetRow.status r = "warning" /\ (70 <? BudgetRow.percentage r)%float = true) \/
   (BudgetRow.status r = "success" /\ (70 <? BudgetRow.percentage r)%float = false)) /\
  ((0 <? BudgetRow.budget_amount r)%float = false ->
   BudgetRow.percentage r = 0%float /\ BudgetRow.status r = "success").
Proof.
  unfold budget_row.
  destruct (0 <? dict_get_default c 0 budget_dict)%float eqn:Hpos.
  - rewrite (truediv_positive _ _ Hpos). cbn [bind].
    set (p := (_ / _ * 100)%float).
    intros [= <-]. cbn [BudgetRow.category BudgetRow.budget_amount BudgetRow.spent_amount
                        BudgetRow.percentage BudgetRow.status].
    split; [reflexivity|]. split; [reflexivity|]. split; [reflexivity|].
    unfold py_min. destruct (100 <? p)%float eqn:Hd.
    + split; [reflexivity|]. split; [left; split; reflexivity|].
      rewrite Hpos. discriminate.
    + split; [exact Hd|]. split; [|rewrite Hpos; discriminate].
      destruct (70 <? p)%float eqn:Hw; [right; left | right; right]; split; auto.
  - cbn [bind]. intros [= <-].
    cbn [BudgetRow.category BudgetRow.budget_amount BudgetRow.spent_amount
         BudgetRow.percentage BudgetRow.status].
    split; [reflexivity|]. split; [reflexivity|]. split; [reflexivity|].
    split; [reflexivity|]. split; [right; right; split; reflexivity|].
    intros _. split; reflexivity.
Qed.

Lemma budget_rows_spec (budget_dict spending : dict float) (cats : list string)
  (rows : list BudgetRow.t) :
  mapM (budget_row budget_dict spending) cats = Ok rows ->
  map BudgetRow.category rows = cats /\
  Forall
    (fun r =>
       (100 <? BudgetRow.percentage r)%float = false /\
       ((BudgetRow.status r = "danger" /\ BudgetRow.percentage r = 100%float) \/
        (BudgetRow.status r = "warning" /\ (70 <? BudgetRow.percentage r)%float = true) \/
        (BudgetRow.status r = "success" /\ (70 <? BudgetRow.percentage r)%float = false)) /\
       ((0 <? BudgetRow.budget_amount r)%float = false ->
        BudgetRow.percentage r = 0%float /\ BudgetRow.status r = "success"))
    rows.
Proof.
  intros E. apply mapM_Forall2 in E. split.
  - eapply Forall2_map_eq; [|exact E].
    intros c r H. exact (proj1 (budget_row_spec _ _ c r H)).
  - eapply Forall2_Forall_r; [|exact E].
    intros c r H. exact (proj2 (proj2 (proj2 (budget_row_spec _ _ c r H)))).
Qed.

Lemma budget_data_eq (budget_dict : dict float) (ues : list Expense.t) :
  budget_data budget_dict ues
  = mapM (budget_row budget_dict (spending_by_category ues)) default_expense_categories.
Proof. reflexivity. Qed.

Lemma budget_page_response (u : User.t) (st : State) :
  fst (budget_planner None u st)
  = match budget_data
            (snd (ensure_budgets (User.id u) (db st)
                    (budget_dict_of (user_budgets (User.id u) (db st)))))
            (user_expenses (User.id u) (db st)) with
    | Ok rows => Render "budget.html" [] (CtxBudget rows default_expense_categories)
    | Raise x => ServerError x
    end.
Proof. unfold budget_planner. destruct (budget_data _ _); reflexivity. Qed.

(** X11. The budget page is always rendered, with one row per default
    expense category in the order of the list. No row shows more than 100
    percent; a row in danger shows exactly 100, a row with a warning more
    than 70, a row in good standing at most 70; and a category whose budget
    is not above zero shows 0 percent in good standing, whatever was
    spent. *)
Theorem budget_rows_bounded (env : Env) (st : State) (u : User.t) :
  current_user st = Some u ->
  exists rows,
    fst (handle env GetBudgetPlanner st)
    = Render "budget.html" [] (CtxBudget rows default_expense_categories) /\
    map BudgetRow.category rows = default_expense_categories /\
    Forall
      (fun r =>
         (100 <? BudgetRow.percentage r)%float = false /\
         ((BudgetRow.status r = "danger" /\ BudgetRow.percentage r = 100%float) \/
          (BudgetRow.status r = "warning" /\ (70 <? BudgetRow.percentage r)%float = true) \/
          (BudgetRow.status r = "success" /\ (70 <? BudgetRow.percentage r)%float = false)) /\
         ((0 <? BudgetRow.budget_amount r)%float = false ->
          BudgetRow.percentage r = 0%float /\ BudgetRow.status r = "success"))
      rows.
Proof.
  intros Hu. cbn [handle]. unfold login_required. rewrite Hu, budget_page_response.
  generalize (snd (ensure_budgets (User.id u) (db st)
                     (budget_dict_of (user_budgets (User.id u) (db st))))).
  generalize (user_expenses (User.id u) (db st)).
  intros ues bd.
  destruct (budget_data_defined bd ues) as [rows Hrows]. rewrite Hrows.
  exists rows. split; [reflexivity|].
  rewrite budget_data_eq in Hrows.
  exact (budget_rows_spec bd (spending_by_category ues) default_expense_categories rows Hrows).
Qed.

Lemma budget_rows_bounded_witness :
  let st := logged_in alice demo_store in
  current_user st = Some alice /\
  exists rows,
    fst (handle demo_env GetBudgetPlanner st)
    = Render "budget.html" [] (CtxBudget rows default_expense_categories) /\
    map BudgetRow.category rows = default_expense_categories.
Proof.
  intros st. split; [reflexivity|].
  destruct (budget_rows_bounded demo_env st alice eq_refl) as (rows & Hpage & Hcats & _).
  exists rows. split; assumption.
Defined.

Lemma Forall2_In_r {A B : Type} (P : A -> B -> Prop) (l : list A) (bs : list B) :
  Forall2 P l bs -> forall b, In b bs -> exists a, In a l /\ P a b.
Proof.
  intros H. induction H as [|a b l bs Hab _ IH]; intros b0; cbn [In]; [tauto|].
  intros [<- | Hb].
  - exists a. tauto.
  - destruct (IH b0 Hb) as (a0 & Ha0 & HP). exists a0. tauto.
Qed.

Lemma last_cons {A : Type} (x d : A) (l : list A) : last (x :: l) d = last l x.
Proof.
  revert x d. induction l as [|y l IH]; intros x d; [reflexivity|].
  change (last (x :: y :: l) d) with (last (y :: l) d). now rewrite (IH y d), (IH y x).
Qed.

(** Looking a key up in a dictionary filled by successive assignments
    gives the value assigned last. *)
Lemma fold_set_get_default {B V : Type} (kf : B -> string) (vf : B -> V) (z : V) (c : string)
  (bs : list B) : forall d,
  dict_get_default c z (fold_left (fun d b => dict_set (kf b) (vf b) d) bs d)
  = last (map vf (filter (fun b => String.eqb (kf b) c) bs)) (dict_get_default c z d).
Proof.
  induction bs as [|b bs IH]; intros d; cbn [fold_left filter map]; [reflexivity|].
  rewrite IH. unfold dict_get_default.
  destruct (String.eqb_spec (kf b) c) as [<-|Hne].
  - rewrite dict_get_set_same. cbn [map]. symmetry. apply last_cons.
  - rewrite dict_get_set_other by assumption. reflexivity.
Qed.

(* ================================================================= *)
(** ** Ownership: what a handler returns *)


Lemma json_of_dict_get (c : string) (d : dict float) :
  dict_get c (map (fun kv => (fst kv, JNum (snd kv))) d)
  = match dict_get c d with Some x => Some (JNum x) | None => None end.
Proof.
  induction d as [|[k v] d IH]; cbn [map dict_get fst snd]; [reflexivity|].
  destruct (String.eqb k c); [reflexivity | exact IH].
Qed.




(* ================================================================= *)
(** ** The amounts of the budget page *)

(** The zero budgets that [budget_planner] fills in read like a missing
    key. *)
Lemma ensure_budgets_get_default (uid : Z) (c : string) (cats : list string) :
  forall (s : Store) (d : dict float),
  dict_get_default c 0%float
    (snd (fold_left
            (fun sd category =>
               if dict_mem category (snd sd) then sd
               else (add_budget category 0%float uid (fst sd),
                     dict_set category 0%float (snd sd)))
            cats (s, d)))
  = dict_get_default c 0%float d.
Proof.
  induction cats as [|c' cats IH]; intros s d; cbn [fold_left fst snd]; [reflexivity|].
  destruct (dict_mem c' d) eqn:E; rewrite IH; [reflexivity|].
  unfold dict_get_default. destruct (String.eqb_spec c' c) as [->|Hne].
  - rewrite dict_get_set_same. unfold dict_mem in E.
    destruct (dict_get c d); [discriminate | reflexivity].
  - now rewrite dict_get_set_other.
Qed.

Lemma budget_rows_content_spec (uid : Z) (s : Store) (ubs : list Budget.t)
  (ues : list Expense.t) (rows : list BudgetRow.t) :
  budget_data (snd (ensure_budgets uid s (budget_dict_of ubs))) ues = Ok rows ->
  Forall
    (fun r =>
       BudgetRow.spent_amount r
       = py_sum (map Expense.amount
                   (filter (fun e => String.eqb (Expense.category e) (BudgetRow.category r))
                      ues)) /\
       BudgetRow.budget_amount r
       = last (map Budget.amount
                 (filter (fun b => String.eqb (Budget.category b) (BudgetRow.category r)) ubs))
           0%float)
    rows.
Proof.
  intros E. rewrite budget_data_eq in E. apply mapM_Forall2 in E.
  apply Forall_forall. intros r Hr.
  destruct (Forall2_In_r _ _ _ E r Hr) as (c & Hc & Hrow).
  destruct (budget_row_spec _ _ c r Hrow) as (Hcat & Hbudget & Hspent & _).
  rewrite Hcat, Hbudget, Hspent. split.
  - unfold dict_get_default. rewrite spending_by_category_get.
    now rewrite (proj2 (existsb_eqb_In c default_expense_categories) Hc).
  - unfold ensure_budgets. rewrite ensure_budgets_get_default.
    unfold budget_dict_of. now rewrite fold_set_get_default.
Qed.

(** X12. On the budget page the [spent_amount] of a category is the float
    sum of the amounts of the user's expenses filed under exactly that
    category, and its [budget_amount] is the amount of the user's budget for
    the category, the last one if there are several and 0 if there is
    none. *)
Theorem budget_rows_content (env : Env) (st : State) (u : User.t) :
  current_user st = Some u ->
  exists rows,
    fst (handle env GetBudgetPlanner st)
    = Render "budget.html" [] (CtxBudget rows default_expense_categories) /\
    Forall
      (fun r =>
         BudgetRow.spent_amount r
         = py_sum (map Expense.amount
                     (filter (fun e => String.eqb (Expense.category e) (BudgetRow.category r))
                        (filter (fun e => Expense.user_id e =? User.id u)
                           (expenses (db st))))) /\
         BudgetRow.budget_amount r
         = last (map Budget.amount
                   (filter (fun b => String.eqb (Budget.category b) (BudgetRow.category r))
                      (filter (fun b => Budget.user_id b =? User.id u) (budgets (db st)))))
             0%float)
      rows.
Proof.
  intros Hu. cbn [handle]. unfold login_required. rewrite Hu, budget_page_response.
  destruct (budget_data _ _) as [rows|x] eqn:E.
  - exists rows. split; [reflexivity|].
    exact (budget_rows_content_spec _ _ _ _ rows E).
  - destruct (budget_data_defined
                (snd (ensure_budgets (User.id u) (db st)
                        (budget_dict_of (user_budgets (User.id u) (db st)))))
                (user_expenses (User.id u) (db st))) as [rows Hrows].
    congruence.
Qed.

Lemma budget_rows_content_witness :
  let st := logged_in alice demo_store in
  current_user st = Some alice /\
  exists rows,
    fst (handle demo_env GetBudgetPlanner st)
    = Render "budget.html" [] (CtxBudget rows default_expense_categories) /\
    List.length rows = 14%nat.
Proof.
  intros st. split; [reflexivity|].
  destruct (budget_rows_content demo_env st alice eq_refl) as (rows & Hpage & _).
  exists rows. split; [exact Hpage|].
  vm_compute in Hpage. now injection Hpage as <-.
Defined.

(* ================================================================= *)
(** ** What the suggestions page shows *)

(** The four stages of [suggestions], when the page is rendered. *)
Lemma suggestion_list_stages ues uis ugs uvs l :
  suggestion_list ues uis ugs uvs = Ok l ->
  exists s1 s3 s4,
    ratio_rule (py_sum (map Income.amount uis)) (py_sum (map Expense.amount ues)) [] = Ok s1 /\
    high_category_rule (expense_by_category ues) (py_sum (map Expense.amount ues))
      (investment_rules uvs s1) = Ok s3 /\
    goal_rules ugs s3 = Ok s4 /\
    l = if is_empty s4 then default_suggestions else s4.
Proof.
  unfold suggestion_list.
  destruct (ratio_rule _ _ []) as [s1|]; cbn [bind]; [|discriminate].
  destruct (high_category_rule _ _ _) as [s3|] eqn:E3; cbn [bind]; [|discriminate].
  destruct (goal_rules ugs s3) as [s4|] eqn:E4; cbn [bind]; [|discriminate].
  intros [= <-]. exists s1, s3, s4. repeat split; assumption.
Qed.

Lemma ratio_rule_only (total_income total_expenses : float) s1 t :
  ratio_rule total_income total_expenses [] = Ok s1 -> In t (titles s1) -> ratio_title t.
Proof.
  unfold ratio_rule. destruct (0 <? total_income)%float.
  - destruct (truediv total_expenses total_income) as [r|]; cbn [bind]; [|discriminate].
    destruct (0.9 <? r)%float; [|destruct (r <? 0.5)%float]; intros [= <-];
      unfold titles, ratio_title; simpl; intuition (subst; auto).
  - intros [= <-]. simpl. tauto.
Qed.

Lemma investment_rules_titles_all uvs s t :
  In t (titles (investment_rules uvs s)) <->
  In t (titles s) \/
  (t = "Start an Emergency Fund" /\ uvs = []) \/
  (t = "Diversify Investments" /\ uvs <> [] /\
   (List.length (nodup string_dec (map Investment.type uvs)) <? 3)%nat = true).
Proof.
  unfold investment_rules. destruct uvs as [|v uvs]; cbn [is_empty negb].
  - rewrite andb_false_r, titles_snoc. cbn [Suggestion.title emergency_fund].
    intuition congruence.
  - rewrite andb_true_r.
    destruct (List.length (nodup string_dec (map Investment.type (v :: uvs))) <? 3)%nat.
    + rewrite titles_snoc. cbn [Suggestion.title diversify_investments].
      intuition congruence.
    + intuition congruence.
Qed.

(** The later rules and the default list neither add nor remove a title
    that they cannot produce. *)
Section LateRules.
Variable t : string.
Hypothesis not_high : forall c share, Suggestion.title (high_category c share) <> t.
Hypothesis not_goal : forall name progress, Suggestion.title (goal_behind name progress) <> t.
Hypothesis not_default : ~ In t (titles default_suggestions).

Lemma high_category_rule_keeps d total s s' :
  high_category_rule d total s = Ok s' -> (In t (titles s') <-> In t (titles s)).
Proof.
  unfold high_category_rule.
  destruct (max_item d) as [[c v]|]; [|intros [= <-]; tauto].
  destruct (total * 0.4 <? snd (c, v))%float; [|intros [= <-]; tauto].
  destruct (truediv (snd (c, v)) total) as [share|]; cbn [bind]; [|discriminate].
  intros [= <-]. rewrite titles_snoc.
  pose proof (not_high (fst (c, v)) (share * 100)%float). tauto.
Qed.

Lemma goal_rules_keep ugs : forall s s',
  goal_rules ugs s = Ok s' -> (In t (titles s') <-> In t (titles s)).
Proof.
  unfold goal_rules. induction ugs as [|g ugs IH]; intros s s'; cbn [fold_left].
  - intros [= <-]. tauto.
  - cbn [bind]. destruct (goal_rule s g) as [s1|e] eqn:E.
    + intros H. rewrite (IH s1 s' H). rewrite goal_rule_progress in E.
      destruct (goal_progress g) as [progress|]; [|discriminate].
      destruct (progress <? 0.25)%float; injection E as <-; [|tauto].
      rewrite titles_snoc. pose proof (not_goal (Goal.name g) progress). tauto.
    + rewrite fold_raise. discriminate.
Qed.

Lemma late_rules_keep d total ugs s2 s3 s4 :
  high_category_rule d total s2 = Ok s3 ->
  goal_rules ugs s3 = Ok s4 ->
  (In t (titles (if is_empty s4 then default_suggestions else s4)) <-> In t (titles s2)).
Proof.
  intros H3 H4.
  rewrite <- (high_category_rule_keeps _ _ _ _ H3), <- (goal_rules_keep _ _ _ H4).
  destruct s4 as [|x s4]; cbn [is_empty]; [|tauto].
  simpl in *. tauto.
Qed.
End LateRules.

(** The goal loop fails as soon as one goal has a positive target and no
    current amount. *)
Lemma goal_rules_undefined (ugs : list Goal.t) : forall s,
  (exists g, In g ugs /\ goal_progress g = None) ->
  goal_rules ugs s = Raise TypeError.
Proof.
  unfold goal_rules. induction ugs as [|g ugs IH]; intros s (g0 & Hin & Hg0); [destruct Hin|].
  cbn [fold_left bind]. rewrite goal_rule_progress.
  destruct (goal_progress g) as [progress|] eqn:P.
  - apply IH. exists g0. split; [|exact Hg0].
    destruct Hin as [<- | Hin]; [congruence | exact Hin].
  - apply fold_raise.
Qed.

Lemma goal_progress_all (ugs : list Goal.t) :
  (forall g, In g ugs -> goal_progress g <> None) \/
  (exists g, In g ugs /\ goal_progress g = None).
Proof.
  induction ugs as [|g ugs [IH | (g0 & Hin & Hg0)]].
  - left. intros g [].
  - destruct (goal_progress g) as [p|] eqn:P.
    + left. intros g' [<- | Hg']; [congruence | now apply IH].
    + right. exists g. split; [now left | exact P].
  - right. exists g0. split; [now right | exact Hg0].
Qed.

(** X13. The suggestions page never comes out empty. Either it is rendered
    with at least one suggestion; or the request fails with a division by
    zero, and then the user's expenses add up to zero and the highest
    category total is above 40 percent of that zero; or it fails with
    [TypeError], and then one of the user's goals has a positive target
    and no current amount. Conversely, whenever the total of the expenses
    is not zero and every goal with a positive target has a current
    amount, the page is rendered. *)
Theorem suggestions_outcome (env : Env) (st : State) (u : User.t) :
  current_user st = Some u ->
  let ues := user_expenses (User.id u) (db st) in
  let ugs := user_goals (User.id u) (db st) in
  let total := py_sum (map Expense.amount ues) in
  let rendered :=
    exists l, fst (handle env GetSuggestions st)
              = Render "suggestions.html" [] (CtxSuggestions l) /\ l <> [] in
  (rendered \/
   (fst (handle env GetSuggestions st) = ServerError ZeroDivisionError /\
    (total =? 0)%float = true /\
    exists c v, max_item (expense_by_category ues) = Some (c, v) /\
                (total * 0.4 <? v)%float = true) \/
   (fst (handle env GetSuggestions st) = ServerError TypeError /\
    exists g, In g ugs /\ (0 <? Goal.target_amount g)%float = true /\
              Goal.current_amount g = None)) /\
  ((total =? 0)%float = false ->
   (forall g, In g ugs -> (0 <? Goal.target_amount g)%float = true ->
              Goal.current_amount g <> None) ->
   rendered).
Proof.
  intros Hu ues ugs total rendered.
  assert (Hnone : forall g, goal_progress g = None <->
                            (0 <? Goal.target_amount g)%float = true /\
                            Goal.current_amount g = None).
  { intros g. unfold goal_progress.
    destruct (0 <? Goal.target_amount g)%float, (Goal.current_amount g);
      split; try discriminate; try tauto; intros [? ?]; discriminate. }
  subst rendered. cbn [handle]. unfold login_required. rewrite Hu.
  unfold suggestions, suggestion_list.
  destruct (ratio_rule_defined
              (py_sum (map Income.amount (user_incomes (User.id u) (db st))))
              (py_sum (map Expense.amount (user_expenses (User.id u) (db st)))) [])
    as [s1 ->].
  cbn [bind]. unfold high_category_rule.
  change (py_sum (map Expense.amount (user_expenses (User.id u) (db st)))) with total.
  change (user_expenses (User.id u) (db st)) with ues.
  change (user_goals (User.id u) (db st)) with ugs.
  assert (Hok : (forall g, In g ugs -> goal_progress g <> None) ->
            forall s3,
            exists l,
              fst match (s4 <- goal_rules ugs s3 ;;
                         Ok (if is_empty s4 then default_suggestions else s4)) with
                  | Ok l => (Render "suggestions.html" [] (CtxSuggestions l), st)
                  | Raise x => (ServerError x, st)
                  end
              = Render "suggestions.html" [] (CtxSuggestions l) /\ l <> []).
  { intros Hall s3. destruct (goal_rules_defined ugs s3 Hall) as [s4 ->].
    cbn [bind fst]. eexists. split; [reflexivity|].
    destruct s4; cbn [is_empty]; discriminate. }
  assert (Hrest : forall s3,
            (exists l,
               fst match (s4 <- goal_rules ugs s3 ;;
                          Ok (if is_empty s4 then default_suggestions else s4)) with
                   | Ok l => (Render "suggestions.html" [] (CtxSuggestions l), st)
                   | Raise x => (ServerError x, st)
                   end
               = Render "suggestions.html" [] (CtxSuggestions l) /\ l <> []) \/
            (fst match (s4 <- goal_rules ugs s3 ;;
                        Ok (if is_empty s4 then default_suggestions else s4)) with
                 | Ok l => (Render "suggestions.html" [] (CtxSuggestions l), st)
                 | Raise x => (ServerError x, st)
                 end
             = ServerError TypeError /\
             exists g, In g ugs /\ (0 <? Goal.target_amount g)%float = true /\
                       Goal.current_amount g = None)).
  { intros s3. destruct (goal_progress_all ugs) as [Hall | Hbad].
    - left. now apply Hok.
    - right. rewrite (goal_rules_undefined ugs s3 Hbad). cbn [bind fst].
      split; [reflexivity|]. destruct Hbad as (g & Hin & Hg). exists g.
      split; [exact Hin|]. now apply Hnone. }
  split.
  - destruct (max_item (expense_by_category ues)) as [[c v]|] eqn:M.
    + cbn [snd fst].
      destruct (total * 0.4 <? v)%float eqn:Habove.
      * unfold truediv, py_truediv. destruct (total =? 0)%float eqn:Hzero; cbn [bind].
        -- right. left. cbn [fst]. split; [reflexivity|]. split; [reflexivity|].
           now exists c, v.
        -- destruct (Hrest (investment_rules (user_investments (User.id u) (db st)) s1 ++
                            [high_category c (v / total * 100)%float])) as [H | H];
             [left; exact H | right; right; exact H].
      * destruct (Hrest (investment_rules (user_investments (User.id u) (db st)) s1))
          as [H | H]; [left; exact H | right; right; exact H].
    + destruct (Hrest (investment_rules (user_investments (User.id u) (db st)) s1))
        as [H | H]; [left; exact H | right; right; exact H].
  - intros Hzero Hgoals.
    assert (Hall : forall g, In g ugs -> goal_progress g <> None).
    { intros g Hg Hp. apply Hnone in Hp. destruct Hp as [Ht Hc].
      exact (Hgoals g Hg Ht Hc). }
    destruct (max_item (expense_by_category ues)) as [[c v]|]; [|now apply Hok].
    cbn [snd fst]. destruct (total * 0.4 <? v)%float; [|now apply Hok].
    unfold truediv, py_truediv. rewrite Hzero. cbn [bind]. now apply Hok.
Qed.

Lemma suggestions_outcome_witness :
  let st := logged_in bob demo_store in
  current_user st = Some bob /\
  exists l, fst (handle demo_env GetSuggestions st)
            = Render "suggestions.html" [] (CtxSuggestions l) /\ l <> [].
Proof.
  intros st. split; [reflexivity|].
  apply (proj2 (suggestions_outcome demo_env st bob eq_refl)).
  - reflexivity.
  - intros g [<- | []] _. discriminate.
Defined.

(** X14. On every suggestions page that is rendered, 'Start an Emergency
    Fund' is shown exactly when the user has no investment, and 'Diversify
    Investments' exactly when the user has investments of fewer than three
    distinct types. *)
Theorem investment_suggestions (env : Env) (st : State) (u : User.t) (shown : list string) :
  current_user st = Some u ->
  page_titles (fst (handle env GetSuggestions st)) = Some shown ->
  let uvs := user_investments (User.id u) (db st) in
  (In "Start an Emergency Fund" shown <-> uvs = []) /\
  (In "Diversify Investments" shown <->
   uvs <> [] /\ (List.length (nodup string_dec (map Investment.type uvs)) < 3)%nat).
Proof.
  intros Hu. cbn [handle]. unfold login_required. rewrite Hu. unfold suggestions.
  destruct (suggestion_list _ _ _ _) as [l|] eqn:E; cbn [fst page_titles]; [|discriminate].
  intros [= <-]. cbv zeta.
  destruct (suggestion_list_stages _ _ _ _ _ E) as (s1 & s3 & s4 & H1 & H3 & H4 & ->).
  fold (titles (if is_empty s4 then default_suggestions else s4)).
  pose proof (ratio_rule_only _ _ _ "Start an Emergency Fund" H1) as R1.
  pose proof (ratio_rule_only _ _ _ "Diversify Investments" H1) as R2.
  unfold ratio_title in R1, R2.
  split.
  - rewrite (late_rules_keep "Start an Emergency Fund") with (4 := H3) (5 := H4).
    + rewrite investment_rules_titles_all. intuition (try discriminate).
    + intros c share. discriminate.
    + intros name progress. discriminate.
    + simpl. intuition discriminate.
  - rewrite (late_rules_keep "Diversify Investments") with (4 := H3) (5 := H4).
    + rewrite investment_rules_titles_all, Nat.ltb_lt. intuition (try discriminate).
    + intros c share. discriminate.
    + intros name progress. discriminate.
    + simpl. intuition discriminate.
Qed.

Lemma investment_suggestions_witness :
  let st := logged_in alice demo_store in
  current_user st = Some alice /\
  (In "Diversify Investments"
      [ "Great Savings Rate"; "Diversify Investments"; "High Housing Expenses";
        "Goal: Laptop" ] <->
   user_investments (User.id alice) (db st) <> [] /\
   (List.length (nodup string_dec
                   (map Investment.type (user_investments (User.id alice) (db st)))) < 3)%nat).
Proof.
  intros st. split; [reflexivity|].
  exact (proj2 (investment_suggestions demo_env st alice _ eq_refl eq_refl)).
Defined.

(** The goal loop adds one title per goal that is less than a quarter of
    the way, and nothing else. *)
Lemma goal_rules_titles_all ugs : forall s s' t,
  goal_rules ugs s = Ok s' ->
  (In t (titles s') <->
   In t (titles s) \/
   exists g progress,
     In g ugs /\ goal_progress g = Some progress /\ (progress <? 0.25)%float = true /\
     t = String.append "Goal: " (Goal.name g)).
Proof.
  unfold goal_rules. induction ugs as [|g ugs IH]; intros s s' t; cbn [fold_left].
  - intros [= <-]. split; [tauto|]. intros [H | (g & p & [] & _)]. exact H.
  - cbn [bind]. rewrite goal_rule_progress.
    destruct (goal_progress g) as [progress|] eqn:G; [|rewrite fold_raise; discriminate].
    intros H. rewrite (IH _ s' t H).
    destruct (progress <? 0.25)%float eqn:P.
    + rewrite titles_snoc. cbn [Suggestion.title goal_behind]. split.
      * intros [[Hs | <-] | (g' & p' & Hin & Hg' & Hp & ->)].
        -- now left.
        -- right. exists g, progress. simpl. auto.
        -- right. exists g', p'. simpl. auto.
      * intros [Hs | (g' & p' & [<- | Hin] & Hg' & Hp & ->)].
        -- now left; left.
        -- now left; right.
        -- right. now exists g', p'.
    + split.
      * intros [Hs | (g' & p' & Hin & Hg' & Hp & ->)]; [now left|].
        right. exists g', p'. simpl. auto.
      * intros [Hs | (g' & p' & [<- | Hin] & Hg' & Hp & ->)]; [now left | congruence |].
        right. now exists g', p'.
Qed.

(** X15. On every suggestions page that is rendered, a title 'Goal: NAME'
    is shown exactly when the user has a goal of that name whose progress
    (current over target amount, or 0 when the target is not positive) is
    below a quarter; a goal with a target of zero or less is therefore
    always reported. *)
Theorem goal_suggestions (env : Env) (st : State) (u : User.t) (shown : list string) :
  current_user st = Some u ->
  page_titles (fst (handle env GetSuggestions st)) = Some shown ->
  let ugs := user_goals (User.id u) (db st) in
  (forall name,
     In (String.append "Goal: " name) shown <->
     exists g progress,
       In g ugs /\ Goal.name g = name /\ goal_progress g = Some progress /\
       (progress <? 0.25)%float = true) /\
  (forall g, In g ugs -> (0 <? Goal.target_amount g)%float = false ->
             In (String.append "Goal: " (Goal.name g)) shown).
Proof.
  intros Hu. cbn [handle]. unfold login_required. rewrite Hu. unfold suggestions.
  destruct (suggestion_list _ _ _ _) as [l|] eqn:E; cbn [fst page_titles]; [|discriminate].
  intros [= <-]. cbv zeta.
  destruct (suggestion_list_stages _ _ _ _ _ E) as (s1 & s3 & s4 & H1 & H3 & H4 & ->).
  fold (titles (if is_empty s4 then default_suggestions else s4)).
  assert (Hall : forall name,
            In (String.append "Goal: " name)
               (titles (if is_empty s4 then default_suggestions else s4)) <->
            exists g progress,
              In g (user_goals (User.id u) (db st)) /\ Goal.name g = name /\
              goal_progress g = Some progress /\ (progress <? 0.25)%float = true).
  { intros name.
    assert (Hs3 : ~ In (String.append "Goal: " name) (titles s3)).
    { rewrite (high_category_rule_keeps (String.append "Goal: " name)) with (2 := H3).
      - rewrite investment_rules_titles_all.
        pose proof (ratio_rule_only _ _ _ (String.append "Goal: " name) H1) as R.
        unfold ratio_title in R. intuition discriminate.
      - intros c share. discriminate. }
    assert (Hs4 : In (String.append "Goal: " name) (titles s4) <->
                  exists g progress,
                    In g (user_goals (User.id u) (db st)) /\ Goal.name g = name /\
                    goal_progress g = Some progress /\ (progress <? 0.25)%float = true).
    { rewrite (goal_rules_titles_all _ _ _ _ H4). split.
      - intros [H | (g & p & Hin & Hg & Hp & Heq)]; [contradiction|].
        exists g, p. injection Heq as Heq. auto.
      - intros (g & p & Hin & <- & Hg & Hp). right. now exists g, p. }
    destruct s4 as [|x s4]; cbn [is_empty]; [|exact Hs4].
    rewrite <- Hs4. simpl. intuition discriminate. }
  split; [exact Hall|].
  intros g Hin Htarget. apply Hall. exists g, 0%float.
  split; [exact Hin|]. split; [reflexivity|].
  unfold goal_progress. rewrite Htarget. split; reflexivity.
Qed.

Lemma goal_suggestions_witness :
  let st := logged_in alice demo_store in
  current_user st = Some alice /\
  (In "Goal: Laptop"
      [ "Great Savings Rate"; "Diversify Investments"; "High Housing Expenses";
        "Goal: Laptop" ] <->
   exists g progress,
     In g (user_goals (User.id alice) (db st)) /\ Goal.name g = "Laptop" /\
     goal_progress g = Some progress /\ (progress <? 0.25)%float = true).
Proof.
  intros st. split; [reflexivity|].
  exact (proj1 (goal_suggestions demo_env st alice _ eq_refl eq_refl) "Laptop").
Defined.

(* ================================================================= *)
(** ** The keys of the grouped totals *)

Section GroupingKeys.
Context {A : Type}.
Variable zero : A.
Variable add : A -> A -> A.
Variable R : Type.
Variable key : R -> string.
Variable val : R -> A.

Lemma group_step_keys (d : dict A) (r : R) :
  NoDup (dict_keys d) ->
  NoDup (dict_keys (group_step zero add key val d r)) /\
  forall c, In c (dict_keys (group_step zero add key val d r)) <->
            In c (dict_keys d) \/ c = key r.
Proof.
  intros Hd. unfold group_step, dict_mem.
  destruct (dict_get (key r) d) as [v|] eqn:E.
  - rewrite E. split.
    + now apply dict_set_keys_NoDup.
    + intros c. apply dict_set_keys_In.
  - rewrite dict_get_set_same. split.
    + now apply dict_set_keys_NoDup, dict_set_keys_NoDup.
    + intros c. rewrite !dict_set_keys_In. tauto.
Qed.

Lemma group_fold_keys (rs : list R) : forall d : dict A,
  NoDup (dict_keys d) ->
  NoDup (dict_keys (fold_left (group_step zero add key val) rs d)) /\
  forall c, In c (dict_keys (fold_left (group_step zero add key val) rs d)) <->
            In c (dict_keys d) \/ exists r, In r rs /\ key r = c.
Proof.
  induction rs as [|r rs IH]; intros d Hd; cbn [fold_left].
  - split; [exact Hd|]. intros c. split; [tauto|]. intros [H | (r & [] & _)]. exact H.
  - destruct (group_step_keys d r Hd) as [Hn Hin].
    destruct (IH _ Hn) as [Hn' Hin']. split; [exact Hn'|].
    intros c. rewrite Hin', Hin. split.
    + intros [[H | ->] | (r' & Hr' & <-)].
      * now left.
      * right. exists r. simpl. auto.
      * right. exists r'. simpl. auto.
    + intros [H | (r' & [<- | Hr'] & <-)].
      * now left; left.
      * now left; right.
      * right. now exists r'.
Qed.

Lemma group_by_keys (rs : list R) :
  NoDup (dict_keys (group_by zero add key val rs)) /\
  forall c, In c (dict_keys (group_by zero add key val rs)) <->
            exists r, In r rs /\ key r = c.
Proof.
  destruct (group_fold_keys rs [] (NoDup_nil _)) as [Hn Hin]. split; [exact Hn|].
  intros c. unfold group_by. rewrite Hin. simpl. tauto.
Qed.
End GroupingKeys.

(** In a dictionary, an item is found under its key. *)
Lemma dict_get_item {V : Type} (k : string) (v : V) (d : dict V) :
  dict_get k d = Some v -> In (k, v) d.
Proof.
  induction d as [|[k0 v0] d IH]; cbn [dict_get]; [discriminate|].
  destruct (String.eqb_spec k0 k) as [->|Hne].
  - intros [= ->]. now left.
  - intros H. right. now apply IH.
Qed.

Lemma dict_item_get {V : Type} (k : string) (v : V) (d : dict V) :
  NoDup (dict_keys d) -> In (k, v) d -> dict_get k d = Some v.
Proof.
  unfold dict_keys. induction d as [|[k0 v0] d IH]; cbn [map fst dict_get]; [intros _ []|].
  intros Hd [[= -> ->] | Hin].
  - now rewrite String.eqb_refl.
  - inversion Hd as [|? ? Hk0 Hd']; subst.
    destruct (String.eqb_spec k0 k) as [->|Hne].
    + exfalso. apply Hk0. change k with (fst (k, v)). now apply in_map.
    + now apply IH.
Qed.

(** A list of optional values is all values, or holds a missing one. *)
Lemma values_or_null (l : list (option float)) :
  (exists values, l = map Some values) \/ In None l.
Proof.
  induction l as [|[v|] l [(values & ->) | H]].
  - left. now exists [].
  - left. now exists (v :: values).
  - right. now right.
  - right. now left.
  - right. now left.
Qed.

Lemma investments_by_type_raise (uvs : list Investment.t) (e : exn) :
  fold_left
    (fun acc i =>
       d <- acc ;;
       v <- number (Investment.current_value i) ;;
       Ok (group_step 0%float PrimFloat.add fst snd d (Investment.type i, v)))
    uvs (Raise e)
  = Raise e.
Proof. induction uvs as [|i uvs IH]; cbn [fold_left bind]; auto. Qed.

Lemma investments_by_type_null (uvs : list Investment.t) :
  In None (map Investment.current_value uvs) ->
  investments_by_type uvs = Raise TypeError.
Proof.
  unfold investments_by_type. generalize (@nil (string * float)) as d.
  induction uvs as [|i uvs IH]; intros d; cbn [map In fold_left bind]; [tauto|].
  intros [Hi | Hrest].
  - rewrite Hi. cbn [number bind]. apply investments_by_type_raise.
  - destruct (Investment.current_value i); cbn [number bind].
    + now apply IH.
    + apply investments_by_type_raise.
Qed.

Lemma fst_combine {A B : Type} (l : list A) : forall l' : list B,
  List.length l = List.length l' -> map fst (combine l l') = l.
Proof.
  induction l as [|a l IH]; intros [|b l']; cbn [List.length combine map fst];
    try discriminate; [reflexivity|].
  intros [= H]. now rewrite IH.
Qed.

(* ================================================================= *)
(** ** Sums that are exact *)











Section ExactGroupingFacts.
Variable R : Type.
Variable key : R -> string.
Variable val : R -> float.



End ExactGroupingFacts.





(** X16. The three grouped totals (expenses and incomes by category,
    investments by type) have one entry per category or type that occurs
    among the rows, and no other entry; the grouping of the investments
    is built when every investment has a current value, and fails with
    [TypeError] otherwise. *)
Theorem grouping_keys :
  (forall ues : list Expense.t,
     NoDup (dict_keys (expense_by_category ues)) /\
     forall c, In c (dict_keys (expense_by_category ues)) <->
               exists e, In e ues /\ Expense.category e = c) /\
  (forall uis : list Income.t,
     NoDup (dict_keys (income_by_category uis)) /\
     forall c, In c (dict_keys (income_by_category uis)) <->
               exists i, In i uis /\ Income.category i = c) /\
  (forall uvs : list Investment.t,
     match investments_by_type uvs with
     | Ok by_type =>
         ~ In None (map Investment.current_value uvs) /\
         NoDup (dict_keys by_type) /\
         forall c, In c (dict_keys by_type) <->
                   exists i, In i uvs /\ Investment.type i = c
     | Raise x => x = TypeError /\ In None (map Investment.current_value uvs)
     end).
Proof.
  split; [|split]; intros rs; try apply group_by_keys.
  destruct (values_or_null (map Investment.current_value rs)) as [(values & Hv) | Hnull].
  - rewrite (investments_by_type_ok _ _ Hv).
    destruct (group_by_keys 0%float PrimFloat.add _ fst snd
                (combine (map Investment.type rs) values)) as [Hn Hin].
    split; [|split; [exact Hn|]].
    + rewrite Hv. rewrite in_map_iff. intros (v & [=] & _).
    + intros c. rewrite Hin.
      assert (Hlen : List.length (map Investment.type rs) = List.length values).
      { rewrite length_map. rewrite <- (length_map Investment.current_value), Hv.
        apply length_map. }
      pose proof (fst_combine _ _ Hlen) as Hfst. split.
      * intros (p & Hp & <-).
        assert (Hi : In (fst p) (map Investment.type rs)).
        { rewrite <- Hfst. now apply in_map. }
        apply in_map_iff in Hi. destruct Hi as (i & Hi & Hrs). now exists i.
      * intros (i & Hi & <-).
        assert (Hc : In (Investment.type i) (map fst (combine (map Investment.type rs) values))).
        { rewrite Hfst. now apply in_map. }
        apply in_map_iff in Hc. destruct Hc as (q & Hq & Hqin). now exists q.
  - rewrite (investments_by_type_null _ Hnull). now split.
Qed.

(* ================================================================= *)
(** ** The highest category *)

(** [<] on floats is irreflexive and transitive, NaN included. *)
Lemma SFltb_irrefl (a : spec_float) : SFltb a a = false.
Proof.
  unfold SFltb, SFcompare. destruct a as [s|s| |s m e]; try destruct s; try reflexivity.
  - rewrite Z.compare_refl. change (Pos.compare_cont Eq m m) with (Pos.compare m m).
    now rewrite Pos.compare_refl.
  - rewrite Z.compare_refl. change (Pos.compare_cont Eq m m) with (Pos.compare m m).
    now rewrite Pos.compare_refl.
Qed.

Lemma SFltb_trans (a b c : spec_float) :
  SFltb a b = true -> SFltb b c = true -> SFltb a c = true.
Proof.
  unfold SFltb, SFcompare.
  destruct a as [s1|s1| |s1 m1 e1], b as [s2|s2| |s2 m2 e2], c as [s3|s3| |s3 m3 e3];
    try destruct s1; try destruct s2; try destruct s3;
    try discriminate; try reflexivity;
    change (Pos.compare_cont Eq m1 m2) with (Pos.compare m1 m2);
    change (Pos.compare_cont Eq m2 m3) with (Pos.compare m2 m3);
    change (Pos.compare_cont Eq m1 m3) with (Pos.compare m1 m3);
    destruct (Z.compare_spec e1 e2), (Z.compare_spec e2 e3), (Z.compare_spec e1 e3);
    try discriminate; try reflexivity; try (exfalso; lia);
    destruct (Pos.compare_spec m1 m2), (Pos.compare_spec m2 m3), (Pos.compare_spec m1 m3);
    cbn [CompOpp]; try discriminate; try reflexivity; exfalso; lia.
Qed.

Lemma ltb_irrefl (x : float) : (x <? x)%float = false.
Proof. rewrite ltb_spec. apply SFltb_irrefl. Qed.

Lemma ltb_trans (x y z : float) :
  (x <? y)%float = true -> (y <? z)%float = true -> (x <? z)%float = true.
Proof. rewrite !ltb_spec. apply SFltb_trans. Qed.

Lemma ltb_asym (x y : float) : (x <? y)%float = true -> (y <? x)%float = false.
Proof.
  intros H. destruct (y <? x)%float eqn:E; [|reflexivity].
  pose proof (ltb_trans _ _ _ H E) as F. rewrite ltb_irrefl in F. discriminate.
Qed.

(** The scan of [max]: the result is an item seen, the starting item or
    one above it, and no item seen is above the result. *)
Lemma max_scan (rest : list (string * float)) : forall best,
  let final := fold_left (fun best it' => if (snd best <? snd it')%float then it' else best)
                 rest best in
  (final = best \/ (snd best <? snd final)%float = true) /\
  In final (best :: rest) /\
  forall it, In it rest -> (snd final <? snd it)%float = false.
Proof.
  induction rest as [|x rest IH]; intros best; cbn [fold_left].
  - cbv zeta. split; [now left|]. split; [now left|]. intros it [].
  - cbv zeta in *. destruct (snd best <? snd x)%float eqn:C.
    + destruct (IH x) as (Hchain & Hin & Hmax). split; [|split].
      * right. destruct Hchain as [-> | Hlt]; [exact C|]. exact (ltb_trans _ _ _ C Hlt).
      * now right.
      * intros it [<- | Hit]; [|now apply Hmax].
        destruct Hchain as [-> | Hlt]; [apply ltb_irrefl | now apply ltb_asym].
    + destruct (IH best) as (Hchain & Hin & Hmax).
      set (final := fold_left _ rest best) in *.
      split; [exact Hchain|]. split.
      * destruct Hin as [<- | Hin]; [now left | now right; right].
      * intros it [<- | Hit]; [|now apply Hmax].
        destruct Hchain as [-> | Hlt]; [exact C|].
        destruct (snd final <? snd x)%float eqn:F; [|reflexivity].
        rewrite (ltb_trans _ _ _ Hlt F) in C. discriminate.
Qed.

Lemma max_item_spec (d : dict float) (c : string) (v : float) :
  max_item d = Some (c, v) ->
  In (c, v) d /\ forall c' v', In (c', v') d -> (v <? v')%float = false.
Proof.
  destruct d as [|it rest]; cbn [max_item]; [discriminate|]. intros [= H].
  destruct (max_scan rest it) as (Hchain & Hin & Hmax). rewrite H in Hchain, Hin, Hmax.
  split; [exact Hin|]. intros c' v' [-> | Hit].
  - destruct Hchain as [Heq | Hlt].
    + inversion Heq. apply ltb_irrefl.
    + now apply ltb_asym.
  - exact (Hmax _ Hit).
Qed.

Lemma max_item_none (d : dict float) : max_item d = None <-> d = [].
Proof. destruct d; cbn [max_item]; split; congruence. Qed.

Lemma high_category_rule_titles_all d total s s' t :
  high_category_rule d total s = Ok s' ->
  (In t (titles s') <->
   In t (titles s) \/
   exists c v, max_item d = Some (c, v) /\ (total * 0.4 <? v)%float = true /\
               t = String.append "High " (String.append c " Expenses")).
Proof.
  unfold high_category_rule. destruct (max_item d) as [[c v]|].
  - cbn [fst snd]. destruct (total * 0.4 <? v)%float eqn:Habove.
    + destruct (truediv v total) as [share|]; cbn [bind]; [|discriminate].
      intros [= <-]. rewrite titles_snoc. cbn [Suggestion.title high_category]. split.
      * intros [H | <-]; [now left|]. right. now exists c, v.
      * intros [H | (c' & v' & [= <- <-] & _ & ->)]; [now left | now right].
    + intros [= <-]. split; [tauto|].
      intros [H | (c' & v' & [= <- <-] & Hab & _)]; [exact H | congruence].
  - intros [= <-]. split; [tauto|]. intros [H | (c' & v' & [=] & _)]. exact H.
Qed.

Lemma high_title_prefix (c : string) :
  String.prefix "High " (String.append "High " (String.append c " Expenses")) = true.
Proof. generalize (String.append c " Expenses"). intros s. destruct s; reflexivity. Qed.

(** X17. On every suggestions page that is rendered, a title that starts
    with 'High ' names a category of the user's expenses whose total is
    above 40 percent of all the user's expenses and is exceeded by no other
    category's total; and the category that [max] selects is reported
    whenever its total is above that threshold. *)
Theorem high_category_suggestion (env : Env) (st : State) (u : User.t)
  (shown : list string) :
  current_user st = Some u ->
  page_titles (fst (handle env GetSuggestions st)) = Some shown ->
  let ues := user_expenses (User.id u) (db st) in
  let total := py_sum (map Expense.amount ues) in
  let by_category := expense_by_category ues in
  (forall t, String.prefix "High " t = true -> In t shown ->
     exists c v,
       t = String.append "High " (String.append c " Expenses") /\
       dict_get c by_category = Some v /\
       (total * 0.4 <? v)%float = true /\
       forall c' v', dict_get c' by_category = Some v' -> (v <? v')%float = false) /\
  (forall c v, max_item by_category = Some (c, v) -> (total * 0.4 <? v)%float = true ->
     In (String.append "High " (String.append c " Expenses")) shown).
Proof.
  intros Hu. cbn [handle]. unfold login_required. rewrite Hu. unfold suggestions.
  destruct (suggestion_list _ _ _ _) as [l|] eqn:E; cbn [fst page_titles]; [|discriminate].
  intros [= <-]. cbv zeta.
  destruct (suggestion_list_stages _ _ _ _ _ E) as (s1 & s3 & s4 & H1 & H3 & H4 & ->).
  fold (titles (if is_empty s4 then default_suggestions else s4)).
  set (ues := user_expenses (User.id u) (db st)) in *.
  set (total := py_sum (map Expense.amount ues)) in *.
  assert (Hkey : forall t, String.prefix "High " t = true ->
            (In t (titles (if is_empty s4 then default_suggestions else s4)) <->
             exists c v, max_item (expense_by_category ues) = Some (c, v) /\
                         (total * 0.4 <? v)%float = true /\
                         t = String.append "High " (String.append c " Expenses"))).
  { intros t Hp.
    assert (Hs2 : ~ In t (titles (investment_rules (user_investments (User.id u) (db st)) s1))).
    { rewrite investment_rules_titles_all.
      pose proof (ratio_rule_only _ _ _ t H1) as R. unfold ratio_title in R.
      intros [H | [[-> _] | [-> _]]]; [destruct (R H) as [-> | ->]| |]; discriminate. }
    assert (Hs4 : In t (titles s4) <->
                  exists c v, max_item (expense_by_category ues) = Some (c, v) /\
                              (total * 0.4 <? v)%float = true /\
                              t = String.append "High " (String.append c " Expenses")).
    { rewrite (goal_rules_keep t) with (2 := H4).
      - rewrite (high_category_rule_titles_all _ _ _ _ t H3). tauto.
      - intros name progress Heq. rewrite <- Heq in Hp. discriminate. }
    destruct s4 as [|x s4]; cbn [is_empty]; [|exact Hs4].
    rewrite <- Hs4. split; [|intros []].
    simpl. intros [<- | [<- | [<- | []]]]; discriminate. }
  split.
  - intros t Hp Hin. apply (Hkey t Hp) in Hin. destruct Hin as (c & v & M & Habove & ->).
    destruct (max_item_spec _ _ _ M) as [Hitem Hmax].
    exists c, v. split; [reflexivity|]. split; [|split; [exact Habove|]].
    + apply dict_item_get; [|exact Hitem].
      apply (group_by_keys 0%float PrimFloat.add Expense.t Expense.category Expense.amount).
    + intros c' v' G. apply (Hmax c' v'). now apply dict_get_item.
  - intros c v M Habove. apply Hkey; [apply high_title_prefix|]. now exists c, v.
Qed.

Lemma high_category_suggestion_witness :
  let st := logged_in alice demo_store in
  let ues := user_expenses (User.id alice) (db st) in
  current_user st = Some alice /\
  exists c v,
    "High Housing Expenses" = String.append "High " (String.append c " Expenses") /\
    dict_get c (expense_by_category ues) = Some v /\
    (py_sum (map Expense.amount ues) * 0.4 <? v)%float = true /\
    forall c' v', dict_get c' (expense_by_category ues) = Some v' -> (v <? v')%float = false.
Proof.
  intros st ues. split; [reflexivity|].
  apply (proj1 (high_category_suggestion demo_env st alice _ eq_refl eq_refl)
           "High Housing Expenses" eq_refl).
  right. right. left. reflexivity.
Defined.

(* ================================================================= *)
(** ** Expenses outside the default categories *)

Lemma append_length (a s : string) :
  String.length (String.append a s) = (String.length a + String.length s)%nat.
Proof. induction a as [|x a IH]; cbn [String.append String.length]; [reflexivity|]. now rewrite IH. Qed.

Lemma append_cancel_r (s : string) : forall a b,
  String.append a s = String.append b s -> a = b.
Proof.
  induction a as [|x a IH]; intros [|y b] H; cbn [String.append] in H.
  - reflexivity.
  - exfalso. apply (f_equal String.length) in H.
    cbn [String.length] in H. rewrite append_length in H. lia.
  - exfalso. apply (f_equal String.length) in H.
    cbn [String.length] in H. rewrite append_length in H. lia.
  - injection H as -> H. f_equal. now apply IH.
Qed.

Lemma high_title_inj (c c' : string) :
  String.append "High " (String.append c " Expenses")
  = String.append "High " (String.append c' " Expenses") ->
  c = c'.
Proof.
  intros H. cbn [String.append] in H. injection H as H. now apply append_cancel_r in H.
Qed.

(** A title that starts with 'High ' is on the page only through the
    highest-category rule. *)
Lemma suggestion_list_high_titles ues uis ugs uvs l t :
  String.prefix "High " t = true ->
  suggestion_list ues uis ugs uvs = Ok l ->
  (In t (titles l) <->
   exists c v, max_item (expense_by_category ues) = Some (c, v) /\
               (py_sum (map Expense.amount ues) * 0.4 <? v)%float = true /\
               t = String.append "High " (String.append c " Expenses")).
Proof.
  intros Hp E.
  destruct (suggestion_list_stages _ _ _ _ _ E) as (s1 & s3 & s4 & H1 & H3 & H4 & ->).
  assert (Hs2 : ~ In t (titles (investment_rules uvs s1))).
  { rewrite investment_rules_titles_all.
    pose proof (ratio_rule_only _ _ _ t H1) as R. unfold ratio_title in R.
    intros [H | [[-> _] | [-> _]]]; [destruct (R H) as [-> | ->]| |]; discriminate. }
  assert (Hs4 : In t (titles s4) <->
                exists c v, max_item (expense_by_category ues) = Some (c, v) /\
                            (py_sum (map Expense.amount ues) * 0.4 <? v)%float = true /\
                            t = String.append "High " (String.append c " Expenses")).
  { rewrite (goal_rules_keep t) with (2 := H4).
    - rewrite (high_category_rule_titles_all _ _ _ _ t H3). tauto.
    - intros name progress Heq. rewrite <- Heq in Hp. discriminate. }
  destruct s4 as [|x s4]; cbn [is_empty]; [|exact Hs4].
  rewrite <- Hs4. split; [|intros []].
  simpl. intros [<- | [<- | [<- | []]]]; discriminate.
Qed.

(** The entry of a category that occurs among the rows. *)
Lemma expense_by_category_of (rows : list Expense.t) (x : Expense.t) :
  In x rows ->
  dict_get (Expense.category x) (expense_by_category rows)
  = Some (py_sum (map Expense.amount
                    (filter (fun y => String.eqb (Expense.category y) (Expense.category x))
                       rows))).
Proof.
  intros Hin. unfold expense_by_category. rewrite group_by_get.
  assert (Hx : In x (filter (fun y => String.eqb (Expense.category y) (Expense.category x))
                       rows)).
  { apply filter_In. split; [exact Hin | apply String.eqb_refl]. }
  destruct (filter _ rows); [destruct Hx | reflexivity].
Qed.

(** C10. Let [e] be an expense of the user with a category outside the 14
    defaults, stored between the rows [l1] and [l2]. In the summary (which
    is answered when every investment of the user has a current value) the
    amount of [e] is added into [total_expenses] and into the member of its
    category in [expense_by_category]. On the suggestions page, whenever
    it is rendered, the total with the amount of [e] decides between
    'Reduce Expenses' and 'Great Savings Rate', and 'High CATEGORY
    Expenses' for the category of [e] is shown only if the total of that
    category, with the amount of [e], is above 40 percent of the total and
    no category's total is above it, and is shown if it is above 40 percent
    of the total and above every other category's total. The budget page
    is the same with and without [e]: no [spent_amount], percentage or
    status changes. *)
Theorem uncategorised_expense (env : Env) (st : State) (u : User.t)
  (e : Expense.t) (l1 l2 : list Expense.t) :
  current_user st = Some u ->
  expenses (db st) = l1 ++ l2 ->
  Expense.user_id e = User.id u ->
  ~ In (Expense.category e) default_expense_categories ->
  let st' :=
    mkState
      (mkStore (users (db st)) (l1 ++ e :: l2) (incomes (db st)) (goals (db st))
         (investments (db st)) (budgets (db st)))
      (session_user_id st) (session_username st) in
  let mine := filter (fun x => Expense.user_id x =? User.id u) in
  let filed := filter (fun x => String.eqb (Expense.category x) (Expense.category e)) in
  let rows := mine l1 ++ e :: mine l2 in
  let total :=
    py_sum (map Expense.amount (mine l1) ++ Expense.amount e :: map Expense.amount (mine l2)) in
  let in_category :=
    py_sum (map Expense.amount (filed (mine l1)) ++
            Expense.amount e :: map Expense.amount (filed (mine l2))) in
  let spent c :=
    py_sum (map Expense.amount
              (filter (fun x => String.eqb (Expense.category x) c) rows)) in
  let income :=
    py_sum (map Income.amount
              (filter (fun i => Income.user_id i =? User.id u) (incomes (db st)))) in
  let high_title :=
    String.append "High " (String.append (Expense.category e) " Expenses") in
  (forall values,
     map Investment.current_value
       (filter (fun i => Investment.user_id i =? User.id u) (investments (db st)))
     = map Some values ->
     exists body members,
       handle env GetFinancialSummary st' = (Jsonify 200 body, st') /\
       json_field "total_expenses" body = Some (JNum total) /\
       json_field "expense_by_category" body = Some (JDict members) /\
       dict_get (Expense.category e) members = Some (JNum in_category)) /\
  (forall shown,
     page_titles (fst (handle env GetSuggestions st')) = Some shown ->
     ((0 <? income)%float = true ->
      (In "Reduce Expenses" shown <-> (0.9 <? total / income)%float = true) /\
      (In "Great Savings Rate" shown <-> (total / income <? 0.5)%float = true)) /\
     (In high_title shown ->
      (total * 0.4 <? in_category)%float = true /\
      forall x, In x rows -> (in_category <? spent (Expense.category x))%float = false) /\
     ((total * 0.4 <? in_category)%float = true ->
      (forall x, In x rows -> Expense.category x <> Expense.category e ->
                 (spent (Expense.category x) <? in_category)%float = true) ->
      In high_title shown)) /\
  fst (handle env GetBudgetPlanner st') = fst (handle env GetBudgetPlanner st).
Proof.
  intros Hu Hexp Howner Hcat st' mine filed rows total in_category spent income high_title.
  assert (Hu' : current_user st' = Some u) by exact Hu.
  assert (Hmine : user_expenses (User.id u) (db st') = rows).
  { unfold user_expenses, st'. cbn [db expenses].
    apply filter_insert. rewrite Howner. apply Z.eqb_refl. }
  assert (Htotal : py_sum (map Expense.amount rows) = total).
  { unfold rows, total. rewrite map_app. reflexivity. }
  assert (Hspent : spent (Expense.category e) = in_category).
  { unfold spent, rows, in_category.
    rewrite filter_insert by apply String.eqb_refl. rewrite map_app. reflexivity. }
  assert (He : In e rows) by (unfold rows; apply in_elt).
  assert (Hget : forall x, In x rows ->
            dict_get (Expense.category x) (expense_by_category rows)
            = Some (spent (Expense.category x))).
  { intros x Hx. exact (expense_by_category_of rows x Hx). }
  assert (Hkeys : NoDup (dict_keys (expense_by_category rows))).
  { apply (group_by_keys 0%float PrimFloat.add Expense.t Expense.category Expense.amount). }
  cbn [handle]. unfold login_required. rewrite Hu, Hu'.
  split; [|split].
  - intros values Hv. unfold get_financial_summary.
    assert (Hinv : map Investment.current_value (user_investments (User.id u) (db st'))
                   = map Some values) by exact Hv.
    rewrite (financial_summary_ok _ _ _ _ Hinv), Hmine, Htotal.
    eexists. exists (map (fun kv => (fst kv, JNum (snd kv))) (expense_by_category rows)).
    split; [reflexivity|]. split; [reflexivity|]. split; [reflexivity|].
    rewrite json_of_dict_get, (Hget e He), Hspent. reflexivity.
  - intros shown. unfold suggestions. rewrite Hmine.
    destruct (suggestion_list _ _ _ _) as [l|] eqn:E; cbn [fst page_titles]; [|discriminate].
    intros [= <-]. fold (titles l).
    split; [|split].
    + intros Hpos.
      destruct (suggestion_list_ratio_titles _ _ _ _ l "Reduce Expenses"
                  (or_introl eq_refl) E) as (s1 & Hrule & Hreduce).
      destruct (suggestion_list_ratio_titles _ _ _ _ l "Great Savings Rate"
                  (or_intror eq_refl) E) as (s1' & Hrule' & Hgreat).
      assert (s1' = s1) as -> by congruence. clear Hrule'.
      rewrite Hreduce, Hgreat. rewrite Htotal in Hrule.
      exact (proj1 (ratio_rule_titles _ _ _ Hrule) Hpos).
    + intros Hin.
      apply (suggestion_list_high_titles _ _ _ _ _ _ (high_title_prefix _) E) in Hin.
      destruct Hin as (c & v & M & Habove & Heq).
      apply high_title_inj in Heq. subst c. rewrite Htotal in Habove.
      destruct (max_item_spec _ _ _ M) as [Hitem Hmax].
      pose proof (dict_item_get _ _ _ Hkeys Hitem) as G.
      rewrite (Hget e He), Hspent in G. injection G as <-.
      split; [exact Habove|].
      intros x Hx. apply (Hmax (Expense.category x)). apply dict_get_item. now apply Hget.
    + intros Habove Hothers.
      apply (suggestion_list_high_titles _ _ _ _ _ _ (high_title_prefix _) E).
      destruct (max_item (expense_by_category rows)) as [[c v]|] eqn:M.
      * destruct (max_item_spec _ _ _ M) as [Hitem Hmax].
        assert (Hc : c = Expense.category e).
        { destruct (string_dec c (Expense.category e)) as [Heq | Hne]; [exact Heq|].
          exfalso.
          assert (Hkey : In c (dict_keys (expense_by_category rows))).
          { unfold dict_keys. change c with (fst (c, v)). now apply in_map. }
          apply (group_by_keys 0%float PrimFloat.add Expense.t Expense.category
                   Expense.amount) in Hkey.
          destruct Hkey as (x & Hx & Hxc).
          pose proof (dict_item_get _ _ _ Hkeys Hitem) as G.
          rewrite <- Hxc, (Hget x Hx) in G. injection G as <-.
          assert (Hlt : (spent (Expense.category x) <? in_category)%float = true).
          { apply Hothers; [exact Hx | congruence]. }
          assert (Hin : In (Expense.category e, in_category) (expense_by_category rows)).
          { apply dict_get_item. rewrite (Hget e He), Hspent. reflexivity. }
          rewrite (Hmax _ _ Hin) in Hlt. discriminate. }
        subst c. pose proof (dict_item_get _ _ _ Hkeys Hitem) as G.
        rewrite (Hget e He), Hspent in G. injection G as <-.
        exists (Expense.category e), in_category.
        split; [reflexivity|]. split; [now rewrite Htotal | reflexivity].
      * exfalso. apply max_item_none in M. rewrite M in Hget.
        specialize (Hget e He). discriminate.
  - unfold budget_planner. cbn [fst].
    assert (Hbud : user_budgets (User.id u) (db st') = user_budgets (User.id u) (db st))
      by reflexivity.
    rewrite Hbud, Hmine.
    unfold ensure_budgets.
    rewrite (ensure_budgets_dict (User.id u) default_expense_categories (db st') (db st)).
    assert (Hues : user_expenses (User.id u) (db st) = mine l1 ++ mine l2).
    { unfold user_expenses, mine. rewrite Hexp. apply filter_app. }
    rewrite Hues. unfold rows. rewrite (budget_data_skip _ e (mine l1) (mine l2) Hcat).
    destruct (budget_data _ (mine l1 ++ mine l2)); cbn [fst]; reflexivity.
Qed.

(** Groceries for 100 and a drone for 400 against an income of 1000. *)
Lemma uncategorised_expense_witness :
  let drone := Expense.mk 2 "Drone" 400%float "Gadgets" (march 9) 1 in
  let groceries := Expense.mk 1 "Groceries" 100%float "Food" (march 4) 1 in
  let income := [ Income.mk 1 "Pay" 1000%float "Salary" (march 1) 1 ] in
  let st := logged_in alice (mkStore [ alice ] [ groceries ] income [] [] []) in
  let st' := logged_in alice hobby_store in
  (current_user st = Some alice /\ ~ In "Gadgets" default_expense_categories) /\
  (exists body members,
     handle demo_env GetFinancialSummary st' = (Jsonify 200 body, st') /\
     json_field "total_expenses" body = Some (JNum 500%float) /\
     json_field "expense_by_category" body = Some (JDict members) /\
     dict_get "Gadgets" members = Some (JNum 400%float)) /\
  json_field "expense_by_category"
    match fst (handle demo_env GetFinancialSummary st') with
    | Jsonify _ body => body
    | _ => JNone
    end
  = Some (JDict [ ("Food", JNum 100%float); ("Gadgets", JNum 400%float) ]) /\
  page_titles (fst (handle demo_env GetSuggestions st'))
  = Some [ "Start an Emergency Fund"; "High Gadgets Expenses" ] /\
  In "High Gadgets Expenses" [ "Start an Emergency Fund"; "High Gadgets Expenses" ] /\
  fst (handle demo_env GetBudgetPlanner st') = fst (handle demo_env GetBudgetPlanner st).
Proof.
  intros drone groceries income st st'.
  assert (Hcat : ~ In (Expense.category drone) default_expense_categories).
  { simpl. intuition discriminate. }
  split; [split; [reflexivity | exact Hcat]|].
  pose proof (uncategorised_expense demo_env st alice drone [ groceries ] []
                eq_refl eq_refl eq_refl Hcat) as H.
  destruct H as (Hsummary & Hsuggestions & Hbudget).
  split; [exact (Hsummary [] eq_refl)|].
  split; [vm_compute; reflexivity|].
  split; [vm_compute; reflexivity|].
  split; [|exact Hbudget].
  apply (Hsuggestions [ "Start an Emergency Fund"; "High Gadgets Expenses" ]).
  - vm_compute. reflexivity.
  - reflexivity.
  - intros x [<- | [<- | []]] Hne; [reflexivity | contradiction].
Defined.

(* ================================================================= *)
(** ** The default suggestions *)

Lemma no_titles (s : list Suggestion.t) : (forall t, ~ In t (titles s)) -> s = [].
Proof.
  destruct s as [|x s]; [reflexivity|]. intros H.
  exfalso. apply (H (Suggestion.title x)). now left.
Qed.

(** X18. The three default suggestions are shown only to a user who has
    investments of at least three distinct types, and then they are all
    that is shown: a user without any data gets 'Start an Emergency Fund'
    instead. *)
Theorem default_suggestions_shown (env : Env) (st : State) (u : User.t)
  (shown : list string) :
  current_user st = Some u ->
  page_titles (fst (handle env GetSuggestions st)) = Some shown ->
  In "Track Your Expenses" shown ->
  shown = titles default_suggestions /\
  (3 <= List.length (nodup string_dec
                       (map Investment.type (user_investments (User.id u) (db st)))))%nat.
Proof.
  intros Hu. cbn [handle]. unfold login_required. rewrite Hu. unfold suggestions.
  destruct (suggestion_list _ _ _ _) as [l|] eqn:E; cbn [fst page_titles]; [|discriminate].
  intros [= <-].
  destruct (suggestion_list_stages _ _ _ _ _ E) as (s1 & s3 & s4 & H1 & H3 & H4 & ->).
  fold (titles (if is_empty s4 then default_suggestions else s4)).
  pose proof (fun t => investment_rules_titles_all
                         (user_investments (User.id u) (db st)) s1 t) as H2.
  pose proof (fun t => ratio_rule_only _ _ _ t H1) as R. unfold ratio_title in R.
  destruct s4 as [|x s4]; cbn [is_empty].
  - intros _. split; [reflexivity|].
    assert (Hs3 : s3 = []).
    { apply no_titles. intros t Ht.
      apply (proj2 (goal_rules_titles_all _ _ _ t H4)). now left. }
    subst s3.
    assert (Hs2 : forall t, ~ In t (titles (investment_rules
                                              (user_investments (User.id u) (db st)) s1))).
    { intros t Ht. apply (proj2 (high_category_rule_titles_all _ _ _ _ t H3)). now left. }
    destruct (user_investments (User.id u) (db st)) as [|v uvs] eqn:V.
    + exfalso. apply (Hs2 "Start an Emergency Fund"). apply H2. right. left. now split.
    + destruct (Nat.ltb_spec (List.length (nodup string_dec (map Investment.type (v :: uvs)))) 3)
        as [Hlt | Hge]; [|exact Hge].
      exfalso. apply (Hs2 "Diversify Investments"). apply H2. right. right.
      split; [reflexivity|]. split; [discriminate | reflexivity].
  - intros Hin. exfalso. revert Hin.
    rewrite (goal_rules_keep "Track Your Expenses") with (2 := H4)
      by (intros name progress; discriminate).
    rewrite (high_category_rule_keeps "Track Your Expenses") with (2 := H3)
      by (intros c share; discriminate).
    rewrite H2. intros [H | [[H _] | [H _]]]; [destruct (R _ H)| |]; discriminate.
Qed.

Lemma default_suggestions_shown_witness :
  let st := logged_in alice portfolio_store in
  current_user st = Some alice /\
  [ "Track Your Expenses"; "Set Financial Goals"; "Create a Budget" ]
  = titles default_suggestions /\
  (3 <= List.length (nodup string_dec
                       (map Investment.type (user_investments (User.id alice) (db st)))))%nat.
Proof.
  intros st. split; [reflexivity|].
  exact (default_suggestions_shown demo_env st alice _ eq_refl eq_refl (or_introl eq_refl)).
Defined.

(* ================================================================= *)
(** ** The latest transactions on the dashboard *)

Lemma date_ltb_spec (a b : pydate) :
  date_ltb a b = true <->
  year a < year b \/
  (year a = year b /\ (month a < month b \/ (month a = month b /\ day a < day b))).
Proof.
  unfold date_ltb.
  rewrite !orb_true_iff, !andb_true_iff, !orb_true_iff, !andb_true_iff,
    !Z.ltb_lt, !Z.eqb_eq.
  tauto.
Qed.

(** "Not earlier than" is transitive. *)
Lemma date_ltb_false_trans (a b c : pydate) :
  date_ltb a b = false -> date_ltb b c = false -> date_ltb a c = false.
Proof.
  rewrite <- !not_true_iff_false, !date_ltb_spec. lia.
Qed.

Lemma date_ltb_asym (a b : pydate) : date_ltb a b = true -> date_ltb b a = false.
Proof.
  rewrite <- not_true_iff_false, !date_ltb_spec. lia.
Qed.

Section SortedFacts.
Context {R : Type}.
Variable key : R -> pydate.

Lemma insert_desc_In (x : R) (l : list R) (y : R) :
  In y (insert_desc key x l) <-> y = x \/ In y l.
Proof.
  induction l as [|z l IH]; cbn [insert_desc].
  - simpl. intuition congruence.
  - destruct (date_ltb (key x) (key z)).
    + cbn [In]. rewrite IH. intuition congruence.
    + cbn [In]. intuition congruence.
Qed.

Lemma insert_desc_length (x : R) (l : list R) :
  List.length (insert_desc key x l) = S (List.length l).
Proof.
  induction l as [|z l IH]; cbn [insert_desc]; [reflexivity|].
  destruct (date_ltb (key x) (key z)); cbn [List.length]; congruence.
Qed.

Lemma insert_desc_latest_first (x : R) (l : list R) :
  latest_first key l -> latest_first key (insert_desc key x l).
Proof.
  induction l as [|z l IH]; cbn [insert_desc latest_first].
  - intros _. split; [intros y []|exact I].
  - intros [Hz Hl]. destruct (date_ltb (key x) (key z)) eqn:C; cbn [latest_first].
    + split; [|now apply IH].
      intros y Hy. apply insert_desc_In in Hy. destruct Hy as [-> | Hy].
      * now apply date_ltb_asym.
      * now apply Hz.
    + split; [|now split].
      intros y [<- | Hy]; [exact C|].
      apply date_ltb_false_trans with (b := key z); [exact C | now apply Hz].
Qed.

Lemma sorted_desc_In (l : list R) (y : R) : In y (sorted_desc key l) <-> In y l.
Proof.
  unfold sorted_desc. induction l as [|x l IH]; cbn [fold_right]; [tauto|].
  rewrite insert_desc_In, IH. simpl. intuition congruence.
Qed.

Lemma sorted_desc_length (l : list R) : List.length (sorted_desc key l) = List.length l.
Proof.
  unfold sorted_desc. induction l as [|x l IH]; cbn [fold_right]; [reflexivity|].
  rewrite insert_desc_length. cbn [List.length]. congruence.
Qed.

Lemma sorted_desc_latest_first (l : list R) : latest_first key (sorted_desc key l).
Proof.
  unfold sorted_desc. induction l as [|x l IH]; cbn [fold_right]; [exact I|].
  now apply insert_desc_latest_first.
Qed.

Lemma firstn_In_inv (n : nat) : forall (l : list R) (x : R), In x (firstn n l) -> In x l.
Proof.
  induction n as [|n IH]; intros [|z l] x; simpl; try tauto.
  intros [<- | H]; [now left | right; now apply IH].
Qed.

(** The first [n] of a list sorted latest first: sorted, and what is left
    out is not later than what is kept. *)
Lemma firstn_latest_first (n : nat) : forall l : list R,
  latest_first key l ->
  latest_first key (firstn n l) /\
  forall x y, In x (firstn n l) -> In y l -> ~ In y (firstn n l) ->
              date_ltb (key x) (key y) = false.
Proof.
  induction n as [|n IH]; intros l Hl.
  - rewrite firstn_O. split; [exact I | intros x y []].
  - destruct l as [|z l]; cbn [firstn]; [split; [exact I | intros x y []]|].
    destruct Hl as [Hz Hl]. destruct (IH l Hl) as [Hs Hout]. split.
    + cbn [latest_first]. split; [|exact Hs].
      intros y Hy. apply Hz. exact (firstn_In_inv _ _ _ Hy).
    + intros x y [<- | Hx] [-> | Hy] Hnot.
      * exfalso. apply Hnot. now left.
      * now apply Hz.
      * exfalso. apply Hnot. now left.
      * apply Hout; [exact Hx | exact Hy|]. intros H. apply Hnot. now right.
Qed.

Lemma latest_five_intro (rows : list R) :
  latest_five key (firstn 5 (sorted_desc key rows)) rows.
Proof.
  destruct (firstn_latest_first 5 _ (sorted_desc_latest_first rows)) as [Hs Hout].
  split; [|split; [|split]].
  - now rewrite length_firstn, sorted_desc_length.
  - intros x Hx. apply sorted_desc_In. exact (firstn_In_inv _ _ _ Hx).
  - exact Hs.
  - intros x y Hx Hy Hnot. apply Hout; [exact Hx | now apply sorted_desc_In | exact Hnot].
Qed.
End SortedFacts.

(** X19. The dashboard of a logged-in user shows the user's own totals,
    goals and investments, and under 'latest' five of the user's expenses
    and five of the user's incomes (all of them if there are fewer), latest
    first; no expense or income that is left out is later than one that is
    shown. The state is unchanged. *)
Theorem dashboard_contents (env : Env) (st : State) (u : User.t) :
  current_user st = Some u ->
  let ues := user_expenses (User.id u) (db st) in
  let uis := user_incomes (User.id u) (db st) in
  let total_expenses := py_sum (map Expense.amount ues) in
  let total_income := py_sum (map Income.amount uis) in
  exists latest_expenses latest_incomes,
    handle env GetIndex st =
    (Render "index.html" []
       (CtxIndex (User.username u) total_expenses total_income
          (total_income - total_expenses)%float latest_expenses latest_incomes
          (user_goals (User.id u) (db st)) (user_investments (User.id u) (db st))), st) /\
    latest_five Expense.date latest_expenses ues /\
    latest_five Income.date latest_incomes uis.
Proof.
  intros Hu. cbn [handle]. unfold login_required. rewrite Hu. unfold index. cbv zeta.
  eexists. eexists. split; [reflexivity|]. split; apply latest_five_intro.
Qed.

Lemma dashboard_contents_witness :
  let st := logged_in alice demo_store in
  current_user st = Some alice /\
  exists latest_expenses latest_incomes,
    handle demo_env GetIndex st =
    (Render "index.html" []
       (CtxIndex "alice" 1534.5%float 4000%float 2465.5%float latest_expenses latest_incomes
          (user_goals 1 demo_store) (user_investments 1 demo_store)), st) /\
    latest_five Expense.date latest_expenses (user_expenses 1 demo_store) /\
    latest_five Income.date latest_incomes (user_incomes 1 demo_store).
Proof.
  intros st. split; [reflexivity|].
  exact (dashboard_contents demo_env st alice eq_refl).
Defined.

(* ================================================================= *)
(** ** Logging out, and unique credentials *)

(** X20. Logging out keeps the database and ends the session: from the
    state it leaves, every route behind the login gate flashes 'Please log
    in to access this page.', redirects to the login page with the
    requested URL as [next], and changes nothing. *)
Theorem logout_ends_session (env : Env) (st : State) (u : User.t) :
  current_user st = Some u ->
  fst (handle env GetLogout st) = Redirect "login" [("You have been logged out", "success")] /\
  db (snd (handle env GetLogout st)) = db st /\
  forall req, protected req = true ->
    handle env req (snd (handle env GetLogout st))
    = (RedirectNext "login" (url_of req) [("Please log in to access this page.", "message")],
       snd (handle env GetLogout st)).
Proof.
  intros Hu. cbn [handle]. unfold login_required. rewrite Hu. unfold logout. cbn [fst snd db].
  split; [reflexivity|]. split; [reflexivity|].
  intros req Hp. destruct req; try discriminate Hp; reflexivity.
Qed.

Lemma logout_ends_session_witness :
  let st := logged_in alice demo_store in
  current_user st = Some alice /\
  handle demo_env (DeleteExpense 1) (snd (handle demo_env GetLogout st))
  = (RedirectNext "login" ("/api/expenses/<int:expense_id>", Some 1)
       [("Please log in to access this page.", "message")],
     snd (handle demo_env GetLogout st)).
Proof.
  intros st. split; [reflexivity|].
  exact (proj2 (proj2 (logout_ends_session demo_env st alice eq_refl)) (DeleteExpense 1) eq_refl).
Defined.

Lemma emails_stay_unique (env : Env) (req : Request) (st : State) :
  NoDup (map User.email (users (db st))) ->
  NoDup (map User.email (users (db (snd (handle env req st))))).
Proof.
  intros Hunique. destruct (current_user st) as [u|] eqn:Hu.
  - destruct (handle_frame env st u req Hu) as [Husers _]. now rewrite Husers.
  - assert (Hanon : is_authenticated st = false).
    { unfold is_authenticated. now rewrite Hu. }
    destruct req; cbn [handle]; unfold login_required; rewrite ?Hu; try exact Hunique.
    + unfold login. rewrite Hanon. exact Hunique.
    + unfold login. rewrite Hanon.
      destruct (first _ (users (db st))) as [user|]; [|exact Hunique].
      destruct (check_password_hash env _ _); exact Hunique.
    + unfold register. rewrite Hanon. exact Hunique.
    + unfold register. rewrite Hanon.
      destruct (first (fun u => String.eqb (User.username u) username) (users (db st)));
        [exact Hunique|].
      destruct (first (fun u => String.eqb (User.email u) email) (users (db st)))
        as [u1|] eqn:F1; [exact Hunique|].
      cbn [snd db with_db].
      set (new_user := User.mk _ username email _).
      destruct (default_budgets_added (User.id new_user) default_expense_categories
                  (set_users (fun l => l ++ [new_user]) (db st))) as (bs & -> & _).
      cbn [users set_users]. rewrite map_app. cbn [map User.email new_user].
      apply NoDup_app.
      * exact Hunique.
      * repeat constructor. simpl. tauto.
      * intros name Hin [<- | []]. apply in_map_iff in Hin.
        destruct Hin as (u0 & Hname & Hin).
        pose proof (proj1 (first_none_iff _ _) F1 u0 Hin) as H. cbn in H.
        rewrite Hname, String.eqb_refl in H. discriminate.
Qed.

(** X21. No request makes two accounts share a username or an email
    address: if the usernames are pairwise distinct before a request they
    are so after it, and likewise the email addresses. *)
Theorem credentials_stay_unique (env : Env) (req : Request) (st : State) :
  NoDup (map User.username (users (db st))) ->
  NoDup (map User.email (users (db st))) ->
  NoDup (map User.username (users (db (snd (handle env req st))))) /\
  NoDup (map User.email (users (db (snd (handle env req st))))).
Proof.
  intros Hnames Hemails. split.
  - now apply usernames_stay_unique.
  - now apply emails_stay_unique.
Qed.

Lemma credentials_stay_unique_witness :
  let st := logged_out demo_store in
  let req := PostRegister "carol" "carol@example.org" "secret" in
  NoDup (map User.username (users (db st))) /\
  NoDup (map User.email (users (db st))) /\
  NoDup (map User.username (users (db (snd (handle demo_env req st))))) /\
  NoDup (map User.email (users (db (snd (handle demo_env req st))))).
Proof.
  intros st req.
  assert (Hnames : NoDup (map User.username (users (db st)))).
  { repeat constructor; simpl; intuition discriminate. }
  assert (Hemails : NoDup (map User.email (users (db st)))).
  { repeat constructor; simpl; intuition discriminate. }
  split; [exact Hnames|]. split; [exact Hemails|].
  exact (credentials_stay_unique demo_env req st Hnames Hemails).
Defined.

(* ================================================================= *)
(** ** The tables a route writes *)

Lemma unchanged_refl (t : Table) (s : Store) : table_unchanged t s s.
Proof. destruct t; reflexivity. Qed.

Lemma unchanged_trans (t : Table) (s1 s2 s3 : Store) :
  table_unchanged t s1 s2 -> table_unchanged t s2 s3 -> table_unchanged t s1 s3.
Proof. destruct t; cbn [table_unchanged]; congruence. Qed.

Lemma set_budgets_tables (f : list Budget.t -> list Budget.t) (s : Store) (t : Table) :
  t <> Budgets -> table_unchanged t s (set_budgets f s).
Proof. destruct t; intros H; try reflexivity. now destruct H. Qed.

Lemma add_budget_tables category amount uid (s : Store) (t : Table) :
  t <> Budgets -> table_unchanged t s (add_budget category amount uid s).
Proof. apply set_budgets_tables. Qed.

Lemma ensure_tables (uid : Z) (t : Table) (cats : list string) : forall (s : Store) (d : dict float),
  t <> Budgets ->
  table_unchanged t s
    (fst (fold_left
            (fun sd category =>
               if dict_mem category (snd sd) then sd
               else (add_budget category 0%float uid (fst sd),
                     dict_set category 0%float (snd sd)))
            cats (s, d))).
Proof.
  induction cats as [|c cats IH]; intros s d Ht; cbn [fold_left fst snd].
  - apply unchanged_refl.
  - destruct (dict_mem c d); [now apply IH|].
    eapply unchanged_trans; [now apply (add_budget_tables c 0%float uid) | now apply IH].
Qed.

Lemma post_budgets_tables (uid : Z) (form : dict (field float)) (t : Table) (s0 : Store)
  (cats : list string) : forall acc,
  t <> Budgets ->
  match written acc with Ok s => table_unchanged t s0 s | Raise _ => True end ->
  match written (fold_left (post_budget uid form) cats acc) with
  | Ok s => table_unchanged t s0 s
  | Raise _ => True
  end.
Proof.
  induction cats as [|c cats IH]; intros acc Ht H; cbn [fold_left]; [exact H|].
  apply IH; [exact Ht|]. unfold post_budget, written in *.
  destruct acc as [[s last]|x]; cbn [bind fst snd] in *; [|trivial].
  destruct (with_default 0%float _) as [amount|]; cbn [bind]; [|trivial].
  destruct (not_null last) as [flushed|]; cbn [bind]; [|trivial].
  destruct (first _ (budgets s)); cbn [bind fst]; (eapply unchanged_trans; [exact H|]).
  - now apply set_budgets_tables.
  - now apply add_budget_tables.
Qed.

Lemma post_budgets_tables_from (uid : Z) (form : dict (field float)) (t : Table)
  (s0 : Store) (cats : list string) (s : Store) (last : float) (s' : Store) :
  t <> Budgets ->
  table_unchanged t s0 s ->
  commit_budgets (fold_left (post_budget uid form) cats (Ok (s, last))) = Ok s' ->
  table_unchanged t s0 s'.
Proof.
  intros Ht H C. apply commit_budgets_written in C.
  pose proof (post_budgets_tables uid form t s0 cats (Ok (s, last)) Ht H) as P.
  rewrite C in P. exact P.
Qed.

Lemma put_budgets_tables (uid : Z) (t : Table) (s0 : Store) (data : dict (field float)) :
  forall acc,
  t <> Budgets ->
  match acc with Ok s => table_unchanged t s0 s | Raise _ => True end ->
  match fold_left (put_budget uid) data acc with
  | Ok s => table_unchanged t s0 s
  | Raise _ => True
  end.
Proof.
  induction data as [|item data IH]; intros acc Ht H; cbn [fold_left]; [exact H|].
  apply IH; [exact Ht|]. unfold put_budget. destruct acc as [s|x]; cbn [bind]; [|trivial].
  destruct (first _ (budgets s));
    destruct (required (snd item)) as [converted|]; cbn [bind]; trivial;
    destruct (not_null converted) as [amount|]; cbn [bind]; trivial;
    (eapply unchanged_trans; [exact H|]).
  - now apply set_budgets_tables.
  - now apply add_budget_tables.
Qed.

Lemma budget_planner_tables post (u : User.t) (st : State) (t : Table) :
  t <> Budgets -> table_unchanged t (db st) (db (snd (budget_planner post u st))).
Proof.
  intros Ht. unfold budget_planner.
  assert (Hpending : table_unchanged t (db st)
            (fst (ensure_budgets (User.id u) (db st)
                    (budget_dict_of (user_budgets (User.id u) (db st)))))).
  { now apply ensure_tables. }
  assert (Hcommitted : table_unchanged t (db st)
            (if (List.length (snd (ensure_budgets (User.id u) (db st)
                                     (budget_dict_of (user_budgets (User.id u) (db st)))))
                 =? List.length default_expense_categories)%nat
             then db st
             else fst (ensure_budgets (User.id u) (db st)
                         (budget_dict_of (user_budgets (User.id u) (db st)))))).
  { destruct (_ =? _)%nat; [apply unchanged_refl | exact Hpending]. }
  destruct post as [form|].
  - set (pending := fst (ensure_budgets (User.id u) (db st)
                                (budget_dict_of (user_budgets (User.id u) (db st))))) in *.
    destruct (commit_budgets
                (fold_left (post_budget (User.id u) form) default_expense_categories
                   (Ok (pending, 0%float)))) as [s'|x] eqn:C; cbn [snd db with_db].
    + exact (post_budgets_tables_from _ _ _ _ _ _ _ _ Ht Hpending C).
    + exact Hcommitted.
  - destruct (budget_data _ _); cbn [snd db with_db]; exact Hcommitted.
Qed.

Lemma update_budget_tables data (u : User.t) (st : State) (t : Table) :
  t <> Budgets -> table_unchanged t (db st) (db (snd (update_budget data u st))).
Proof.
  intros Ht. unfold update_budget.
  pose proof (put_budgets_tables (User.id u) t (db st) data (Ok (db st)) Ht
                (unchanged_refl t (db st))) as H.
  destruct (fold_left _ data _) as [s'|x]; cbn [snd db with_db];
    [exact H | apply unchanged_refl].
Qed.

Lemma register_tables (env : Env) post (st : State) (t : Table) :
  t <> Users -> t <> Budgets -> table_unchanged t (db st) (db (snd (register env post st))).
Proof.
  intros Hu Hb. unfold register.
  destruct (is_authenticated st); [apply unchanged_refl|].
  destruct post as [[[username email] password]|]; [|apply unchanged_refl].
  destruct (first _ (users (db st))); [apply unchanged_refl|].
  destruct (first _ (users (db st))); [apply unchanged_refl|].
  cbn [snd db with_db].
  set (new_user := User.mk _ username email _).
  destruct (default_budgets_added (User.id new_user) default_expense_categories
              (set_users (fun l => l ++ [new_user]) (db st))) as (bs & -> & _).
  destruct t; try reflexivity; contradiction.
Qed.

(** Everything but the budget routes and [register]. *)
Ltac simple_handler :=
  unfold login, register, expense_tracker, add_expense, delete_expense,
    income_tracker, add_income, delete_income,
    goal_tracker, add_goal, update_goal, delete_goal,
    investment_tracker, add_investment, update_investment, delete_investment,
    suggestions, index, logout, get_expenses, get_incomes,
    get_goals, get_investments, get_budget, get_financial_summary;
  repeat (match goal with
          | |- context [match ?x with _ => _ end] => destruct x
          end; cbn [fst snd db with_db]).

Lemma handle_tables (env : Env) (req : Request) (st : State) (t : Table) :
  ~ In t (writes req) -> table_unchanged t (db st) (db (snd (handle env req st))).
Proof.
  intros Ht.
  destruct req; cbn [handle writes] in Ht |- *; unfold login_required;
    try (destruct (current_user st) as [u|]; [|apply unchanged_refl]);
    first
      [ apply budget_planner_tables; intros ->; apply Ht; simpl; tauto
      | apply update_budget_tables; intros ->; apply Ht; simpl; tauto
      | apply register_tables; intros ->; apply Ht; simpl; tauto
      | simple_handler; destruct t; first [reflexivity | exfalso; apply Ht; simpl; tauto] ].
Qed.

Lemma handle_session (env : Env) (req : Request) (st : State) :
  changes_session req = false ->
  session_user_id (snd (handle env req st)) = session_user_id st /\
  session_username (snd (handle env req st)) = session_username st.
Proof.
  intros Hs.
  destruct req; try discriminate Hs; cbn [handle]; unfold login_required;
    try (destruct (current_user st) as [u|]; [|split; reflexivity]);
    unfold budget_planner, update_budget; simple_handler; split; reflexivity.
Qed.

(** X22. A route writes only the tables that belong to it: the expense
    routes the expenses, and so on; the budget routes and the registration
    the budgets; the registration alone the users; every other route
    writes no table at all. The session is changed by a login and by
    [/logout] only. *)
Theorem routes_write_their_tables (env : Env) (req : Request) (st : State) :
  (forall t, ~ In t (writes req) ->
             table_unchanged t (db st) (db (snd (handle env req st)))) /\
  (changes_session req = false ->
   session_user_id (snd (handle env req st)) = session_user_id st /\
   session_username (snd (handle env req st)) = session_username st).
Proof.
  split.
  - intros t. apply handle_tables.
  - apply handle_session.
Qed.

(* ================================================================= *)
(** ** One budget per user and category *)

Lemma map_update_first {R K : Type} (g : R -> K) (q : R -> bool) (f : R -> R) (l : list R) :
  (forall r, g (f r) = g r) -> map g (update_first q f l) = map g l.
Proof.
  intros Hf. induction l as [|y l IH]; cbn [update_first map]; [reflexivity|].
  destruct (q y); cbn [map]; [now rewrite Hf | now rewrite IH].
Qed.

Lemma budget_keys_add category amount uid (s : Store) :
  budget_keys (add_budget category amount uid s) = budget_keys s ++ [(uid, category)].
Proof. unfold budget_keys, add_budget. cbn [budgets set_budgets]. now rewrite map_app. Qed.

Lemma budget_keys_set_amount (q : Budget.t -> bool) (amount : float) (s : Store) :
  budget_keys
    (set_budgets
       (update_first q
          (fun b => Budget.mk (Budget.id b) (Budget.category b) amount (Budget.user_id b)))
       s)
  = budget_keys s.
Proof. unfold budget_keys. cbn [budgets set_budgets]. now apply map_update_first. Qed.

Lemma budget_key_In (uid : Z) (c : string) (s : Store) :
  In (uid, c) (budget_keys s) <->
  exists b, In b (budgets s) /\ Budget.user_id b = uid /\ Budget.category b = c.
Proof.
  unfold budget_keys. rewrite in_map_iff. split.
  - intros (b & [= H1 H2] & Hin). now exists b.
  - intros (b & Hin & <- & <-). now exists b.
Qed.

(** A query by category and owner that finds nothing: the pair is not in
    the table. *)
Lemma first_none_key (uid : Z) (c : string) (s : Store) :
  first (fun b => String.eqb (Budget.category b) c && (Budget.user_id b =? uid)) (budgets s)
  = None ->
  ~ In (uid, c) (budget_keys s).
Proof.
  intros F Hin. apply budget_key_In in Hin. destruct Hin as (b & Hin & Hu & Hc).
  pose proof (proj1 (first_none_iff _ _) F b Hin) as H. cbn in H.
  rewrite Hu, Hc, String.eqb_refl, Z.eqb_refl in H. discriminate.
Qed.

Section BudgetKeys.
Variable ids : list Z.
Variable uid : Z.
Hypothesis Huid : In uid ids.

Local Abbreviation good s :=
  (NoDup (budget_keys s) /\ forall k, In k (budget_keys s) -> In (fst k) ids).

Lemma good_add category amount (s : Store) :
  good s -> ~ In (uid, category) (budget_keys s) -> good (add_budget category amount uid s).
Proof.
  intros [Hnd Hown] Hfresh. rewrite budget_keys_add. split.
  - apply NoDup_app; [exact Hnd | repeat constructor; simpl; tauto|].
    intros k Hk [<- | []]. contradiction.
  - intros k Hk. apply in_app_iff in Hk. destruct Hk as [Hk | [<- | []]]; [now apply Hown|].
    exact Huid.
Qed.

Lemma good_ensure (cats : list string) : forall (s : Store) (d : dict float),
  good s ->
  (forall c, In (uid, c) (budget_keys s) -> In c (dict_keys d)) ->
  good (fst (fold_left
               (fun sd category =>
                  if dict_mem category (snd sd) then sd
                  else (add_budget category 0%float uid (fst sd),
                        dict_set category 0%float (snd sd)))
               cats (s, d))).
Proof.
  induction cats as [|c cats IH]; intros s d Hs Hd; cbn [fold_left fst snd]; [exact Hs|].
  destruct (dict_mem c d) eqn:E; [now apply IH|].
  apply IH.
  - apply good_add; [exact Hs|]. intros Hin. apply Hd in Hin.
    apply dict_mem_In in Hin. congruence.
  - intros c'. rewrite budget_keys_add, in_app_iff, dict_set_keys_In.
    intros [Hin | [[= ->] | []]]; [left; now apply Hd | now right].
Qed.

Lemma good_post (form : dict (field float)) (cats : list string) : forall acc,
  match written acc with Ok s => good s | Raise _ => True end ->
  match written (fold_left (post_budget uid form) cats acc) with
  | Ok s => good s
  | Raise _ => True
  end.
Proof.
  induction cats as [|c cats IH]; intros acc H; cbn [fold_left]; [exact H|].
  apply IH. unfold post_budget, written in *.
  destruct acc as [[s last]|x]; cbn [bind fst snd] in *; [|trivial].
  destruct (with_default 0%float _) as [amount|]; cbn [bind]; [|trivial].
  destruct (not_null last) as [flushed|]; cbn [bind]; [|trivial].
  destruct (first _ (budgets s)) eqn:F; cbn [bind fst].
  - now rewrite budget_keys_set_amount.
  - apply good_add; [exact H | now apply first_none_key].
Qed.

Lemma good_post_from (form : dict (field float)) (cats : list string)
  (s : Store) (last : float) (s' : Store) :
  good s ->
  commit_budgets (fold_left (post_budget uid form) cats (Ok (s, last))) = Ok s' ->
  good s'.
Proof.
  intros H C. apply commit_budgets_written in C.
  pose proof (good_post form cats (Ok (s, last)) H) as P.
  rewrite C in P. exact P.
Qed.

Lemma good_put (data : dict (field float)) : forall acc,
  match acc with Ok s => good s | Raise _ => True end ->
  match fold_left (put_budget uid) data acc with
  | Ok s => good s
  | Raise _ => True
  end.
Proof.
  induction data as [|item data IH]; intros acc H; cbn [fold_left]; [exact H|].
  apply IH. unfold put_budget. destruct acc as [s|x]; cbn [bind]; [|trivial].
  destruct (first _ (budgets s)) eqn:F;
    destruct (required (snd item)) as [converted|]; cbn [bind]; trivial;
    destruct (not_null converted) as [amount|]; cbn [bind]; trivial.
  - now rewrite budget_keys_set_amount.
  - apply good_add; [exact H | now apply first_none_key].
Qed.
End BudgetKeys.

Lemma current_user_In (st : State) (u : User.t) :
  current_user st = Some u -> In (User.id u) (map User.id (users (db st))).
Proof.
  unfold current_user, load_user, first.
  destruct (session_user_id st) as [uid|]; [|discriminate].
  intros H. apply find_some in H. apply in_map. apply H.
Qed.

Lemma budget_planner_consistent post (u : User.t) (st : State) :
  current_user st = Some u ->
  budgets_consistent (db st) -> budgets_consistent (db (snd (budget_planner post u st))).
Proof.
  intros Hu Hs. unfold budgets_consistent.
  rewrite (budget_planner_tables post u st Users) by discriminate.
  apply current_user_In in Hu. revert Hs. unfold budgets_consistent.
  generalize (map User.id (users (db st))) Hu. intros ids Huid Hs.
  unfold budget_planner.
  assert (Hpending :
            NoDup (budget_keys (fst (ensure_budgets (User.id u) (db st)
                                       (budget_dict_of (user_budgets (User.id u) (db st)))))) /\
            forall k, In k (budget_keys (fst (ensure_budgets (User.id u) (db st)
                                                (budget_dict_of
                                                   (user_budgets (User.id u) (db st))))))
                      -> In (fst k) ids).
  { apply (good_ensure ids (User.id u) Huid default_expense_categories); [exact Hs|].
    intros c Hin. apply budget_dict_of_keys. apply budget_key_In in Hin.
    destruct Hin as (b & Hin & Hb & <-). apply in_map. unfold user_budgets.
    apply filter_In. split; [exact Hin|]. now apply Z.eqb_eq. }
  destruct post as [form|].
  - set (pending := fst (ensure_budgets (User.id u) (db st)
                                (budget_dict_of (user_budgets (User.id u) (db st))))) in *.
    destruct (commit_budgets
                (fold_left (post_budget (User.id u) form) default_expense_categories
                   (Ok (pending, 0%float)))) as [s'|x] eqn:C; cbn [snd db with_db].
    + exact (good_post_from ids (User.id u) Huid form _ _ _ _ Hpending C).
    + destruct (_ =? _)%nat; [exact Hs | exact Hpending].
  - destruct (budget_data _ _); cbn [snd db with_db];
      (destruct (_ =? _)%nat; [exact Hs | exact Hpending]).
Qed.

Lemma update_budget_consistent data (u : User.t) (st : State) :
  current_user st = Some u ->
  budgets_consistent (db st) -> budgets_consistent (db (snd (update_budget data u st))).
Proof.
  intros Hu Hs. unfold budgets_consistent.
  rewrite (update_budget_tables data u st Users) by discriminate.
  apply current_user_In in Hu. revert Hs. unfold budgets_consistent.
  generalize (map User.id (users (db st))) Hu. intros ids Huid Hs.
  unfold update_budget.
  pose proof (good_put ids (User.id u) Huid data (Ok (db st)) Hs) as H.
  destruct (fold_left _ data _) as [s'|x]; cbn [snd db with_db]; [exact H | exact Hs].
Qed.

Lemma owned_keys (uid : Z) (bs : list Budget.t) :
  Forall (fun b => Budget.amount b = 0%float /\ Budget.user_id b = uid) bs ->
  map (fun b => (Budget.user_id b, Budget.category b)) bs
  = map (pair uid) (map Budget.category bs).
Proof.
  induction 1 as [|b bs [_ Hb] _ IH]; cbn [map]; [reflexivity|]. now rewrite Hb, IH.
Qed.

Lemma NoDup_map_pair {A B : Type} (a : A) (l : list B) :
  NoDup l -> NoDup (map (pair a) l).
Proof.
  induction 1 as [|b l Hb _ IH]; cbn [map]; constructor; [|exact IH].
  intros Hin. apply in_map_iff in Hin. destruct Hin as (b' & [= ->] & Hin). contradiction.
Qed.

Lemma register_consistent (env : Env) post (st : State) :
  budgets_consistent (db st) -> budgets_consistent (db (snd (register env post st))).
Proof.
  intros Hs. unfold register.
  destruct (is_authenticated st); [exact Hs|].
  destruct post as [[[username email] password]|]; [|exact Hs].
  destruct (first _ (users (db st))); [exact Hs|].
  destruct (first _ (users (db st))); [exact Hs|].
  cbn [snd db with_db].
  set (new_user := User.mk _ username email _).
  destruct (default_budgets_added (User.id new_user) default_expense_categories
              (set_users (fun l => l ++ [new_user]) (db st))) as (bs & -> & Hcats & Hall).
  destruct Hs as [Hnd Hown]. unfold budgets_consistent, budget_keys in *.
  cbn [budgets users set_users]. rewrite !map_app, (owned_keys _ _ Hall), Hcats.
  cbn [map User.id new_user].
  assert (Hfresh : forall k, In k (map (fun b => (Budget.user_id b, Budget.category b))
                                     (budgets (db st))) ->
                             fst k <> next_id (map User.id (users (db st)))).
  { intros k Hk Heq. apply Hown in Hk. rewrite Heq in Hk. now apply next_id_fresh in Hk. }
  split.
  - apply NoDup_app.
    + exact Hnd.
    + apply NoDup_map_pair, default_expense_categories_NoDup.
    + intros k Hk Hk'. apply in_map_iff in Hk'. destruct Hk' as (c & <- & _).
      now apply (Hfresh _ Hk).
  - intros k Hk. apply in_app_iff. apply in_app_iff in Hk. destruct Hk as [Hk | Hk].
    + left. now apply Hown.
    + right. apply in_map_iff in Hk. destruct Hk as (c & <- & _). now left.
Qed.

(** X23. No request gives a user a second budget row for a category, nor a
    budget row without an owner: if the pairs of owner and category are
    pairwise distinct and every owner is a stored user, this is so after
    any request. *)
Theorem budgets_stay_consistent (env : Env) (req : Request) (st : State) :
  budgets_consistent (db st) -> budgets_consistent (db (snd (handle env req st))).
Proof.
  intros Hs.
  assert (Hsame : ~ In Users (writes req) -> ~ In Budgets (writes req) ->
                  budgets_consistent (db (snd (handle env req st)))).
  { intros HU HB. unfold budgets_consistent, budget_keys.
    rewrite (handle_tables env req st Users HU), (handle_tables env req st Budgets HB).
    exact Hs. }
  destruct req;
    try (apply Hsame; simpl; intuition discriminate);
    cbn [handle]; unfold login_required.
  - now apply register_consistent.
  - destruct (current_user st) as [u|] eqn:Hu; [|exact Hs].
    now apply budget_planner_consistent.
  - destruct (current_user st) as [u|] eqn:Hu; [|exact Hs].
    now apply budget_planner_consistent.
  - destruct (current_user st) as [u|] eqn:Hu; [|exact Hs].
    now apply update_budget_consistent.
Qed.

Lemma budgets_stay_consistent_witness :
  let st := logged_in alice demo_store in
  budgets_consistent (db st) /\
  budgets_consistent (db (snd (handle demo_env (UpdateBudget [("Fun", Value 50%float)]) st))).
Proof.
  intros st.
  assert (Hs : budgets_consistent (db st)).
  { split.
    - repeat (constructor; [simpl; intuition discriminate|]). constructor.
    - intros k Hk. simpl in Hk. simpl.
      destruct Hk as [<- | [<- | [<- | []]]]; simpl; tauto. }
  split; [exact Hs|].
  exact (budgets_stay_consistent demo_env _ st Hs).
Defined.

(* ================================================================= *)
(** ** Writing budgets and reading them back *)







Section BudgetAmounts.
Variable uid : Z.

(** The amount of the user's budget for a category, as the handlers look
    it up. *)
Local Abbreviation amount_of s c :=
  (option_map Budget.amount
     (first (fun b => String.eqb (Budget.category b) c && (Budget.user_id b =? uid))
        (budgets s))).








End BudgetAmounts.







(** A NaN posted for one category is refused when the next iteration
    queries, which on the form comes after that iteration has converted its
    own field and in the JSON endpoint before. *)
Lemma budget_refusal_order :
  let st := logged_in alice demo_store in
  fst (handle demo_env (PostBudgetPlanner [ ("budget_Housing", Value nan) ]) st)
  = ServerError IntegrityError /\
  fst (handle demo_env
         (PostBudgetPlanner [ ("budget_Housing", Value nan);
                              ("budget_Transportation", Malformed) ]) st)
  = ServerError ValueError /\
  fst (handle demo_env
         (PostBudgetPlanner [ ("budget_Housing", Value nan); ("budget_Food", Malformed) ]) st)
  = ServerError IntegrityError /\
  fst (handle demo_env (UpdateBudget [ ("Housing", Value nan); ("Food", Malformed) ]) st)
  = ServerError IntegrityError.
Proof. repeat split; vm_compute; reflexivity. Qed.
